(** * bond_reconcile: reconciling reference observations with current ones

    A shallow embedding of [pybond/bond/bond_reconcile.py] and the proofs of
    its specification.

    The Python code is effectful: it prints, prompts the user, reads and
    writes files and runs an external merge tool.  All of that is threaded
    explicitly through a [world]; a computation either returns a value,
    raises a Python exception or blocks forever waiting for a user who never
    answers.

    Idealisations of the operating system, stated once:
    - a file system is a finite map from paths to the bytes of regular files;
      opening a file for writing and unlinking an existing file never fail;
    - the user is a finite script of answers; end of file on the terminal
      raises [EOFError] as [raw_input] does;
    - [os.system] is an arbitrary function of the world: it sees the command
      and the file system and yields an exit code and a new file system;
    - [difflib.unified_diff] is a parameter. *)

From Stdlib Require Import ZArith String Ascii List Lia.
From stdpp Require Import gmap strings list fin_maps.

Local Open Scope Z_scope.
Local Open Scope nat_scope.

(** ** Python values used by the module *)

(** [no_save=None] or a string giving the reason; [if no_save:] is Python
    truthiness: [None] and the empty string are false. *)
Definition truthy (no_save : option string) : bool :=
  match no_save with
  | None => false
  | Some s => negb (String.eqb s "")
  end.

(** [str(x)] of an optional string, as [print] and [format] render it. *)
Definition str (x : option string) : string :=
  match x with
  | None => "None"
  | Some s => s
  end.

(** [''.join(lines)], also what [f.writelines(lines)] puts in a file. *)
Definition join (sep : string) (l : list string) : string := String.concat sep l.

(** [string.replace(s, old, new, 1)]: the first occurrence only.  An empty
    [old] matches at position 0 of a string that has characters; an empty [s]
    is returned as it is whatever [old] is (with a count given, Python 2.7
    leaves the empty string alone). *)
Definition replace_first (s old new : string) : string :=
  match s with
  | EmptyString => s
  | String _ _ =>
      match String.index 0 old s with
      | Some i =>
          String.substring 0 i s +:+ new +:+
          String.substring (i + String.length old)
                           (String.length s - (i + String.length old)) s
      | None => s
      end
  end.

(** [f.readlines()] on a file's bytes: every line keeps its newline, a last
    line without newline is a line too. *)
Fixpoint readlines_from (cur : string) (s : string) : list string :=
  match s with
  | EmptyString => if String.eqb cur "" then [] else [cur]
  | String c rest =>
      if Ascii.eqb c "010"%char
      then (cur +:+ String c EmptyString) :: readlines_from "" rest
      else readlines_from (cur +:+ String c EmptyString) rest
  end.

Definition readlines (content : string) : list string := readlines_from "" content.

(** [next(iterator, default)] on an iterator given by its items. *)
Definition next {A : Type} (it : list A) (default : A) : A :=
  match it with
  | x :: _ => x
  | [] => default
  end.

(** ** The world and the effects *)

Inductive exn : Type :=
| IndexError
| EOFError
| IOError
| OSError
| UnboundLocalError
| AssertionError (msg : string).

Inductive event : Type :=
| Printed (what : string)                       (* print(what) *)
| Prompted (prompt : string)                    (* raw_input(prompt) *)
| DialogShown (before_prompt after_prompt content : string)
              (options : list string)           (* a modal dialog *)
| Invoked (cmd : string).                       (* os.system(cmd) *)

Record world : Type := World {
  fs : gmap string string;        (* regular files: path -> bytes *)
  isatty : bool;                  (* sys.stdin.isatty() *)
  stdin : list string;            (* lines the user still types *)
  dialog_answers : list string;   (* what the user still picks in dialogs *)
  rng : nat -> string;            (* results of _random_string, in order *)
  rng_pos : nat;
  shell : string -> gmap string string -> Z * gmap string string;
  environ : option string;        (* os.environ.get('BOND_RECONCILE') *)
  out : list event                (* everything shown or run so far *)
}.

Definition with_fs (m : gmap string string) (w : world) : world :=
  World m (isatty w) (stdin w) (dialog_answers w) (rng w) (rng_pos w)
        (shell w) (environ w) (out w).
Definition with_stdin (l : list string) (w : world) : world :=
  World (fs w) (isatty w) l (dialog_answers w) (rng w) (rng_pos w)
        (shell w) (environ w) (out w).
Definition with_dialog_answers (l : list string) (w : world) : world :=
  World (fs w) (isatty w) (stdin w) l (rng w) (rng_pos w)
        (shell w) (environ w) (out w).
Definition with_rng_pos (n : nat) (w : world) : world :=
  World (fs w) (isatty w) (stdin w) (dialog_answers w) (rng w) n
        (shell w) (environ w) (out w).
Definition emit (e : event) (w : world) : world :=
  World (fs w) (isatty w) (stdin w) (dialog_answers w) (rng w) (rng_pos w)
        (shell w) (environ w) (out w ++ [e]).

(** The outcome of running a piece of Python. *)
Inductive result (A : Type) : Type :=
| Ok (a : A)
| Raise (e : exn)
| Blocked.            (* waits forever: nothing after it runs *)
Arguments Ok {A} a.
Arguments Raise {A} e.
Arguments Blocked {A}.

Definition M (S A : Type) : Type := S -> result A * S.

Definition ret {S A : Type} (a : A) : M S A := fun s => (Ok a, s).

Definition raise {S A : Type} (e : exn) : M S A := fun s => (Raise e, s).

Definition bind {S A B : Type} (c : M S A) (k : A -> M S B) : M S B :=
  fun s =>
    match c s with
    | (Ok a, s') => k a s'
    | (Raise e, s') => (Raise e, s')
    | (Blocked, s') => (Blocked, s')
    end.

Notation "x <- c ;; k" := (bind c (fun x => k))
  (at level 100, c at next level, right associativity).
Notation "c ;; k" := (bind c (fun _ => k))
  (at level 100, right associativity).

(** [if cond: body] with no else branch. *)
Definition when {S : Type} (cond : bool) (body : M S unit) : M S unit :=
  if cond then body else ret tt.

(** [try: body finally: fin].  The handler runs after a return and after an
    exception; an exception of the handler replaces the pending outcome.  A
    body that blocks never reaches the handler. *)
Definition try_finally {S A : Type} (body : M S A) (fin : M S unit) : M S A :=
  fun s =>
    match body s with
    | (Blocked, s') => (Blocked, s')
    | (r, s') =>
        match fin s' with
        | (Ok _, s'') => (r, s'')
        | (Raise e, s'') => (Raise e, s'')
        | (Blocked, s'') => (Blocked, s'')
        end
    end.

(** A function's local variables next to the world. *)
Definition lift {L A : Type} (c : M world A) : M (L * world) A :=
  fun s =>
    let (r, w') := c (snd s) in (r, (fst s, w')).

Definition get_local {L : Type} : M (L * world) L := fun s => (Ok (fst s), s).

Definition set_local {L : Type} (l : L) : M (L * world) unit :=
  fun s => (Ok tt, (l, snd s)).

(** [t[-1]] *)
Definition getitem_last {S : Type} (t : list string) : M S string :=
  match last t with
  | Some x => ret x
  | None => raise IndexError
  end.

(** [l[-1] = f(l[-1])] *)
Definition update_last {S : Type} (f : string -> string) (l : list string)
  : M S (list string) :=
  match last l with
  | Some x => ret (removelast l ++ [f x])
  | None => raise IndexError
  end.

Definition print (what : string) : M world unit :=
  fun w => (Ok tt, emit (Printed what) w).

(** [raw_input(prompt)]: shows the prompt, then reads one line. *)
Definition raw_input (prompt : string) : M world string :=
  fun w =>
    let w1 := emit (Prompted prompt) w in
    match stdin w1 with
    | [] => (Raise EOFError, w1)
    | line :: rest => (Ok line, with_stdin rest w1)
    end.

Definition sys_stdin_isatty : M world bool := fun w => (Ok (isatty w), w).

Definition os_path_isfile (path : string) : M world bool :=
  fun w => (Ok (bool_decide (is_Some (fs w !! path))), w).

Definition os_unlink (path : string) : M world unit :=
  fun w =>
    match fs w !! path with
    | Some _ => (Ok tt, with_fs (delete path (fs w)) w)
    | None => (Raise OSError, w)
    end.

(** [with open(path, 'r') as f: f.readlines()] *)
Definition open_readlines (path : string) : M world (list string) :=
  fun w =>
    match fs w !! path with
    | Some content => (Ok (readlines content), w)
    | None => (Raise IOError, w)
    end.

(** [with open(path, 'w') as f: f.writelines(lines)] *)
Definition open_writelines (path : string) (lines : list string) : M world unit :=
  fun w => (Ok tt, with_fs (<[path := join "" lines]> (fs w)) w).

Definition os_system (cmd : string) : M world Z :=
  fun w =>
    let w1 := emit (Invoked cmd) w in
    let code_files := shell w1 cmd (fs w1) in
    (Ok (fst code_files), with_fs (snd code_files) w1).

Definition BOLD_CHAR : string := String (ascii_of_nat 27) "[1m".
Definition RESET_CHAR : string := String (ascii_of_nat 27) "[0m".

(** Modelled from the spec: [OptionDialog.create_dialog_get_value] of
    [bond_dialog], which is not part of the sources at hand.  The dialog shows
    the three-part prompt and the options and returns the chosen label, which
    is one of the options: a choice that is none of them yields the default,
    the last option.  With nobody to answer, the modal window stays open. *)
Definition create_dialog_get_value
    (before_prompt after_prompt content : string) (options : list string)
  : M world string :=
  fun w =>
    let w1 := emit (DialogShown before_prompt after_prompt content options) w in
    match dialog_answers w1 with
    | [] => (Blocked, w1)
    | choice :: rest =>
        (default <- getitem_last options ;;
         ret (next (List.filter (String.eqb choice) options) default))
          (with_dialog_answers rest w1)
    end.

(** [difflib.unified_diff(a, b, fromfile, tofile)], as a list. *)
Definition differ : Type :=
  list string -> list string -> string -> string -> list string.

(** [self.invoke_tool]: what a subclass provides.  The result is [None] for a
    rejected difference and the lines of the new reference otherwise. *)
Definition tool : Type :=
  string -> list string -> list string -> list string -> option string ->
  M world (option (list string)).

(** ** class ReconcileTool *)
Module ReconcileTool.

Definition TMP_FILE_BASE_NAME : string := "/tmp/bond_tmp_".

Definition _invoke_command (cmd : string) : M world Z := os_system cmd.

Definition _get_user_input_console
    (before_prompt after_prompt content : string)
    (options single_char_options : list string) : M world string :=
  opts_with_single_char <-
    update_last (fun o => BOLD_CHAR +:+ o +:+ RESET_CHAR)
      (map (fun oc => replace_first (fst oc) (snd oc) ("[" +:+ snd oc +:+ "]"))
           (zip options single_char_options)) ;;
  let swap := negb (String.eqb before_prompt "") && String.eqb after_prompt "" in
  let after_prompt := if swap then before_prompt else after_prompt in
  let before_prompt := if swap then "" else before_prompt in
  when (negb (String.eqb before_prompt ""))
       (print (BOLD_CHAR +:+ before_prompt +:+ RESET_CHAR)) ;;
  when (negb (String.eqb content "")) (print content) ;;
  response <- raw_input (BOLD_CHAR +:+ after_prompt +:+ RESET_CHAR +:+ " (" +:+
                         join " | " opts_with_single_char +:+ "): ") ;;
  if String.length response =? 0 then
    getitem_last options
  else if String.length response =? 1 then
    default <- getitem_last options ;;
    ret (next (map fst (List.filter (fun oc => String.eqb (snd oc) response)
                                    (zip options single_char_options)))
              default)
  else
    default <- getitem_last options ;;
    ret (next (List.filter (fun opt => String.eqb opt response) options) default).

Definition _get_user_input_dialog
    (before_prompt after_prompt content : string) (options : list string)
  : M world string :=
  create_dialog_get_value before_prompt after_prompt content options.

Definition _get_user_input
    (before_prompt after_prompt content : string)
    (options single_char_options : list string) : M world string :=
  tty <- sys_stdin_isatty ;;
  if tty then
    _get_user_input_console before_prompt after_prompt content
                            options single_char_options
  else
    print "System console not found; using a dialog box to retrieve input instead." ;;
    _get_user_input_dialog before_prompt after_prompt content options.

Definition _print (what : string) : M world unit := print what.

Definition _random_string : M world string :=
  fun w => (Ok (rng w (rng_pos w)), with_rng_pos (S (rng_pos w)) w).

Definition _tmp_file_name (flavor : string) : M world string :=
  r <- _random_string ;;
  ret (TMP_FILE_BASE_NAME +:+ r +:+ "." +:+ flavor).

Definition _compute_diff (unified_diff : differ)
    (reference_lines current_lines : list string) : list string :=
  unified_diff reference_lines current_lines "reference" "current".

Definition get_diff (unified_diff : list string) : string :=
  if 0 <? length unified_diff then join "" unified_diff
  else "No differences in observations.".

Definition invoke_tool : tool :=
  fun test_name reference_lines current_lines unified_diff no_save =>
    raise (AssertionError "Must override").

Section Reconcile.

Variable unified_diff : differ.
Variable self_invoke_tool : tool.

Definition reconcile (test_name reference_file : string)
    (current_lines : list string) (no_save : option string) : M world bool :=
  found <- os_path_isfile reference_file ;;
  reference_lines <-
    (if found then open_readlines reference_file
     else
       _print
         ("WARNING: No reference observation file found for " +:+ test_name +:+
          ": " +:+ reference_file) ;;
       ret []) ;;
  let unified_diff := _compute_diff unified_diff reference_lines current_lines in
  if length unified_diff =? 0 then
    ret true
  else
    merged_lines <- self_invoke_tool test_name reference_lines current_lines
                                     unified_diff no_save ;;
    match merged_lines with
    | Some merged_lines =>
        (if truthy no_save then
           _print
             ("Not saving reference observation file for " +:+ test_name +:+
              ": " +:+ str no_save)
         else
           _print
             ("Saving updated reference observation file for " +:+ test_name) ;;
           found <- os_path_isfile reference_file ;;
           when found (os_unlink reference_file) ;;
           open_writelines reference_file merged_lines) ;;
        ret true
    | None => ret false
    end.

End Reconcile.

End ReconcileTool.

(** ** class ReconcileToolAbort *)
Module ReconcileToolAbort.

Definition invoke_tool : tool :=
  fun test_name reference_lines current_lines unified_diff no_save =>
    when (negb (truthy no_save))
      (ReconcileTool._print
         (BOLD_CHAR +:+ "Differences in observations for " +:+ test_name +:+
          ":" +:+ RESET_CHAR) ;;
       ReconcileTool._print (ReconcileTool.get_diff unified_diff)) ;;
    ReconcileTool._print
      (BOLD_CHAR +:+ "Aborting (reconcile=abort) due to differences for " +:+
       test_name +:+ RESET_CHAR) ;;
    ret None.

End ReconcileToolAbort.

(** ** class ReconcileToolAccept *)
Module ReconcileToolAccept.

Definition invoke_tool : tool :=
  fun test_name reference_lines current_lines unified_diff no_save =>
    (if truthy no_save then
       ReconcileTool._print
         (BOLD_CHAR +:+ "Test " +:+ test_name +:+
          " exited with failures; observations before failure:" +:+ RESET_CHAR) ;;
       (* joining the characters of a string gives the string back *)
       ReconcileTool._print (ReconcileTool.get_diff unified_diff)
     else
       ReconcileTool._print
         (BOLD_CHAR +:+ "Differences for " +:+ test_name +:+ ":" +:+ RESET_CHAR) ;;
       ReconcileTool._print (ReconcileTool.get_diff unified_diff) ;;
       ReconcileTool._print
         (BOLD_CHAR +:+ "Accepting (reconcile=accept) differences for " +:+
          test_name +:+ RESET_CHAR)) ;;
    ret (Some current_lines).

End ReconcileToolAccept.

(** ** class ReconcileToolKdiff3 *)
Module ReconcileToolKdiff3.

(** The double quote of the command lines. *)
Definition DQ : string := String (ascii_of_nat 34) EmptyString.

(** A local variable of a running function: not yet assigned, or its value. *)
Inductive binding (A : Type) : Type :=
| Unbound
| Bound (v : A).
Arguments Unbound {A}.
Arguments Bound {A} v.

(** Runs a function body that has one local variable next to the world. *)
Definition with_local {L A : Type} (init : L) (c : M (L * world) A) : M world A :=
  fun w => let (r, s) := c (init, w) in (r, snd s).

Definition view_cmd (test_name reference_file current_file : string) : string :=
  "kdiff3 " +:+ DQ +:+ reference_file +:+ DQ +:+ " --L1 " +:+ DQ +:+ test_name +:+
  "_REFERENCE" +:+ DQ +:+ " " +:+ DQ +:+ current_file +:+ DQ +:+ " --L2 " +:+ DQ +:+
  test_name +:+ "_CURRENT" +:+ DQ +:+ " ".

Definition merge_cmd (test_name reference_file current_file merged_file : string)
  : string :=
  "kdiff3 -m " +:+ DQ +:+ reference_file +:+ DQ +:+ " --L1 " +:+ DQ +:+ test_name +:+
  "_REFERENCE" +:+ DQ +:+ " " +:+ DQ +:+ current_file +:+ DQ +:+ " --L2 " +:+ DQ +:+
  test_name +:+ "_CURRENT" +:+ DQ +:+ "  -o " +:+ DQ +:+ merged_file +:+ DQ.

Section Body.

Variables test_name : string.
Variables reference_lines current_lines : list string.
Variable no_save : option string.
Variables current_file reference_file : string.

(** The [try] block; the local variable is [merged_file]. *)
Definition try_block : M (binding (option string) * world) (option (list string)) :=
  lift (open_writelines current_file current_lines) ;;
  lift (open_writelines reference_file reference_lines) ;;
  set_local (Bound None) ;;
  if truthy no_save then
    response <- lift (ReconcileTool._get_user_input
                        ("Encountered failures while running test " +:+
                         test_name +:+ ":")
                        "Still want to start kdiff3?" (str no_save)
                        ["yes"; "no"] ["y"; "n"]) ;;
    if negb (String.eqb response "yes") then
      ret None
    else
      lift (ReconcileTool._invoke_command
              (view_cmd test_name reference_file current_file)) ;;
      ret None
  else
    merged_file <- lift (ReconcileTool._tmp_file_name "merged") ;;
    set_local (Bound (Some merged_file)) ;;
    code <- lift (ReconcileTool._invoke_command
                    (merge_cmd test_name reference_file current_file merged_file)) ;;
    message_ret <-
      (if (code =? 0)%Z then
         merged_lines <- lift (open_readlines merged_file) ;;
         ret ("Merge successful; saving a new reference file. ", Some merged_lines)
       else
         ret ("Merge unsuccessful; not saving a new reference file. ", None)) ;;
    lift (ReconcileTool._get_user_input (fst message_ret) "" ""
                                        ["continue"] ["c"]) ;;
    ret (snd message_ret).

(** The [finally] block. *)
Definition finally_block : M (binding (option string) * world) unit :=
  found <- lift (os_path_isfile current_file) ;;
  when found (lift (os_unlink current_file)) ;;
  found <- lift (os_path_isfile reference_file) ;;
  when found (lift (os_unlink reference_file)) ;;
  merged_file <- get_local ;;
  match merged_file with
  | Unbound => raise UnboundLocalError
  | Bound None => ret tt
  | Bound (Some merged_file) =>
      found <- lift (os_path_isfile merged_file) ;;
      when found (lift (os_unlink merged_file))
  end.

End Body.

Definition invoke_tool : tool :=
  fun test_name reference_lines current_lines unified_diff no_save =>
    current_file <- ReconcileTool._tmp_file_name "curr" ;;
    reference_file <- ReconcileTool._tmp_file_name "ref" ;;
    with_local Unbound
      (try_finally
         (try_block test_name reference_lines current_lines no_save
                    current_file reference_file)
         (finally_block current_file reference_file)).

End ReconcileToolKdiff3.

(** ** class ReconcileToolConsole *)
Module ReconcileToolConsole.

(** [self._input], the one method [ReconcileToolDialog] overrides. *)
Definition input_method : Type :=
  string -> string -> string -> list string -> list string -> M world string.

(** [response = 'observations' if no_save else 'diff'], the value the loop is
    entered with. *)
Definition initial_response (no_save : option string) : string :=
  if truthy no_save then "observations" else "diff".

Section Loop.

Variable self_input : input_method.
Variable test_name : string.
Variables reference_lines current_lines unified_diff : list string.
Variable no_save : option string.

Definition error_after_prompt : string :=
  "Saving not available due to errors in the test".

Definition save_prompt : string :=
  "Save new set of observations with these differences for " +:+ test_name +:+ "?".

(** One turn of [while True]: [inl] is the next value of [response], [inr]
    the value the function returns with. *)
Definition loop_body (response : string)
  : M world (string + option (list string)) :=
  if String.eqb response "observations" then
    let after_prompt := if truthy no_save then error_after_prompt else save_prompt in
    let options :=
      if truthy no_save then ["kdiff3"; "diff"; "errors"; "continue"]
      else ["kdiff3"; "diff"; "yes"; "no"] in
    let single_char_opts :=
      if truthy no_save then ["k"; "d"; "e"; "c"] else ["k"; "d"; "y"; "n"] in
    let before_prompt := "Observations are shown for " +:+ test_name +:+ ":" in
    response <- self_input before_prompt after_prompt (join "" current_lines)
                           options single_char_opts ;;
    ret (inl response)
  else if String.eqb response "diff" then
    let before_prompt :=
      "Differences in observations are shown for " +:+ test_name +:+ ":" in
    let after_prompt := if truthy no_save then error_after_prompt else save_prompt in
    let options :=
      if truthy no_save then ["kdiff3"; "observations"; "errors"; "continue"]
      else ["kdiff3"; "observations"; "yes"; "no"] in
    let single_char_opts :=
      if truthy no_save then ["k"; "o"; "e"; "c"] else ["k"; "o"; "y"; "n"] in
    response <- self_input before_prompt after_prompt
                           (ReconcileTool.get_diff unified_diff)
                           options single_char_opts ;;
    ret (inl response)
  else if String.eqb response "errors" then
    let before_prompt := "Errors are shown for " +:+ test_name +:+ ":" in
    response <- self_input before_prompt error_after_prompt (str no_save)
                           ["kdiff3"; "observations"; "diff"; "continue"]
                           ["k"; "o"; "d"; "c"] ;;
    ret (inl response)
  else if String.eqb response "kdiff3" then
    r <- ReconcileToolKdiff3.invoke_tool test_name reference_lines current_lines
                                         unified_diff no_save ;;
    ret (inr r)
  else if String.eqb response "yes" then
    ReconcileTool._print
      (BOLD_CHAR +:+ "Accepting differences for " +:+ test_name +:+ RESET_CHAR) ;;
    ret (inr (Some current_lines))
  else if String.eqb response "no" then
    ReconcileTool._print
      (BOLD_CHAR +:+ "Rejecting differences for " +:+ test_name +:+ RESET_CHAR) ;;
    ret (inr None)
  else if String.eqb response "continue" then
    ret (inr None)
  else
    raise (AssertionError "Unknown input received!").

(** [while True] unrolled [fuel] times; a loop that is still running then
    counts as waiting. *)
Fixpoint while_true (fuel : nat) (response : string)
  : M world (option (list string)) :=
  match fuel with
  | 0 => fun w => (Blocked, w)
  | S fuel =>
      r <- loop_body response ;;
      match r with
      | inl response => while_true fuel response
      | inr v => ret v
      end
  end.

(** Every turn that goes on has consumed one answer of the user, so this many
    turns are never used up (see [while_true_enough]). *)
Definition turns (w : world) : nat :=
  S (length (stdin w) + length (dialog_answers w)).

Definition invoke_tool_with : M world (option (list string)) :=
  fun w => while_true (turns w) (initial_response no_save) w.

End Loop.

Definition _input : input_method :=
  fun before_prompt after_prompt content options single_char_options =>
    ReconcileTool._get_user_input before_prompt after_prompt content
                                  options single_char_options.

Definition invoke_tool : tool :=
  fun test_name reference_lines current_lines unified_diff no_save =>
    invoke_tool_with _input test_name reference_lines current_lines
                     unified_diff no_save.

End ReconcileToolConsole.

(** ** class ReconcileToolDialog(ReconcileToolConsole) *)
Module ReconcileToolDialog.

Definition _input : ReconcileToolConsole.input_method :=
  fun before_prompt after_prompt content options single_char_options =>
    ReconcileTool._get_user_input_dialog before_prompt after_prompt content options.

Definition invoke_tool : tool :=
  fun test_name reference_lines current_lines unified_diff no_save =>
    ReconcileToolConsole.invoke_tool_with _input test_name reference_lines
                                          current_lines unified_diff no_save.

End ReconcileToolDialog.

(** ** ReconcileTool.select and reconcile_observations *)

Inductive tool_class : Type :=
| Accept | Abort | Console | Dialog | Kdiff3.

Definition invoke_tool_of (c : tool_class) : tool :=
  match c with
  | Accept => ReconcileToolAccept.invoke_tool
  | Abort => ReconcileToolAbort.invoke_tool
  | Console => ReconcileToolConsole.invoke_tool
  | Dialog => ReconcileToolDialog.invoke_tool
  | Kdiff3 => ReconcileToolKdiff3.invoke_tool
  end.

Definition select_named (reconcile_tool : string) : option tool_class :=
  if String.eqb reconcile_tool "accept" then Some Accept
  else if String.eqb reconcile_tool "abort" then Some Abort
  else if String.eqb reconcile_tool "console" then Some Console
  else if String.eqb reconcile_tool "dialog" then Some Dialog
  else if String.eqb reconcile_tool "kdiff3" then Some Kdiff3
  else None.

(** [ReconcileTool.select]: a name picks the class; without a name the
    environment variable BOND_RECONCILE does, and [console] is its default. *)
Definition select (reconcile_tool : option string) : M world tool_class :=
  fun w =>
    let name :=
      match reconcile_tool with
      | Some name => name
      | None => match environ w with Some name => name | None => "console" end
      end in
    match select_named name with
    | Some c => (Ok c, w)
    | None =>
        (Raise (AssertionError ("Unrecognized bond_reconcile tool name: " +:+ name)), w)
    end.

Definition reconcile_observations (unified_diff : differ)
    (settings_reconcile : option string) (test_name reference_file : string)
    (current_lines : list string) (no_save : option string) : M world bool :=
  reconcile_tool <- select settings_reconcile ;;
  ReconcileTool.reconcile unified_diff (invoke_tool_of reconcile_tool)
                              test_name reference_file current_lines no_save.

(** * Properties *)

(** ** Facts about the Python values *)

Lemma last_nonempty {A : Type} (l : list A) : l <> [] -> exists x, last l = Some x.
Proof.
  intros Hl. destruct (last l) as [x|] eqn:E; [by exists x|].
  apply last_None in E. contradiction.
Qed.

Lemma last_elem_of {A : Type} (l : list A) (x : A) : last l = Some x -> x ∈ l.
Proof.
  rewrite last_lookup. intros H. by apply list_elem_of_lookup_2 in H.
Qed.

Lemma next_filter_elem_of (f : string -> bool) (l : list string) (d : string) :
  d ∈ l -> next (List.filter f l) d ∈ l.
Proof.
  intros Hd. destruct (List.filter f l) as [|x t] eqn:E; simpl; [done|].
  assert (In x (List.filter f l)) as Hin by (rewrite E; left; done).
  apply filter_In in Hin as [Hin _]. by apply list_elem_of_In.
Qed.

Lemma next_filter_eqb_hit (l : list string) (r d : string) :
  r ∈ l -> next (List.filter (fun opt => String.eqb opt r) l) d = r.
Proof.
  induction l as [|x l IH]; intros Hr.
  - by apply elem_of_nil in Hr.
  - simpl. destruct (String.eqb x r) eqn:E.
    + simpl. by apply String.eqb_eq.
    + apply IH. apply elem_of_cons in Hr as [->|Hr]; [|done].
      rewrite String.eqb_refl in E. discriminate.
Qed.

Lemma next_filter_eqb_miss (l : list string) (r d : string) :
  r ∉ l -> next (List.filter (fun opt => String.eqb opt r) l) d = d.
Proof.
  induction l as [|x l IH]; intros Hr; [done|].
  simpl. destruct (String.eqb x r) eqn:E.
  - apply String.eqb_eq in E. subst. exfalso. apply Hr. left.
  - apply IH. intros H. apply Hr. by right.
Qed.

(** The option of the first shortcut that is equal to the response. *)
Lemma next_shortcut_miss (options shortcuts : list string) (r d : string) :
  r ∉ shortcuts ->
  next (map fst (List.filter (fun oc => String.eqb (snd oc) r)
                             (zip options shortcuts))) d = d.
Proof.
  revert shortcuts. induction options as [|o options IH]; intros [|c shortcuts] Hr;
    try done.
  simpl. destruct (String.eqb c r) eqn:E.
  - apply String.eqb_eq in E. subst. exfalso. apply Hr. left.
  - apply IH. intros H. apply Hr. by right.
Qed.

Lemma next_shortcut_hit (options shortcuts : list string) (r d : string) (i : nat) :
  length shortcuts = length options ->
  shortcuts !! i = Some r ->
  (forall j, j < i -> shortcuts !! j <> Some r) ->
  exists opt, options !! i = Some opt /\
    next (map fst (List.filter (fun oc => String.eqb (snd oc) r)
                               (zip options shortcuts))) d = opt.
Proof.
  revert shortcuts i.
  induction options as [|o options IH]; intros [|c shortcuts] i Hlen Hi Hfirst;
    try done.
  simpl in Hlen. destruct i as [|i].
  - simpl in Hi. injection Hi as ->. exists o. split; [done|].
    simpl. by rewrite String.eqb_refl.
  - simpl in Hi. simpl.
    destruct (String.eqb c r) eqn:E.
    + apply String.eqb_eq in E. subst.
      exfalso. apply (Hfirst 0); [lia|done].
    + apply (IH shortcuts i); [lia|done|].
      intros j Hj. apply (Hfirst (S j)). lia.
Qed.

Lemma next_shortcut_elem_of (options shortcuts : list string) (r d : string) :
  d ∈ options ->
  next (map fst (List.filter (fun oc => String.eqb (snd oc) r)
                             (zip options shortcuts))) d ∈ options.
Proof.
  intros Hd.
  destruct (map fst (List.filter (fun oc => String.eqb (snd oc) r)
                                 (zip options shortcuts))) as [|x t] eqn:E;
    simpl; [done|].
  assert (In x (map fst (List.filter (fun oc => String.eqb (snd oc) r)
                                     (zip options shortcuts)))) as Hin
      by (rewrite E; left; done).
  apply in_map_iff in Hin as [[o c] [<- Hin]].
  apply filter_In in Hin as [Hin _].
  apply list_elem_of_In in Hin. simpl.
  apply elem_of_zip_l in Hin. done.
Qed.

(** The options as the prompt shows them, and the edges of [replace_first]. *)
Example replace_first_values :
  replace_first "kdiff3" "k" "[k]" = "[k]diff3" /\
  replace_first "observations" "o" "[o]" = "[o]bservations" /\
  replace_first "continue" "c" "[c]" = "[c]ontinue" /\
  replace_first "no" "x" "[x]" = "no" /\
  replace_first "abc" "" "[]" = "[]abc" /\
  replace_first "" "" "[]" = "" /\
  replace_first "" "k" "[k]" = "".
Proof. repeat split. Qed.

(** ** Facts about the effects *)

(** [w'] is [w] after some talking to the user: the machine is the same and
    the output has grown. *)
Definition talked (w w' : world) : Prop :=
  fs w' = fs w /\ isatty w' = isatty w /\ rng w' = rng w /\
  rng_pos w' = rng_pos w /\ shell w' = shell w /\ environ w' = environ w /\
  exists evs, out w' = out w ++ evs.

Lemma talked_refl w : talked w w.
Proof. repeat split. exists []. by rewrite app_nil_r. Qed.

Lemma talked_trans w1 w2 w3 : talked w1 w2 -> talked w2 w3 -> talked w1 w3.
Proof.
  intros (?&?&?&?&?&?&e1&?) (?&?&?&?&?&?&e2&?).
  repeat split; try congruence.
  exists (e1 ++ e2). rewrite app_assoc. congruence.
Qed.

Lemma talked_emit e w : talked w (emit e w).
Proof. repeat split. by exists [e]. Qed.

Lemma talked_with_stdin l w : talked w (with_stdin l w).
Proof. repeat split. exists []. simpl. by rewrite app_nil_r. Qed.

Lemma talked_with_dialog_answers l w : talked w (with_dialog_answers l w).
Proof. repeat split. exists []. simpl. by rewrite app_nil_r. Qed.

Lemma when_print (cond : bool) (what : string) (w : world) :
  when cond (print what) w = (Ok tt, if cond then emit (Printed what) w else w).
Proof. by destruct cond. Qed.

Lemma update_last_ok {S : Type} (f : string -> string) (l : list string) (s : S) :
  l <> [] -> exists l', update_last f l s = (Ok l', s).
Proof.
  intros Hl. destruct (last_nonempty l Hl) as [x Hx].
  unfold update_last. rewrite Hx. by eexists.
Qed.

Lemma getitem_last_ok {S : Type} (t : list string) (x : string) (s : S) :
  last t = Some x -> getitem_last t s = (Ok x, s).
Proof. intros H. unfold getitem_last. by rewrite H. Qed.

(** What the console routine answers, given the line that was typed. *)
Definition console_choice (options single_char_options : list string)
    (response default : string) : string :=
  if String.length response =? 0 then default
  else if String.length response =? 1 then
    next (map fst (List.filter (fun oc => String.eqb (snd oc) response)
                               (zip options single_char_options))) default
  else next (List.filter (fun opt => String.eqb opt response) options) default.

Lemma console_choice_elem_of options shortcuts response default :
  default ∈ options -> console_choice options shortcuts response default ∈ options.
Proof.
  intros Hd. unfold console_choice.
  destruct (String.length response =? 0); [done|].
  destruct (String.length response =? 1).
  - by apply next_shortcut_elem_of.
  - by apply next_filter_elem_of.
Qed.

(** The console routine shows its prompt and then either finds the terminal
    at end of file or answers [console_choice] of the line that was typed. *)
Lemma _get_user_input_console_cases
    (before_prompt after_prompt content : string)
    (options shortcuts : list string) (w : world) :
  options <> [] -> length shortcuts = length options ->
  exists default prompt w1,
    last options = Some default /\
    talked w w1 /\ stdin w1 = stdin w /\ dialog_answers w1 = dialog_answers w /\
    ReconcileTool._get_user_input_console before_prompt after_prompt content
        options shortcuts w
      = (match stdin w with
         | [] => (Raise EOFError, emit (Prompted prompt) w1)
         | response :: rest =>
             (Ok (console_choice options shortcuts response default),
              with_stdin rest (emit (Prompted prompt) w1))
         end).
Proof.
  intros Hne Hlen.
  destruct (last_nonempty options Hne) as [default Hd].
  exists default.
  unfold ReconcileTool._get_user_input_console.
  set (f := fun o => BOLD_CHAR +:+ o +:+ RESET_CHAR).
  set (l := map _ (zip options shortcuts)).
  assert (l <> []) as Hl.
  { subst l. destruct options, shortcuts; simpl in *; try done. }
  destruct (update_last_ok (S:=world) f l w Hl) as [l' Hl'].
  unfold bind at 1. rewrite Hl'.
  unfold bind at 1. rewrite when_print.
  unfold bind at 1. rewrite when_print.
  set (w1 := if negb (content =? "")%string then _ else _).
  assert (talked w w1 /\ stdin w1 = stdin w /\ dialog_answers w1 = dialog_answers w)
    as (Ht & Hs & Hda).
  { subst w1.
    repeat match goal with |- context [if ?c then _ else _] => destruct c end;
      (split; [|split; reflexivity]);
      eauto using talked_refl, talked_emit, talked_trans. }
  eexists _, w1. split; [done|]. split; [done|]. split; [done|]. split; [done|].
  unfold bind at 1. unfold raw_input at 1. simpl stdin. rewrite Hs.
  destruct (stdin w) as [|response rest]; [reflexivity|].
  unfold console_choice.
  destruct (String.length response =? 0) eqn:E0.
  - by rewrite (getitem_last_ok _ _ _ Hd).
  - destruct (String.length response =? 1) eqn:E1;
      unfold bind; by rewrite (getitem_last_ok _ _ _ Hd).
Qed.

Lemma _get_user_input_console_run
    (before_prompt after_prompt content : string)
    (options shortcuts : list string) (w : world) (response : string)
    (rest : list string) :
  options <> [] -> length shortcuts = length options ->
  stdin w = response :: rest ->
  exists default w',
    last options = Some default /\
    ReconcileTool._get_user_input_console before_prompt after_prompt content
        options shortcuts w
      = (Ok (console_choice options shortcuts response default), w') /\
    talked w w' /\ stdin w' = rest /\ dialog_answers w' = dialog_answers w.
Proof.
  intros Hne Hlen Hin.
  destruct (_get_user_input_console_cases before_prompt after_prompt content
              options shortcuts w Hne Hlen)
    as (default & prompt & w1 & Hd & Ht & Hs & Hda & Hrun).
  rewrite Hin in Hrun. exists default. eexists.
  split; [done|]. split; [exact Hrun|]. split; [|split; [done|exact Hda]].
  eapply talked_trans; [exact Ht|].
  eapply talked_trans; [apply talked_emit|apply talked_with_stdin].
Qed.

(** How many answers the user still has to give. *)
Definition waiting (w : world) : nat :=
  length (stdin w) + length (dialog_answers w).

(** What a user-input routine may do when it is given a non-empty option
    list: answer one of the options and use up one answer of the user, find
    the terminal at end of file, or wait for the dialog for ever. *)
Definition asks (options : list string) (w : world)
    (rw : result string * world) : Prop :=
  talked w (snd rw) /\
  match fst rw with
  | Ok opt => opt ∈ options /\ S (waiting (snd rw)) = waiting w
  | Raise e => e = EOFError
  | Blocked => True
  end.

Lemma _get_user_input_console_asks
    (before_prompt after_prompt content : string)
    (options shortcuts : list string) (w : world) :
  options <> [] -> length shortcuts = length options ->
  asks options w
       (ReconcileTool._get_user_input_console before_prompt after_prompt content
          options shortcuts w).
Proof.
  intros Hne Hlen.
  destruct (_get_user_input_console_cases before_prompt after_prompt content
              options shortcuts w Hne Hlen)
    as (default & prompt & w1 & Hd & Ht & Hs & Hda & ->).
  unfold asks, waiting. destruct (stdin w) as [|response rest]; simpl.
  - split; [|done]. eapply talked_trans; [exact Ht|apply talked_emit].
  - split.
    + eapply talked_trans; [exact Ht|].
      eapply talked_trans; [apply talked_emit|apply talked_with_stdin].
    + split; [|by rewrite Hda].
      apply console_choice_elem_of. by apply last_elem_of.
Qed.

Lemma _get_user_input_dialog_asks
    (before_prompt after_prompt content : string) (options : list string)
    (w : world) :
  options <> [] ->
  asks options w
       (ReconcileTool._get_user_input_dialog before_prompt after_prompt content
          options w).
Proof.
  intros Hne. destruct (last_nonempty options Hne) as [default Hd].
  unfold ReconcileTool._get_user_input_dialog, create_dialog_get_value, asks, waiting.
  simpl dialog_answers.
  destruct (dialog_answers w) as [|choice rest] eqn:E; simpl.
  - split; [apply talked_emit|done].
  - unfold bind. rewrite (getitem_last_ok _ _ _ Hd). simpl. split.
    + eapply talked_trans; [apply talked_emit|apply talked_with_dialog_answers].
    + split; [|lia].
      apply next_filter_elem_of. by apply last_elem_of.
Qed.

Lemma asks_talked options w w1 rw :
  talked w w1 -> waiting w1 = waiting w -> asks options w1 rw -> asks options w rw.
Proof.
  intros Ht Hw [Ht' H]. split; [by eapply talked_trans|].
  destruct (fst rw); [|done|done]. by rewrite <- Hw.
Qed.

Lemma _get_user_input_asks
    (before_prompt after_prompt content : string)
    (options shortcuts : list string) (w : world) :
  options <> [] -> length shortcuts = length options ->
  asks options w
       (ReconcileTool._get_user_input before_prompt after_prompt content
          options shortcuts w).
Proof.
  intros Hne Hlen. unfold ReconcileTool._get_user_input, bind, sys_stdin_isatty.
  destruct (isatty w).
  - by apply _get_user_input_console_asks.
  - simpl. eapply asks_talked; [apply talked_emit|reflexivity|].
    by apply _get_user_input_dialog_asks.
Qed.

(** A world for examples: the given files, terminal and user, a merge tool
    that fails without touching anything. *)
Definition sample_world (files : gmap string string) (tty : bool)
    (typed picked : list string) : world :=
  World files tty typed picked
        (fun n => match n with 0 => "A1B2C3D4" | 1 => "E5F6G7H8" | _ => "I9J0K1L2" end)
        0 (fun _ m => (1%Z, m)) None [].

(** ** The console input routine *)

(** The rule by which the console routine resolves the typed line [response]
    to the option [opt]: nothing typed gives the default, the last option;
    one character gives the option of the first shortcut equal to it and the
    default when there is none; a longer line gives the option it spells out
    and the default when there is none. *)
Definition resolution_rule (options shortcuts : list string)
    (response opt : string) : Prop :=
  (response = "" -> last options = Some opt) /\
  (String.length response = 1 ->
     (forall i, shortcuts !! i = Some response ->
                (forall j, j < i -> shortcuts !! j <> Some response) ->
                options !! i = Some opt) /\
     (response ∉ shortcuts -> last options = Some opt)) /\
  (2 <= String.length response ->
     (response ∈ options -> opt = response) /\
     (response ∉ options -> last options = Some opt)).

Lemma console_choice_rule options shortcuts response default :
  length shortcuts = length options ->
  last options = Some default ->
  resolution_rule options shortcuts response
                  (console_choice options shortcuts response default).
Proof.
  intros Hlen Hd. unfold resolution_rule, console_choice.
  split; [|split].
  - intros ->. done.
  - intros H1. rewrite H1. simpl. split.
    + intros i Hi Hfirst.
      destruct (next_shortcut_hit options shortcuts response default i Hlen Hi Hfirst)
        as (opt & Ho & ->). done.
    + intros Hmiss. by rewrite next_shortcut_miss.
  - intros H2.
    destruct (String.length response) as [|[|n]] eqn:E; [lia|lia|]. simpl. split.
    + intros Hin. by apply next_filter_eqb_hit.
    + intros Hmiss. by rewrite next_filter_eqb_miss.
Qed.

(** The rule holds whatever the shortcuts are, as long as there are as many
    of them as options. *)
Lemma _get_user_input_console_rule
    (before_prompt after_prompt content : string)
    (options shortcuts : list string) (w : world) (response : string)
    (rest : list string) :
  options <> [] -> length shortcuts = length options ->
  stdin w = response :: rest ->
  exists opt w',
    ReconcileTool._get_user_input_console before_prompt after_prompt content
        options shortcuts w = (Ok opt, w') /\
    opt ∈ options /\
    resolution_rule options shortcuts response opt.
Proof.
  intros Hne Hlen Hin.
  destruct (_get_user_input_console_run before_prompt after_prompt content
              options shortcuts w response rest Hne Hlen Hin)
    as (default & w' & Hd & Hrun & _).
  exists (console_choice options shortcuts response default), w'.
  split; [done|]. split.
  - apply console_choice_elem_of. by apply last_elem_of.
  - by apply console_choice_rule.
Qed.

(** What the docstring of the routine asks of its arguments: at least one
    option, as many single-character versions as options, and each of them a
    single character that appears within its option. *)
Definition documented (options single_char_options : list string) : Prop :=
  options <> [] /\
  length single_char_options = length options /\
  forall i opt char,
    options !! i = Some opt -> single_char_options !! i = Some char ->
    String.length char = 1 /\ String.index 0 char opt <> None.

(** Under the documented contract a one-character option label is its own
    shortcut, at the place of the label. *)
Lemma one_char_label_shortcut (options shortcuts : list string) (r : string)
    (i : nat) :
  documented options shortcuts ->
  String.length r = 1 -> options !! i = Some r -> shortcuts !! i = Some r.
Proof.
  intros (_ & Hlen & Hdoc) Hr Hi.
  destruct (shortcuts !! i) as [c|] eqn:Hc.
  - destruct (Hdoc i r c Hi Hc) as [Hc1 Hidx].
    f_equal.
    destruct r as [|a [|b r]]; simpl in Hr; try lia.
    destruct c as [|a' [|b' c]]; simpl in Hc1; try lia.
    simpl in Hidx. destruct (Ascii.ascii_dec a' a) as [->|Hne]; [done|].
    exfalso. apply Hidx. done.
  - apply lookup_ge_None in Hc. apply lookup_lt_Some in Hi. lia.
Qed.

Lemma one_char_label_is_shortcut (options shortcuts : list string) (r : string) :
  documented options shortcuts ->
  String.length r = 1 -> r ∈ options -> r ∈ shortcuts.
Proof.
  intros Hdoc Hr Hin.
  apply list_elem_of_lookup in Hin as [i Hi].
  apply (list_elem_of_lookup_2 _ i).
  by apply (one_char_label_shortcut options).
Qed.

(** Under the contract every shortcut is one character long and no option
    label is empty. *)
Lemma documented_shortcut_length (options shortcuts : list string) (c : string) :
  documented options shortcuts -> c ∈ shortcuts -> String.length c = 1.
Proof.
  intros (_ & Hlen & Hdoc) Hin.
  apply list_elem_of_lookup in Hin as [i Hi].
  destruct (options !! i) as [o|] eqn:Ho.
  - by destruct (Hdoc i o c Ho Hi).
  - apply lookup_ge_None in Ho. apply lookup_lt_Some in Hi. lia.
Qed.

Lemma documented_label_nonempty (options shortcuts : list string) :
  documented options shortcuts -> "" ∉ options.
Proof.
  intros (_ & Hlen & Hdoc) Hin.
  apply list_elem_of_lookup in Hin as [i Hi].
  destruct (shortcuts !! i) as [c|] eqn:Hc.
  - destruct (Hdoc i "" c Hi Hc) as [Hc1 Hidx].
    destruct c as [|a c]; simpl in Hc1; [lia|]. by apply Hidx.
  - apply lookup_ge_None in Hc. apply lookup_lt_Some in Hi. lia.
Qed.

(** C4: for options and shortcuts as the docstring asks for them (at least
    one option, as many shortcuts, each shortcut a single character of its
    option), the console routine given a typed line returns normally (it
    raises nothing) and returns one of the options:
    - nothing typed gives the last option, the default;
    - a line equal to a shortcut gives that shortcut's option (the first such
      shortcut, should two options share one);
    - a line equal to an option label gives that option, for labels of two or
      more characters always, and for a one-character label (which is its own
      shortcut) when the shortcuts are pairwise distinct;
    - any other line gives the last option. *)
Theorem console_input_resolution
    (before_prompt after_prompt content : string)
    (options shortcuts : list string) (w : world) (response : string)
    (rest : list string) :
  documented options shortcuts ->
  stdin w = response :: rest ->
  exists opt w',
    ReconcileTool._get_user_input_console before_prompt after_prompt content
        options shortcuts w = (Ok opt, w') /\
    opt ∈ options /\
    (response = "" -> last options = Some opt) /\
    (forall i, shortcuts !! i = Some response ->
               (forall j, j < i -> shortcuts !! j <> Some response) ->
               options !! i = Some opt) /\
    (response ∈ options ->
     2 <= String.length response \/ NoDup shortcuts -> opt = response) /\
    (response ∉ shortcuts -> response ∉ options -> last options = Some opt).
Proof.
  intros Hdoc Hin.
  pose proof Hdoc as (Hne & Hlen & _).
  destruct (_get_user_input_console_rule before_prompt after_prompt content
              options shortcuts w response rest Hne Hlen Hin)
    as (opt & w' & Hrun & Hopt & Hempty & Hone & Htwo).
  exists opt, w'. split; [exact Hrun|]. split; [exact Hopt|].
  split; [exact Hempty|]. split; [|split].
  - intros i Hi Hfirst.
    assert (String.length response = 1) as H1.
    { apply (documented_shortcut_length options shortcuts); [done|].
      by apply list_elem_of_lookup_2 in Hi. }
    by apply (proj1 (Hone H1) i).
  - intros Hlabel Hcase.
    destruct (String.length response) as [|[|n]] eqn:E.
    + destruct response; [|discriminate].
      by destruct (documented_label_nonempty options shortcuts Hdoc).
    + destruct Hcase as [Hcase|Hnodup]; [lia|].
      apply list_elem_of_lookup in Hlabel as [i Hi].
      pose proof (one_char_label_shortcut options shortcuts response i Hdoc E Hi)
        as Hc.
      assert (options !! i = Some opt) as Ho.
      { apply (proj1 (Hone eq_refl) i Hc).
        intros j Hj Hcj.
        pose proof (NoDup_lookup shortcuts j i response Hnodup Hcj Hc). lia. }
      congruence.
    + apply Htwo; [lia|done].
  - intros Hshort Hlabel.
    destruct (String.length response) as [|[|n]] eqn:E.
    + destruct response; [|discriminate]. by apply Hempty.
    + by apply (proj2 (Hone eq_refl)).
    + apply Htwo; [lia|done].
Qed.

(** The options and shortcuts the console strategy asks with keep the
    contract. *)
Lemma save_options_documented :
  documented ["kdiff3"; "diff"; "yes"; "no"] ["k"; "d"; "y"; "n"].
Proof.
  split; [discriminate|]. split; [reflexivity|].
  intros [|[|[|[|i]]]] opt char; simpl; intros [= <-] [= <-];
    (split; [reflexivity|discriminate]).
Qed.

Lemma console_input_resolution_witness :
  documented ["kdiff3"; "diff"; "yes"; "no"] ["k"; "d"; "y"; "n"] /\
  stdin (sample_world ∅ true ["y"] []) = ["y"] /\
  exists w',
    ReconcileTool._get_user_input_console "Observations:" "Save?" "x"
        ["kdiff3"; "diff"; "yes"; "no"] ["k"; "d"; "y"; "n"]
        (sample_world ∅ true ["y"] []) = (Ok "yes", w').
Proof.
  split; [exact save_options_documented|]. split; [reflexivity|].
  destruct (console_input_resolution "Observations:" "Save?" "x"
              ["kdiff3"; "diff"; "yes"; "no"] ["k"; "d"; "y"; "n"]
              (sample_world ∅ true ["y"] []) "y" []
              save_options_documented eq_refl)
    as (opt & w' & Hrun & _ & _ & Hshort & _).
  exists w'. rewrite Hrun. f_equal. f_equal.
  assert (["kdiff3"; "diff"; "yes"; "no"] !! 2 = Some opt) as Ho.
  { apply Hshort; [reflexivity|].
    intros [|[|j]] Hj; [discriminate|discriminate|simpl; lia]. }
  by injection Ho.
Defined.

(** Outside that contract the label of an option need not be found: with the
    shortcut [z] for the option [a], the typed line [a] is resolved by the
    shortcuts alone and gives the default. *)
Example console_input_outside_contract :
  fst (ReconcileTool._get_user_input_console "" "Pick" "" ["a"; "bc"] ["z"; "b"]
         (sample_world ∅ true ["a"] [])) = Ok "bc".
Proof. reflexivity. Qed.

(** ** The file system *)

Lemma with_fs_same (w : world) : with_fs (fs w) w = w.
Proof. by destruct w. Qed.

(** [if os.path.isfile(path): os.unlink(path)] leaves no file at [path] and
    never fails; [k] is what follows it. *)
Lemma unlink_if_file {B : Type} (path : string) (k : M world B) (w : world) :
  (found <- os_path_isfile path ;; when found (os_unlink path) ;; k) w
  = k (with_fs (delete path (fs w)) w).
Proof.
  unfold bind, os_path_isfile, when, os_unlink.
  destruct (fs w !! path) as [c|] eqn:E.
  - rewrite bool_decide_eq_true_2 by eauto. by rewrite E.
  - rewrite bool_decide_eq_false_2 by (intros [? ?]; congruence).
    rewrite delete_id by done. by rewrite with_fs_same.
Qed.

Lemma unlink_if_file_lifted {L B : Type} (path : string) (k : M (L * world) B)
    (l : L) (w : world) :
  (found <- lift (os_path_isfile path) ;; when found (lift (os_unlink path)) ;; k)
    (l, w)
  = k (l, with_fs (delete path (fs w)) w).
Proof.
  unfold bind, lift, os_path_isfile, when, os_unlink. simpl.
  destruct (fs w !! path) as [c|] eqn:E.
  - rewrite bool_decide_eq_true_2 by eauto. simpl. by rewrite E.
  - rewrite bool_decide_eq_false_2 by (intros [? ?]; congruence).
    rewrite delete_id by done. by rewrite with_fs_same.
Qed.

Lemma unlink_if_file_lifted_end {L : Type} (path : string) (l : L) (w : world) :
  (found <- lift (os_path_isfile path) ;; when found (lift (os_unlink path))) (l, w)
  = (Ok tt, (l, with_fs (delete path (fs w)) w)).
Proof.
  unfold bind, lift, os_path_isfile, when, os_unlink. simpl.
  destruct (fs w !! path) as [c|] eqn:E.
  - rewrite bool_decide_eq_true_2 by eauto. simpl. by rewrite E.
  - rewrite bool_decide_eq_false_2 by (intros [? ?]; congruence).
    rewrite delete_id by done. by rewrite with_fs_same.
Qed.

(** ** The merge tool: temporary files *)

(** The names the three temporary files get in world [w]. *)
Definition curr_name (w : world) : string :=
  ReconcileTool.TMP_FILE_BASE_NAME +:+ rng w (rng_pos w) +:+ "." +:+ "curr".
Definition ref_name (w : world) : string :=
  ReconcileTool.TMP_FILE_BASE_NAME +:+ rng w (S (rng_pos w)) +:+ "." +:+ "ref".
Definition merged_name (w : world) : string :=
  ReconcileTool.TMP_FILE_BASE_NAME +:+ rng w (S (S (rng_pos w))) +:+ "." +:+ "merged".

(** What the [finally] block leaves behind. *)
Definition swept (current_file reference_file : string)
    (merged_file : ReconcileToolKdiff3.binding (option string))
    (m : gmap string string) : gmap string string :=
  let m := delete reference_file (delete current_file m) in
  match merged_file with
  | ReconcileToolKdiff3.Bound (Some merged_file) => delete merged_file m
  | _ => m
  end.

Lemma finally_block_run (current_file reference_file : string)
    (l : ReconcileToolKdiff3.binding (option string)) (w : world) :
  ReconcileToolKdiff3.finally_block current_file reference_file (l, w)
  = (match l with
     | ReconcileToolKdiff3.Unbound => Raise UnboundLocalError
     | _ => Ok tt
     end,
     (l, with_fs (swept current_file reference_file l (fs w)) w)).
Proof.
  unfold ReconcileToolKdiff3.finally_block.
  rewrite unlink_if_file_lifted, unlink_if_file_lifted.
  unfold bind at 1, get_local. simpl.
  destruct l as [|[merged_file|]]; try done.
  by rewrite unlink_if_file_lifted_end.
Qed.

Lemma swept_lookup (cf rf : string)
    (l : ReconcileToolKdiff3.binding (option string)) (m : gmap string string) :
  swept cf rf l m !! cf = None /\ swept cf rf l m !! rf = None /\
  (forall mf, l = ReconcileToolKdiff3.Bound (Some mf) -> swept cf rf l m !! mf = None).
Proof.
  unfold swept.
  destruct l as [|[mf|]]; repeat split; intros; simplify_eq;
    rewrite !lookup_delete_None; naive_solver.
Qed.

(** ** Running a body step by step *)

Lemma bind_step {S A B : Type} (c : M S A) (k : A -> M S B) (s s' : S) (a : A) :
  c s = (Ok a, s') -> bind c k s = k a s'.
Proof. intros H. unfold bind. by rewrite H. Qed.

(** A computation that never assigns the local variable. *)
Definition keeps_local {L A : Type} (c : M (L * world) A) : Prop :=
  forall l w, fst (snd (c (l, w))) = l.

Lemma keeps_local_lift {L A : Type} (c : M world A) : keeps_local (L:=L) (lift c).
Proof. intros l w. unfold lift. simpl. by destruct (c w). Qed.

Lemma keeps_local_ret {L A : Type} (a : A) : keeps_local (L:=L) (ret a).
Proof. by intros l w. Qed.

Lemma keeps_local_bind {L A B : Type} (c : M (L * world) A)
    (k : A -> M (L * world) B) :
  keeps_local c -> (forall a, keeps_local (k a)) -> keeps_local (bind c k).
Proof.
  intros Hc Hk l w. unfold bind. specialize (Hc l w).
  destruct (c (l, w)) as [[a|e|] [l' w']]; simpl in *; subst; [apply Hk|done|done].
Qed.

(** ** The merge tool *)

(** The two temporary files as the [try] block writes them. *)
Definition temp_files (reference_lines current_lines : list string) (w : world)
  : gmap string string :=
  <[ref_name w := join "" reference_lines]>
    (<[curr_name w := join "" current_lines]> (fs w)).

Lemma kdiff3_invoke_tool_unfold test_name reference_lines current_lines
    unified_diff no_save (w : world) :
  ReconcileToolKdiff3.invoke_tool test_name reference_lines current_lines
      unified_diff no_save w
  = ReconcileToolKdiff3.with_local ReconcileToolKdiff3.Unbound
      (try_finally
         (ReconcileToolKdiff3.try_block test_name reference_lines current_lines
            no_save (curr_name w) (ref_name w))
         (ReconcileToolKdiff3.finally_block (curr_name w) (ref_name w)))
      (with_rng_pos (S (S (rng_pos w))) w).
Proof. reflexivity. Qed.

(** When the [try] block is left, [merged_file] is [None] in view mode and the
    third temporary name in merge mode. *)
Lemma try_block_local test_name reference_lines current_lines no_save
    current_file reference_file l (w : world) :
  fst (snd (ReconcileToolKdiff3.try_block test_name reference_lines current_lines
              no_save current_file reference_file (l, w)))
  = ReconcileToolKdiff3.Bound
      (if truthy no_save then None
       else Some (ReconcileTool.TMP_FILE_BASE_NAME +:+ rng w (rng_pos w) +:+
                  "." +:+ "merged")).
Proof.
  unfold ReconcileToolKdiff3.try_block.
  erewrite bind_step by reflexivity.
  erewrite bind_step by reflexivity.
  erewrite bind_step by reflexivity.
  destruct (truthy no_save).
  - apply keeps_local_bind; [apply keeps_local_lift|].
    intros response. destruct (negb _); [apply keeps_local_ret|].
    apply keeps_local_bind; [apply keeps_local_lift|].
    intros _. apply keeps_local_ret.
  - erewrite bind_step by reflexivity.
    erewrite bind_step by reflexivity.
    apply keeps_local_bind; [apply keeps_local_lift|].
    intros code. apply keeps_local_bind.
    + destruct (code =? 0)%Z; [|apply keeps_local_ret].
      apply keeps_local_bind; [apply keeps_local_lift|].
      intros lines. apply keeps_local_ret.
    + intros mr. apply keeps_local_bind; [apply keeps_local_lift|].
      intros _. apply keeps_local_ret.
Qed.

(** C2: whenever the merge tool strategy returns, normally or with an
    exception, the temporary files it named are gone: the current and the
    reference copy on every path, and the merged file whenever one was named,
    that is in merge mode. *)
Theorem temp_files_removed test_name reference_lines current_lines unified_diff
    no_save (w : world) :
  fst (ReconcileToolKdiff3.invoke_tool test_name reference_lines current_lines
         unified_diff no_save w) <> Blocked ->
  let w' := snd (ReconcileToolKdiff3.invoke_tool test_name reference_lines
                   current_lines unified_diff no_save w) in
  fs w' !! curr_name w = None /\
  fs w' !! ref_name w = None /\
  (truthy no_save = false -> fs w' !! merged_name w = None).
Proof.
  rewrite kdiff3_invoke_tool_unfold.
  unfold ReconcileToolKdiff3.with_local, try_finally.
  pose proof (try_block_local test_name reference_lines current_lines no_save
                (curr_name w) (ref_name w) ReconcileToolKdiff3.Unbound
                (with_rng_pos (S (S (rng_pos w))) w)) as Hl.
  destruct (ReconcileToolKdiff3.try_block _ _ _ _ _ _ _) as [r0 [l1 w1]].
  simpl in Hl. subst l1.
  destruct r0 as [v|e|]; [| |simpl; congruence];
    rewrite finally_block_run; simpl; intros _;
    (destruct (swept_lookup (curr_name w) (ref_name w)
                 (ReconcileToolKdiff3.Bound
                    (if truthy no_save then None
                     else Some (ReconcileTool.TMP_FILE_BASE_NAME +:+
                                rng w (S (S (rng_pos w))) +:+ "." +:+ "merged")))
                 (fs w1)) as (Hc & Hr & Hm));
    (split; [exact Hc|split; [exact Hr|]]);
    intros Hns; rewrite Hns in *; by apply Hm.
Qed.

Definition NL : string := String "010"%char EmptyString.

(** A world whose merge tool succeeds and leaves [merged] in the third
    temporary file of [sample_world]. *)
Definition merging_world (files : gmap string string) (tty : bool)
    (typed picked : list string) (merged : string) : world :=
  World files tty typed picked
        (fun n => match n with 0 => "A1B2C3D4" | 1 => "E5F6G7H8" | _ => "I9J0K1L2" end)
        0 (fun _ m => (0%Z, <["/tmp/bond_tmp_I9J0K1L2.merged" := merged]> m)) None [].

(** A run of the merge tool strategy that merges. *)
Definition merged_run : result (option (list string)) * world :=
  ReconcileToolKdiff3.invoke_tool "t" ["a" +:+ NL] ["b" +:+ NL] [] None
    (merging_world ∅ true ["c"] [] ("b" +:+ NL)).

Lemma temp_files_removed_witness :
  fst merged_run <> Blocked /\
  fs (snd merged_run) !! "/tmp/bond_tmp_A1B2C3D4.curr" = None /\
  fs (snd merged_run) !! "/tmp/bond_tmp_E5F6G7H8.ref" = None /\
  (truthy None = false ->
   fs (snd merged_run) !! "/tmp/bond_tmp_I9J0K1L2.merged" = None).
Proof.
  split; [vm_compute; discriminate|].
  apply (temp_files_removed "t" ["a" +:+ NL] ["b" +:+ NL] [] None
           (merging_world ∅ true ["c"] [] ("b" +:+ NL))).
  vm_compute. discriminate.
Defined.

(** The user has an answer for the next question. *)
Definition answer_ready (w : world) : Prop :=
  if isatty w then stdin w <> [] else dialog_answers w <> [].

(** What the user sees of the final acknowledgment. *)
Definition ack_shown (message : string) (tty : bool) : list event :=
  if tty then
    [Prompted (BOLD_CHAR +:+ message +:+ RESET_CHAR +:+ " (" +:+
               BOLD_CHAR +:+ "[c]ontinue" +:+ RESET_CHAR +:+ "): ")]
  else
    [Printed "System console not found; using a dialog box to retrieve input instead.";
     DialogShown message "" "" ["continue"]].

Local Opaque String.eqb.

Lemma ack_run (message : string) (w : world) :
  message <> "" -> answer_ready w ->
  exists w',
    ReconcileTool._get_user_input message "" "" ["continue"] ["c"] w
      = (Ok "continue", w') /\
    out w' = out w ++ ack_shown message (isatty w) /\
    fs w' = fs w /\ S (waiting w') = waiting w.
Proof.
  intros Hm Hready. unfold answer_ready in Hready.
  apply String.eqb_neq in Hm.
  unfold ReconcileTool._get_user_input, bind, sys_stdin_isatty, ack_shown, waiting.
  destruct (isatty w) eqn:Htty.
  - unfold ReconcileTool._get_user_input_console, bind, update_last, when, raw_input.
    simpl. rewrite Hm, !(String.eqb_refl ""). unfold replace_first. simpl.
    rewrite !(String.eqb_refl ""). simpl.
    destruct (stdin w) as [|response rest]; [done|].
    eexists. split.
    { destruct (String.length response =? 0); [done|].
      destruct (String.length response =? 1); simpl.
      - by destruct (("c" =? response)%string).
      - by destruct (("continue" =? response)%string). }
    simpl. split; [reflexivity|split; reflexivity].
  - unfold ReconcileTool._get_user_input_dialog, create_dialog_get_value, print. simpl.
    destruct (dialog_answers w) as [|choice rest]; [done|].
    eexists. split.
    { simpl. unfold bind. simpl. by destruct ((choice =? "continue")%string). }
    simpl. split; [by rewrite <- app_assoc|split; [done|lia]].
Qed.

Local Transparent String.eqb.

Lemma ack_needed (message : string) (w : world) :
  ~ answer_ready w ->
  forall v, fst (ReconcileTool._get_user_input message "" "" ["continue"] ["c"] w)
            <> Ok v.
Proof.
  intros Hready v. unfold answer_ready in Hready.
  unfold ReconcileTool._get_user_input, bind, sys_stdin_isatty.
  destruct (isatty w) eqn:Htty.
  - destruct (_get_user_input_console_cases message "" "" ["continue"] ["c"] w)
      as (d & p & w1 & _ & _ & _ & _ & ->); [done|done|].
    destruct (stdin w); [done|]. exfalso. by apply Hready.
  - unfold ReconcileTool._get_user_input_dialog, create_dialog_get_value, print. simpl.
    destruct (dialog_answers w); [done|]. exfalso. by apply Hready.
Qed.

(** *** Merge mode *)

Definition merge_command (test_name : string) (w : world) : string :=
  ReconcileToolKdiff3.merge_cmd test_name (ref_name w) (curr_name w) (merged_name w).

(** What the merge tool answers in world [w]: its exit code and the files it
    leaves. *)
Definition merge_exit (test_name : string)
    (reference_lines current_lines : list string) (w : world)
  : Z * gmap string string :=
  shell w (merge_command test_name w) (temp_files reference_lines current_lines w).

(** The world when the merge tool has exited. *)
Definition after_merge (test_name : string)
    (reference_lines current_lines : list string) (w : world) : world :=
  World (snd (merge_exit test_name reference_lines current_lines w))
        (isatty w) (stdin w) (dialog_answers w) (rng w) (S (S (S (rng_pos w))))
        (shell w) (environ w) (out w ++ [Invoked (merge_command test_name w)]).

Definition MERGE_OK : string := "Merge successful; saving a new reference file. ".
Definition MERGE_FAILED : string :=
  "Merge unsuccessful; not saving a new reference file. ".

Lemma try_block_merge test_name reference_lines current_lines no_save (w : world) :
  truthy no_save = false ->
  ReconcileToolKdiff3.try_block test_name reference_lines current_lines no_save
    (curr_name w) (ref_name w)
    (ReconcileToolKdiff3.Unbound, with_rng_pos (S (S (rng_pos w))) w)
  = (message_ret <-
       (if (fst (merge_exit test_name reference_lines current_lines w) =? 0)%Z then
          merged_lines <- lift (open_readlines (merged_name w)) ;;
          ret (MERGE_OK, Some merged_lines)
        else ret (MERGE_FAILED, None)) ;;
     lift (ReconcileTool._get_user_input (fst message_ret) "" ""
                                         ["continue"] ["c"]) ;;
     ret (snd message_ret))
      (ReconcileToolKdiff3.Bound (Some (merged_name w)),
       after_merge test_name reference_lines current_lines w).
Proof.
  intros Hns. unfold ReconcileToolKdiff3.try_block. rewrite Hns.
  erewrite bind_step by reflexivity.
  erewrite bind_step by reflexivity.
  erewrite bind_step by reflexivity.
  erewrite bind_step by reflexivity.
  erewrite bind_step by reflexivity.
  erewrite bind_step by reflexivity.
  reflexivity.
Qed.

Lemma try_finally_run {S A : Type} (body : M S A) (fin : M S unit)
    (s s1 s2 : S) (r : result A) :
  body s = (r, s1) -> r <> Blocked -> fin s1 = (Ok tt, s2) ->
  try_finally body fin s = (r, s2).
Proof.
  intros Hb Hr Hf. unfold try_finally. rewrite Hb.
  destruct r; [by rewrite Hf|by rewrite Hf|done].
Qed.

(** The runs of merge mode, by what the merge tool answers. *)
Lemma kdiff3_merge_mode_cases test_name reference_lines current_lines unified_diff
    no_save (w : world) :
  truthy no_save = false ->
  let code := fst (merge_exit test_name reference_lines current_lines w) in
  let files := snd (merge_exit test_name reference_lines current_lines w) in
  (forall content,
     code = 0%Z -> files !! merged_name w = Some content -> answer_ready w ->
     exists w',
       ReconcileToolKdiff3.invoke_tool test_name reference_lines current_lines
           unified_diff no_save w = (Ok (Some (readlines content)), w') /\
       out w' = out w ++ [Invoked (merge_command test_name w)] ++
                ack_shown MERGE_OK (isatty w) /\
       S (waiting w') = waiting w) /\
  (code = 0%Z -> files !! merged_name w = None ->
     exists w',
       ReconcileToolKdiff3.invoke_tool test_name reference_lines current_lines
           unified_diff no_save w = (Raise IOError, w') /\
       out w' = out w ++ [Invoked (merge_command test_name w)] /\
       waiting w' = waiting w) /\
  (code <> 0%Z -> answer_ready w ->
     exists w',
       ReconcileToolKdiff3.invoke_tool test_name reference_lines current_lines
           unified_diff no_save w = (Ok None, w') /\
       out w' = out w ++ [Invoked (merge_command test_name w)] ++
                ack_shown MERGE_FAILED (isatty w) /\
       S (waiting w') = waiting w) /\
  (~ answer_ready w ->
     forall v,
       fst (ReconcileToolKdiff3.invoke_tool test_name reference_lines
              current_lines unified_diff no_save w) <> Ok v).
Proof.
  intros Hns code files. subst code files. split; [|split; [|split]].
  - intros content Hcode Hfile Hready.
    destruct (ack_run MERGE_OK (after_merge test_name reference_lines current_lines w))
      as (w7 & Hack & Hout & Hfs & Hwait); [done|done|].
    eexists. split.
    + rewrite kdiff3_invoke_tool_unfold. unfold ReconcileToolKdiff3.with_local.
      assert (ReconcileToolKdiff3.try_block test_name reference_lines
                current_lines no_save (curr_name w) (ref_name w)
                (ReconcileToolKdiff3.Unbound, with_rng_pos (S (S (rng_pos w))) w)
              = (Ok (Some (readlines content)),
                 (ReconcileToolKdiff3.Bound (Some (merged_name w)), w7))) as Hb.
      { rewrite try_block_merge by done. rewrite Hcode. cbn [Z.eqb].
        erewrite bind_step;
          [|erewrite bind_step; [reflexivity|];
            unfold lift, open_readlines; simpl; rewrite Hfile; reflexivity].
        erewrite bind_step; [reflexivity|].
        unfold lift. simpl. by rewrite Hack. }
      by rewrite (try_finally_run _ _ _ _ _ _ Hb ltac:(discriminate)
                    (finally_block_run _ _ _ _)).
    + simpl. split; [rewrite Hout; simpl; by rewrite <- app_assoc|exact Hwait].
  - intros Hcode Hfile.
    eexists. split.
    + rewrite kdiff3_invoke_tool_unfold. unfold ReconcileToolKdiff3.with_local.
      assert (ReconcileToolKdiff3.try_block test_name reference_lines
                current_lines no_save (curr_name w) (ref_name w)
                (ReconcileToolKdiff3.Unbound, with_rng_pos (S (S (rng_pos w))) w)
              = (Raise IOError,
                 (ReconcileToolKdiff3.Bound (Some (merged_name w)),
                  after_merge test_name reference_lines current_lines w))) as Hb.
      { rewrite try_block_merge by done. rewrite Hcode. cbn [Z.eqb].
        unfold bind, lift, open_readlines. simpl. by rewrite Hfile. }
      by rewrite (try_finally_run _ _ _ _ _ _ Hb ltac:(discriminate)
                    (finally_block_run _ _ _ _)).
    + simpl. split; reflexivity.
  - intros Hcode Hready.
    destruct (ack_run MERGE_FAILED (after_merge test_name reference_lines current_lines w))
      as (w7 & Hack & Hout & Hfs & Hwait); [done|done|].
    eexists. split.
    + rewrite kdiff3_invoke_tool_unfold. unfold ReconcileToolKdiff3.with_local.
      assert (ReconcileToolKdiff3.try_block test_name reference_lines
                current_lines no_save (curr_name w) (ref_name w)
                (ReconcileToolKdiff3.Unbound, with_rng_pos (S (S (rng_pos w))) w)
              = (Ok None,
                 (ReconcileToolKdiff3.Bound (Some (merged_name w)), w7))) as Hb.
      { rewrite try_block_merge by done.
        apply Z.eqb_neq in Hcode. rewrite Hcode.
        erewrite bind_step; [|reflexivity].
        erewrite bind_step; [reflexivity|].
        unfold lift. simpl. by rewrite Hack. }
      by rewrite (try_finally_run _ _ _ _ _ _ Hb ltac:(discriminate)
                    (finally_block_run _ _ _ _)).
    + simpl. split; [rewrite Hout; simpl; by rewrite <- app_assoc|exact Hwait].
  - intros Hready v.
    rewrite kdiff3_invoke_tool_unfold.
    unfold ReconcileToolKdiff3.with_local, try_finally.
    rewrite try_block_merge by done.
    unfold bind at 1.
    destruct (if (_ =? 0)%Z then _ else _) as [[mr|e|] [l1 w1]] eqn:Hmr.
    + assert (w1 = after_merge test_name reference_lines current_lines w) as ->.
      { destruct (_ =? 0)%Z.
        - unfold bind, lift, open_readlines in Hmr. simpl in Hmr.
          destruct (_ !! _); by inversion Hmr.
        - by inversion Hmr. }
      unfold bind, lift. simpl.
      pose proof (ack_needed (fst mr)
                    (after_merge test_name reference_lines current_lines w)
                    Hready) as Hno.
      destruct (ReconcileTool._get_user_input (fst mr) "" "" ["continue"] ["c"]
                  (after_merge test_name reference_lines current_lines w))
        as [[a|e|] w2]; simpl in *.
      * exfalso. by apply (Hno a).
      * rewrite finally_block_run. by destruct l1 as [|[?|]].
      * done.
    + rewrite finally_block_run. by destruct l1 as [|[?|]].
    + done.
Qed.

(** C5 (as amended): without a reason not to save, the merge tool is run in
    merge mode: the command is [kdiff3 -m] on the temporary copy of the
    reference and that of the current lines, labelled with the test name, with
    [-o] and a third temporary file, the one for the merged output.  If the
    tool exits with 0 and has left that file, its lines are what the strategy
    returns; if it exits with anything else, the strategy returns [None].  In
    both cases the user is shown the status message of the case and has to
    give one answer (any answer resolves to [continue]); without that answer
    the strategy does not return a value.  If the tool exits with 0 and has
    left no merged file, reading it raises IOError: no status message is
    shown and no answer is asked for. *)
Theorem kdiff3_merge_mode test_name reference_lines current_lines unified_diff
    no_save (w : world) :
  truthy no_save = false ->
  let q := String (ascii_of_nat 34) EmptyString in
  let current_file := "/tmp/bond_tmp_" +:+ rng w (rng_pos w) +:+ ".curr" in
  let reference_file := "/tmp/bond_tmp_" +:+ rng w (S (rng_pos w)) +:+ ".ref" in
  let merged_file :=
    "/tmp/bond_tmp_" +:+ rng w (S (S (rng_pos w))) +:+ ".merged" in
  let cmd :=
    "kdiff3 -m " +:+ q +:+ reference_file +:+ q +:+
    " --L1 " +:+ q +:+ test_name +:+ "_REFERENCE" +:+ q +:+
    " " +:+ q +:+ current_file +:+ q +:+
    " --L2 " +:+ q +:+ test_name +:+ "_CURRENT" +:+ q +:+
    "  -o " +:+ q +:+ merged_file +:+ q in
  let written :=
    <[reference_file := join "" reference_lines]>
      (<[current_file := join "" current_lines]> (fs w)) in
  let code := fst (shell w cmd written) in
  let files := snd (shell w cmd written) in
  let run := ReconcileToolKdiff3.invoke_tool test_name reference_lines
               current_lines unified_diff no_save w in
  (forall content,
     code = 0%Z -> files !! merged_file = Some content -> answer_ready w ->
     fst run = Ok (Some (readlines content)) /\
     out (snd run) = out w ++ [Invoked cmd] ++
       ack_shown "Merge successful; saving a new reference file. " (isatty w) /\
     S (waiting (snd run)) = waiting w) /\
  (code = 0%Z -> files !! merged_file = None ->
     fst run = Raise IOError /\
     out (snd run) = out w ++ [Invoked cmd] /\
     waiting (snd run) = waiting w) /\
  (code <> 0%Z -> answer_ready w ->
     fst run = Ok None /\
     out (snd run) = out w ++ [Invoked cmd] ++
       ack_shown "Merge unsuccessful; not saving a new reference file. "
                 (isatty w) /\
     S (waiting (snd run)) = waiting w) /\
  (~ answer_ready w -> forall v, fst run <> Ok v).
Proof.
  intros Hns q current_file reference_file merged_file cmd written code files run.
  destruct (kdiff3_merge_mode_cases test_name reference_lines current_lines
              unified_diff no_save w Hns) as (Hok & Hmissing & Hfailed & Hwait).
  split; [|split; [|split]].
  - intros content Hcode Hfile Hready.
    destruct (Hok content Hcode Hfile Hready) as (w' & Hrun & Hout & Hw).
    subst run. rewrite Hrun. split; [reflexivity|]. split; [exact Hout|exact Hw].
  - intros Hcode Hfile.
    destruct (Hmissing Hcode Hfile) as (w' & Hrun & Hout & Hw).
    subst run. rewrite Hrun. split; [reflexivity|]. split; [exact Hout|exact Hw].
  - intros Hcode Hready.
    destruct (Hfailed Hcode Hready) as (w' & Hrun & Hout & Hw).
    subst run. rewrite Hrun. split; [reflexivity|]. split; [exact Hout|exact Hw].
  - exact Hwait.
Qed.

Lemma kdiff3_merge_mode_witness :
  truthy None = false /\
  fst (ReconcileToolKdiff3.invoke_tool "t" ["a" +:+ NL] ["b" +:+ NL] [] None
         (merging_world ∅ true ["c"] [] ("b" +:+ NL)))
  = Ok (Some ["b" +:+ NL]).
Proof.
  split; [reflexivity|].
  destruct (kdiff3_merge_mode "t" ["a" +:+ NL] ["b" +:+ NL] [] None
              (merging_world ∅ true ["c"] [] ("b" +:+ NL)) eq_refl) as [H _].
  destruct (H ("b" +:+ NL)) as (Hrun & _);
    [reflexivity | vm_compute; reflexivity | discriminate |].
  exact Hrun.
Defined.

(** A world whose merge tool reports success and writes nothing. *)
Definition silent_world (typed : list string) : world :=
  World ∅ true typed []
        (fun n => match n with 0 => "A1B2C3D4" | 1 => "E5F6G7H8" | _ => "I9J0K1L2" end)
        0 (fun _ m => (0%Z, m)) None [].

Definition silent_run : result (option (list string)) * world :=
  ReconcileToolKdiff3.invoke_tool "t" ["a" +:+ NL] ["b" +:+ NL] [] None
    (silent_world ["c"]).

(** C5 (as stated) fails when the tool exits with 0 and has left no merged
    file: the user is ready to acknowledge, yet the strategy returns no
    lines; it raises IOError, and after the command nothing is shown and
    the typed line is not read. *)
Lemma kdiff3_missing_merged_counterexample :
  truthy None = false /\
  (forall cmd files, fst (shell (silent_world ["c"]) cmd files) = 0%Z) /\
  answer_ready (silent_world ["c"]) /\
  fst silent_run = Raise IOError /\
  (forall lines, fst silent_run <> Ok (Some lines)) /\
  (exists cmd, out (snd silent_run) = [Invoked cmd]) /\
  stdin (snd silent_run) = ["c"].
Proof.
  split; [reflexivity|]. split; [reflexivity|]. split; [discriminate|].
  split; [vm_compute; reflexivity|]. split; [vm_compute; discriminate|].
  split; [eexists; vm_compute; reflexivity|vm_compute; reflexivity].
Qed.

(** *** View mode *)

Definition view_command (test_name : string) (w : world) : string :=
  ReconcileToolKdiff3.view_cmd test_name (ref_name w) (curr_name w).

(** The world when both temporary files are written. *)
Definition temp_written (reference_lines current_lines : list string) (w : world)
  : world :=
  with_fs (temp_files reference_lines current_lines w)
          (with_rng_pos (S (S (rng_pos w))) w).

(** The question of view mode, put to the user in world [w]. *)
Definition still_start_kdiff3 (test_name : string) (no_save : option string)
  : M world string :=
  ReconcileTool._get_user_input
    ("Encountered failures while running test " +:+ test_name +:+ ":")
    "Still want to start kdiff3?" (str no_save) ["yes"; "no"] ["y"; "n"].

Lemma try_block_view test_name reference_lines current_lines no_save (w : world) :
  truthy no_save = true ->
  ReconcileToolKdiff3.try_block test_name reference_lines current_lines no_save
    (curr_name w) (ref_name w)
    (ReconcileToolKdiff3.Unbound, with_rng_pos (S (S (rng_pos w))) w)
  = (response <- lift (still_start_kdiff3 test_name no_save) ;;
     if negb (String.eqb response "yes") then ret None
     else
       lift (ReconcileTool._invoke_command (view_command test_name w)) ;;
       ret None)
      (ReconcileToolKdiff3.Bound None, temp_written reference_lines current_lines w).
Proof.
  intros Hns. unfold ReconcileToolKdiff3.try_block. rewrite Hns.
  erewrite bind_step by reflexivity.
  erewrite bind_step by reflexivity.
  erewrite bind_step by reflexivity.
  reflexivity.
Qed.

(** A typed line that says yes to a yes/no question. *)
Definition yes_line (line : string) : bool :=
  String.eqb line "y" || String.eqb line "yes".

Lemma console_choice_yes_no (line : string) :
  console_choice ["yes"; "no"] ["y"; "n"] line "no"
  = if yes_line line then "yes" else "no".
Proof.
  unfold console_choice, yes_line.
  destruct line as [|a [|b line]].
  - reflexivity.
  - cbn [String.length Nat.eqb zip zip_with List.filter map fst snd].
    rewrite (String.eqb_sym "y"), (String.eqb_sym "n").
    destruct (String.eqb (String a "") "y") eqn:Ey; [reflexivity|].
    replace (String.eqb (String a "") "yes") with false
      by (symmetry; apply String.eqb_neq; intros [=]).
    by destruct (String.eqb (String a "") "n").
  - cbn [String.length Nat.eqb List.filter].
    rewrite (String.eqb_sym "yes"), (String.eqb_sym "no").
    replace (String.eqb (String a (String b line)) "y") with false
      by (symmetry; apply String.eqb_neq; intros [=]).
    destruct (String.eqb (String a (String b line)) "yes"); [reflexivity|].
    by destruct (String.eqb (String a (String b line)) "no").
Qed.

(** The whole run of view mode in terms of the answer to its question. *)
Lemma kdiff3_view_run test_name reference_lines current_lines unified_diff
    no_save (w : world) :
  truthy no_save = true ->
  ReconcileToolKdiff3.invoke_tool test_name reference_lines current_lines
      unified_diff no_save w
  = (let asked := still_start_kdiff3 test_name no_save
                    (temp_written reference_lines current_lines w) in
     let sweep w1 :=
       with_fs (swept (curr_name w) (ref_name w)
                      (ReconcileToolKdiff3.Bound None) (fs w1)) w1 in
     match fst asked with
     | Ok response =>
         (Ok None,
          sweep (if String.eqb response "yes"
                 then snd (ReconcileTool._invoke_command
                             (view_command test_name w) (snd asked))
                 else snd asked))
     | Raise e => (Raise e, sweep (snd asked))
     | Blocked => (Blocked, snd asked)
     end).
Proof.
  intros Hns. rewrite kdiff3_invoke_tool_unfold.
  unfold ReconcileToolKdiff3.with_local, try_finally.
  rewrite try_block_view by done.
  unfold bind at 1, lift at 1. simpl fst. simpl snd.
  destruct (still_start_kdiff3 test_name no_save
              (temp_written reference_lines current_lines w))
    as [[response|e|] w1]; simpl fst; simpl snd.
  - cbv zeta. destruct (String.eqb response "yes") eqn:E; simpl negb; cbv iota.
    + unfold bind, lift, ret. simpl. rewrite E, finally_block_run. done.
    + unfold ret. simpl. rewrite E, finally_block_run. done.
  - rewrite finally_block_run. done.
  - done.
Qed.

(** X17: with a non-empty reason not to save, the merge tool strategy first
    writes the temporary files and asks the yes/no question whose last option,
    the default, is [no].  If the answer is not [yes] the strategy returns
    [None] and no command is run; if it is [yes] the tool is run in view mode,
    [kdiff3] on the two temporary copies with no merge flag and no output
    file, and the strategy returns [None] all the same.  On no path does it
    return lines to save.  On a terminal the answer is [yes] exactly when the
    typed line is [y] or [yes]. *)
Theorem kdiff3_view_mode test_name reference_lines current_lines unified_diff
    no_save (w : world) :
  truthy no_save = true ->
  let q := String (ascii_of_nat 34) EmptyString in
  let current_file := "/tmp/bond_tmp_" +:+ rng w (rng_pos w) +:+ ".curr" in
  let reference_file := "/tmp/bond_tmp_" +:+ rng w (S (rng_pos w)) +:+ ".ref" in
  let cmd :=
    "kdiff3 " +:+ q +:+ reference_file +:+ q +:+
    " --L1 " +:+ q +:+ test_name +:+ "_REFERENCE" +:+ q +:+
    " " +:+ q +:+ current_file +:+ q +:+
    " --L2 " +:+ q +:+ test_name +:+ "_CURRENT" +:+ q +:+ " " in
  let written :=
    with_fs (<[reference_file := join "" reference_lines]>
               (<[current_file := join "" current_lines]> (fs w)))
            (with_rng_pos (S (S (rng_pos w))) w) in
  let asked :=
    ReconcileTool._get_user_input
      ("Encountered failures while running test " +:+ test_name +:+ ":")
      "Still want to start kdiff3?" (str no_save) ["yes"; "no"] ["y"; "n"]
      written in
  let run := ReconcileToolKdiff3.invoke_tool test_name reference_lines
               current_lines unified_diff no_save w in
  (forall lines, fst run <> Ok (Some lines)) /\
  match fst asked with
  | Ok response =>
      fst run = Ok None /\
      out (snd run) = out (snd asked) ++
        (if String.eqb response "yes" then [Invoked cmd] else [])
  | Raise e => fst run = Raise e /\ out (snd run) = out (snd asked)
  | Blocked => fst run = Blocked /\ out (snd run) = out (snd asked)
  end /\
  (forall line rest, isatty w = true -> stdin w = line :: rest ->
     fst asked = Ok (if yes_line line then "yes" else "no")).
Proof.
  intros Hns q current_file reference_file cmd written asked run.
  change asked with (still_start_kdiff3 test_name no_save
                       (temp_written reference_lines current_lines w)) in *.
  change cmd with (view_command test_name w) in *.
  clear q current_file reference_file cmd written asked.
  set (asked := still_start_kdiff3 test_name no_save
                  (temp_written reference_lines current_lines w)).
  assert (match fst asked with
          | Ok response =>
              fst run = Ok None /\
              out (snd run) = out (snd asked) ++
                (if String.eqb response "yes"
                 then [Invoked (view_command test_name w)] else [])
          | Raise e => fst run = Raise e /\ out (snd run) = out (snd asked)
          | Blocked => fst run = Blocked /\ out (snd run) = out (snd asked)
          end) as Hrun.
  { subst run. rewrite kdiff3_view_run by done. fold asked. cbv zeta.
    destruct (fst asked) as [response|e|]; [|done|done].
    destruct (String.eqb response "yes"); simpl; [done|by rewrite app_nil_r]. }
  split; [|split; [exact Hrun|]].
  - intros lines Hlines. destruct (fst asked); rewrite Hlines in Hrun;
      destruct Hrun as [? _]; discriminate.
  - intros line rest Htty Hin. subst asked.
    unfold still_start_kdiff3, ReconcileTool._get_user_input, bind, sys_stdin_isatty.
    change (isatty (temp_written reference_lines current_lines w)) with (isatty w).
    rewrite Htty.
    destruct (_get_user_input_console_run
                ("Encountered failures while running test " +:+ test_name +:+ ":")
                "Still want to start kdiff3?" (str no_save)
                ["yes"; "no"] ["y"; "n"]
                (temp_written reference_lines current_lines w) line rest)
      as (default & w' & Hd & -> & _); [done|done|done|].
    injection Hd as <-. simpl fst. by rewrite console_choice_yes_no.
Qed.

Lemma kdiff3_view_mode_witness :
  truthy (Some "crashed") = true /\
  fst (ReconcileToolKdiff3.invoke_tool "t" ["a" +:+ NL] ["b" +:+ NL] []
         (Some "crashed") (merging_world ∅ true ["maybe"] [] ("b" +:+ NL)))
  = Ok None.
Proof.
  split; [reflexivity|].
  destruct (kdiff3_view_mode "t" ["a" +:+ NL] ["b" +:+ NL] [] (Some "crashed")
              (merging_world ∅ true ["maybe"] [] ("b" +:+ NL)) eq_refl)
    as (_ & H & Hline).
  rewrite (Hline "maybe" [] eq_refl eq_refl) in H. exact (proj1 H).
Defined.

(** C6: a reason that is given as the empty string is not taken as a reason.
    Called with [no_save=''] the strategy asks no yes/no question: it runs
    the tool in merge mode, with the merge flag and an output file, asks for
    the acknowledgment and returns the merged lines as accepted content. *)
Lemma kdiff3_empty_reason_merges :
  fst (ReconcileToolKdiff3.invoke_tool "t" ["a" +:+ NL] ["b" +:+ NL] []
         (Some "") (merging_world ∅ true ["c"] [] ("b" +:+ NL)))
  = Ok (Some ["b" +:+ NL]) /\
  out (snd (ReconcileToolKdiff3.invoke_tool "t" ["a" +:+ NL] ["b" +:+ NL] []
              (Some "") (merging_world ∅ true ["c"] [] ("b" +:+ NL))))
  = [Invoked ("kdiff3 -m " +:+ ReconcileToolKdiff3.DQ +:+
              "/tmp/bond_tmp_E5F6G7H8.ref" +:+ ReconcileToolKdiff3.DQ +:+
              " --L1 " +:+ ReconcileToolKdiff3.DQ +:+ "t_REFERENCE" +:+
              ReconcileToolKdiff3.DQ +:+ " " +:+ ReconcileToolKdiff3.DQ +:+
              "/tmp/bond_tmp_A1B2C3D4.curr" +:+ ReconcileToolKdiff3.DQ +:+
              " --L2 " +:+ ReconcileToolKdiff3.DQ +:+ "t_CURRENT" +:+
              ReconcileToolKdiff3.DQ +:+ "  -o " +:+ ReconcileToolKdiff3.DQ +:+
              "/tmp/bond_tmp_I9J0K1L2.merged" +:+ ReconcileToolKdiff3.DQ);
     Prompted (BOLD_CHAR +:+ "Merge successful; saving a new reference file. " +:+
               RESET_CHAR +:+ " (" +:+ BOLD_CHAR +:+ "[c]ontinue" +:+
               RESET_CHAR +:+ "): ")].
Proof. split; vm_compute; reflexivity. Qed.

(** ** reconcile *)

(** The reference lines [reconcile] works with: those of the reference file,
    none when there is no such file. *)
Definition reference_lines_of (w : world) (reference_file : string) : list string :=
  match fs w !! reference_file with
  | Some content => readlines content
  | None => []
  end.

Definition NO_REFERENCE (test_name reference_file : string) : string :=
  "WARNING: No reference observation file found for " +:+ test_name +:+ ": " +:+
  reference_file.

(** The world when the reference has been looked for. *)
Definition after_read (test_name reference_file : string) (w : world) : world :=
  match fs w !! reference_file with
  | Some _ => w
  | None => emit (Printed (NO_REFERENCE test_name reference_file)) w
  end.

Lemma reconcile_unfold (unified_diff : differ) (self_invoke_tool : tool)
    test_name reference_file current_lines no_save (w : world) :
  ReconcileTool.reconcile unified_diff self_invoke_tool test_name reference_file
      current_lines no_save w
  = (let reference_lines := reference_lines_of w reference_file in
     let diff := ReconcileTool._compute_diff unified_diff reference_lines
                   current_lines in
     if length diff =? 0 then ret true
     else
       merged_lines <- self_invoke_tool test_name reference_lines current_lines
                                        diff no_save ;;
       match merged_lines with
       | Some merged_lines =>
           (if truthy no_save then
              ReconcileTool._print
                ("Not saving reference observation file for " +:+ test_name +:+
                 ": " +:+ str no_save)
            else
              ReconcileTool._print
                ("Saving updated reference observation file for " +:+ test_name) ;;
              found <- os_path_isfile reference_file ;;
              when found (os_unlink reference_file) ;;
              open_writelines reference_file merged_lines) ;;
           ret true
       | None => ret false
       end) (after_read test_name reference_file w).
Proof.
  unfold ReconcileTool.reconcile, reference_lines_of, after_read.
  unfold bind at 1, os_path_isfile at 1.
  destruct (fs w !! reference_file) as [content|] eqn:E.
  - rewrite bool_decide_eq_true_2 by eauto.
    unfold bind at 1, open_readlines. by rewrite E.
  - rewrite bool_decide_eq_false_2 by (intros [? ?]; congruence).
    reflexivity.
Qed.

Lemma length_eqb_0 {A : Type} (l : list A) : l <> [] -> (length l =? 0) = false.
Proof. by destruct l. Qed.

Lemma fs_after_read test_name reference_file w :
  fs (after_read test_name reference_file w) = fs w.
Proof. unfold after_read. by destruct (fs w !! reference_file). Qed.

(** An example of a [differ] for the worked examples: nothing for equal
    inputs, and otherwise one hunk that replaces the whole reference. *)
Definition whole_file_diff : differ :=
  fun a b fromfile tofile =>
    if bool_decide (a = b) then []
    else ["--- " +:+ fromfile +:+ NL; "+++ " +:+ tofile +:+ NL; "@@ @@" +:+ NL] ++
         map (String.append "-") a ++ map (String.append "+") b.

(** The run of [reconcile] with the accept strategy on a non-empty diff. *)
Lemma accept_run (unified_diff : differ) test_name reference_file
    current_lines no_save (w : world) :
  ReconcileTool._compute_diff unified_diff
    (reference_lines_of w reference_file) current_lines <> [] ->
  exists w',
    ReconcileTool.reconcile unified_diff ReconcileToolAccept.invoke_tool
        test_name reference_file current_lines no_save w = (Ok true, w') /\
    fs w' = if truthy no_save then fs w
            else <[reference_file := join "" current_lines]> (fs w).
Proof.
  intros Hdiff. rewrite reconcile_unfold. cbv zeta.
  rewrite (length_eqb_0 _ Hdiff).
  unfold ReconcileToolAccept.invoke_tool, ReconcileTool._print.
  destruct (truthy no_save) eqn:Hns.
  - eexists. split; [reflexivity|]. simpl. apply fs_after_read.
  - eexists. split.
    + unfold bind at 1. unfold bind at 1. unfold bind at 1. simpl.
      unfold bind at 1. unfold bind at 1. simpl.
      rewrite unlink_if_file. reflexivity.
    + simpl. rewrite insert_delete_eq. by rewrite fs_after_read.
Qed.

(** X18: when the diff is not empty, [reconcile] with the accept strategy
    returns true.  Without a reason not to save ([no_save] is [None]) the
    reference file afterwards holds exactly the current lines and no other
    file has changed; with a reason (a non-empty string) no file has
    changed. *)
Theorem accept_reconcile (unified_diff : differ) test_name reference_file
    current_lines no_save (w : world) :
  ReconcileTool._compute_diff unified_diff
    (reference_lines_of w reference_file) current_lines <> [] ->
  exists w',
    ReconcileTool.reconcile unified_diff ReconcileToolAccept.invoke_tool
        test_name reference_file current_lines no_save w = (Ok true, w') /\
    (no_save = None ->
       fs w' = <[reference_file := join "" current_lines]> (fs w)) /\
    (forall reason, no_save = Some reason -> reason <> "" -> fs w' = fs w).
Proof.
  intros Hdiff.
  destruct (accept_run unified_diff test_name reference_file current_lines
              no_save w Hdiff) as (w' & Hrun & Hfs).
  exists w'. split; [exact Hrun|]. split.
  - intros ->. exact Hfs.
  - intros reason -> Hreason. simpl in Hfs.
    apply String.eqb_neq in Hreason. by rewrite Hreason in Hfs.
Qed.

(** The scenario of the specification: the reference reads [a], [b] and the
    current observations are [a], [c]. *)
Definition scenario_world : world :=
  sample_world {[ "test.ref" := "a" +:+ NL +:+ "b" +:+ NL ]} true [] [].

Definition scenario_current : list string := ["a" +:+ NL; "c" +:+ NL].

Lemma accept_reconcile_witness :
  ReconcileTool._compute_diff whole_file_diff
    (reference_lines_of scenario_world "test.ref") scenario_current <> [] /\
  exists w',
    ReconcileTool.reconcile whole_file_diff ReconcileToolAccept.invoke_tool
        "test" "test.ref" scenario_current None scenario_world = (Ok true, w') /\
    fs w' = <["test.ref" := join "" scenario_current]> (fs scenario_world).
Proof.
  split; [vm_compute; discriminate|].
  destruct (accept_reconcile whole_file_diff "test" "test.ref" scenario_current
              None scenario_world) as (w' & Hrun & Hsaved & _).
  { vm_compute. discriminate. }
  exists w'. split; [exact Hrun|]. by apply Hsaved.
Defined.

(** C1: a reason that is given as the empty string is not taken as a reason.
    Called with [no_save=''] and the accept strategy on a non-empty diff,
    [reconcile] returns true, announces last that it saves, and has written
    the current lines over the reference file. *)
Theorem accept_empty_reason_overwrites (unified_diff : differ) test_name
    reference_file current_lines (w : world) :
  ReconcileTool._compute_diff unified_diff
    (reference_lines_of w reference_file) current_lines <> [] ->
  exists w',
    ReconcileTool.reconcile unified_diff ReconcileToolAccept.invoke_tool
        test_name reference_file current_lines (Some "") w = (Ok true, w') /\
    fs w' = <[reference_file := join "" current_lines]> (fs w) /\
    last (out w')
    = Some (Printed ("Saving updated reference observation file for " +:+
                     test_name)).
Proof.
  intros Hdiff. rewrite reconcile_unfold. cbv zeta.
  rewrite (length_eqb_0 _ Hdiff).
  unfold ReconcileToolAccept.invoke_tool, ReconcileTool._print.
  change (truthy (Some "")) with false. cbv iota.
  eexists. split.
  - unfold bind at 1. unfold bind at 1. unfold bind at 1. simpl.
    unfold bind at 1. unfold bind at 1. simpl.
    rewrite unlink_if_file. reflexivity.
  - simpl. split; [by rewrite insert_delete_eq, fs_after_read|].
    by rewrite !last_snoc.
Qed.

(** The failing input: the reference file, which read [a], [b], holds the
    current lines [a], [c] afterwards. *)
Lemma accept_empty_reason_overwrites_witness :
  ReconcileTool._compute_diff whole_file_diff
    (reference_lines_of scenario_world "test.ref") scenario_current <> [] /\
  fs scenario_world !! "test.ref" = Some ("a" +:+ NL +:+ "b" +:+ NL) /\
  exists w',
    ReconcileTool.reconcile whole_file_diff ReconcileToolAccept.invoke_tool
        "test" "test.ref" scenario_current (Some "") scenario_world
      = (Ok true, w') /\
    fs w' !! "test.ref" = Some ("a" +:+ NL +:+ "c" +:+ NL).
Proof.
  split; [vm_compute; discriminate|]. split; [vm_compute; reflexivity|].
  destruct (accept_empty_reason_overwrites whole_file_diff "test" "test.ref"
              scenario_current scenario_world) as (w' & Hrun & Hfs & _).
  { vm_compute. discriminate. }
  exists w'. split; [exact Hrun|]. rewrite Hfs. apply lookup_insert_eq.
Defined.

(** C8: when the diff is not empty, [reconcile] with the abort strategy
    returns false and leaves every file as it was. *)
Theorem abort_reconcile (unified_diff : differ) test_name reference_file
    current_lines no_save (w : world) :
  ReconcileTool._compute_diff unified_diff
    (reference_lines_of w reference_file) current_lines <> [] ->
  exists w',
    ReconcileTool.reconcile unified_diff ReconcileToolAbort.invoke_tool
        test_name reference_file current_lines no_save w = (Ok false, w') /\
    fs w' = fs w.
Proof.
  intros Hdiff. rewrite reconcile_unfold. cbv zeta.
  rewrite (length_eqb_0 _ Hdiff).
  unfold ReconcileToolAbort.invoke_tool, ReconcileTool._print.
  destruct (truthy no_save) eqn:Hns;
    (eexists; split; [reflexivity|simpl; apply fs_after_read]).
Qed.

Lemma abort_reconcile_witness :
  ReconcileTool._compute_diff whole_file_diff
    (reference_lines_of scenario_world "test.ref") scenario_current <> [] /\
  exists w',
    ReconcileTool.reconcile whole_file_diff ReconcileToolAbort.invoke_tool
        "test" "test.ref" scenario_current None scenario_world = (Ok false, w') /\
    fs w' = fs scenario_world.
Proof.
  split; [vm_compute; discriminate|].
  apply (abort_reconcile whole_file_diff "test" "test.ref" scenario_current None
           scenario_world).
  vm_compute. discriminate.
Defined.

(** C7: when the reference and the current observations have the same
    content, so that the diff is empty, [reconcile] returns true at once.
    The reference content is that of the reference file, and no lines when
    there is no such file (then the warning is printed first).  Whatever the
    strategy [self_invoke_tool] would do, the world afterwards is the world
    before, but for that warning: no strategy has run and no file has
    changed. *)
Theorem identical_reconcile (unified_diff : differ) test_name reference_file
    current_lines no_save (w : world) :
  (forall lines, unified_diff lines lines "reference" "current" = []) ->
  reference_lines_of w reference_file = current_lines ->
  forall self_invoke_tool : tool,
    ReconcileTool.reconcile unified_diff self_invoke_tool test_name
        reference_file current_lines no_save w
    = (Ok true,
       match fs w !! reference_file with
       | Some _ => w
       | None =>
           emit (Printed ("WARNING: No reference observation file found for " +:+
                          test_name +:+ ": " +:+ reference_file)) w
       end) /\
    fs (snd (ReconcileTool.reconcile unified_diff self_invoke_tool test_name
               reference_file current_lines no_save w)) = fs w.
Proof.
  intros Hsame Hlines self_invoke_tool.
  rewrite reconcile_unfold. cbv zeta.
  unfold ReconcileTool._compute_diff. rewrite Hlines, Hsame.
  split; [reflexivity|]. simpl. apply fs_after_read.
Qed.

Lemma whole_file_diff_same (lines : list string) :
  whole_file_diff lines lines "reference" "current" = [].
Proof. unfold whole_file_diff. by rewrite bool_decide_eq_true_2. Qed.

Lemma whole_file_diff_differ (a b : list string) :
  a <> b -> whole_file_diff a b "reference" "current" <> [].
Proof. intros H. unfold whole_file_diff. by rewrite bool_decide_eq_false_2. Qed.

(** Both cases, run: a reference file that reads as the current lines, and no
    reference file with no current lines. *)
Lemma identical_reconcile_witness :
  (forall lines, whole_file_diff lines lines "reference" "current" = []) /\
  reference_lines_of scenario_world "test.ref" = ["a" +:+ NL; "b" +:+ NL] /\
  reference_lines_of (sample_world ∅ true [] []) "test.ref" = [] /\
  forall self_invoke_tool : tool,
    ReconcileTool.reconcile whole_file_diff self_invoke_tool "test" "test.ref"
        ["a" +:+ NL; "b" +:+ NL] None scenario_world = (Ok true, scenario_world) /\
    ReconcileTool.reconcile whole_file_diff self_invoke_tool "test" "test.ref"
        [] None (sample_world ∅ true [] [])
    = (Ok true,
       emit (Printed "WARNING: No reference observation file found for test: test.ref")
            (sample_world ∅ true [] [])).
Proof.
  assert (reference_lines_of scenario_world "test.ref" = ["a" +:+ NL; "b" +:+ NL])
    as Hfile by (vm_compute; reflexivity).
  assert (reference_lines_of (sample_world ∅ true [] []) "test.ref" = [])
    as Hnone by reflexivity.
  split; [exact whole_file_diff_same|]. split; [exact Hfile|].
  split; [exact Hnone|].
  intros self_invoke_tool. split.
  - exact (proj1 (identical_reconcile whole_file_diff "test" "test.ref"
                    ["a" +:+ NL; "b" +:+ NL] None scenario_world
                    whole_file_diff_same Hfile self_invoke_tool)).
  - exact (proj1 (identical_reconcile whole_file_diff "test" "test.ref"
                    [] None (sample_world ∅ true [] [])
                    whole_file_diff_same Hnone self_invoke_tool)).
Defined.

(** C9: when there is no reference file, [reconcile] warns and goes on with
    no reference lines; with the accept strategy, current lines and nothing
    against saving it returns true and creates the reference file with
    exactly the current lines.  The output shows the warning first and the
    diff against the empty reference. *)
Theorem absent_reference_reconcile (unified_diff : differ) test_name
    reference_file current_lines no_save (w : world) :
  (forall a b, a <> b -> unified_diff a b "reference" "current" <> []) ->
  fs w !! reference_file = None ->
  current_lines <> [] ->
  truthy no_save = false ->
  reference_lines_of w reference_file = [] /\
  exists w',
    ReconcileTool.reconcile unified_diff ReconcileToolAccept.invoke_tool
        test_name reference_file current_lines no_save w = (Ok true, w') /\
    fs w' = <[reference_file := join "" current_lines]> (fs w) /\
    out w' = out w ++
      [Printed (NO_REFERENCE test_name reference_file);
       Printed (BOLD_CHAR +:+ "Differences for " +:+ test_name +:+ ":" +:+ RESET_CHAR);
       Printed (ReconcileTool.get_diff
                  (unified_diff [] current_lines "reference" "current"));
       Printed (BOLD_CHAR +:+ "Accepting (reconcile=accept) differences for " +:+
                test_name +:+ RESET_CHAR);
       Printed ("Saving updated reference observation file for " +:+ test_name)].
Proof.
  intros Hdiffer Hfile Hcur Hns.
  assert (reference_lines_of w reference_file = []) as Href
      by (unfold reference_lines_of; by rewrite Hfile).
  split; [exact Href|].
  rewrite reconcile_unfold. cbv zeta. rewrite Href.
  unfold ReconcileTool._compute_diff.
  rewrite (length_eqb_0 _ (Hdiffer [] current_lines (not_eq_sym Hcur))).
  unfold ReconcileToolAccept.invoke_tool, ReconcileTool._print, after_read.
  rewrite Hfile, Hns.
  eexists. split.
  - unfold bind at 1. unfold bind at 1. unfold bind at 1. simpl.
    unfold bind at 1. unfold bind at 1. simpl.
    rewrite unlink_if_file. reflexivity.
  - simpl. split; [by rewrite insert_delete_eq|].
    by rewrite <- !app_assoc.
Qed.

Lemma absent_reference_reconcile_witness :
  (forall a b, a <> b -> whole_file_diff a b "reference" "current" <> []) /\
  fs (sample_world ∅ true [] []) !! "test.ref" = None /\
  ["x" +:+ NL] <> [] /\
  truthy None = false /\
  exists w',
    ReconcileTool.reconcile whole_file_diff ReconcileToolAccept.invoke_tool
        "test" "test.ref" ["x" +:+ NL] None (sample_world ∅ true [] [])
      = (Ok true, w') /\
    fs w' !! "test.ref" = Some ("x" +:+ NL).
Proof.
  split; [exact whole_file_diff_differ|]. split; [reflexivity|].
  split; [discriminate|]. split; [reflexivity|].
  assert (fs (sample_world ∅ true [] []) !! "test.ref" = None) as Hfile
      by reflexivity.
  assert (["x" +:+ NL] <> []) as Hcur by discriminate.
  destruct (absent_reference_reconcile whole_file_diff "test" "test.ref"
              ["x" +:+ NL] None (sample_world ∅ true [] [])
              whole_file_diff_differ Hfile Hcur eq_refl)
    as (_ & w' & Hrun & Hfs & _).
  exists w'. split; [exact Hrun|]. rewrite Hfs. apply lookup_insert_eq.
Defined.

(** ** The interactive strategies *)

(** An input method that keeps the contract of the user-input routines. *)
Definition well_behaved (input : ReconcileToolConsole.input_method) : Prop :=
  forall before_prompt after_prompt content options shortcuts w,
    options <> [] -> length shortcuts = length options ->
    asks options w (input before_prompt after_prompt content options shortcuts w).

Lemma console_input_well_behaved : well_behaved ReconcileToolConsole._input.
Proof. intros b a c options shortcuts w Hne Hlen. by apply _get_user_input_asks. Qed.

Lemma dialog_input_well_behaved : well_behaved ReconcileToolDialog._input.
Proof. intros b a c options shortcuts w Hne Hlen. by apply _get_user_input_dialog_asks. Qed.

(** The values [response] can take while saving is not suppressed. *)
Definition unsuppressed_states : list string :=
  ["diff"; "observations"; "kdiff3"; "yes"; "no"].

Section Loop_facts.

Variable input : ReconcileToolConsole.input_method.
Hypothesis input_ok : well_behaved input.
Variable test_name : string.
Variables reference_lines current_lines unified_diff : list string.
Variable no_save : option string.

Local Abbreviation loop_body :=
  (ReconcileToolConsole.loop_body input test_name reference_lines current_lines
     unified_diff no_save).
Local Abbreviation while_true :=
  (ReconcileToolConsole.while_true input test_name reference_lines current_lines
     unified_diff no_save).

(** A prompting turn: the next response is one of the options shown, and one
    answer of the user is used up. *)
Lemma prompt_turn before_prompt after_prompt content options shortcuts
    (w w' : world) (r' : string) :
  options <> [] -> length shortcuts = length options ->
  (response <- input before_prompt after_prompt content options shortcuts ;;
   ret (inl (B := option (list string)) response)) w = (Ok (inl r'), w') ->
  r' ∈ options /\ S (waiting w') = waiting w.
Proof.
  intros Hne Hlen. unfold bind.
  pose proof (input_ok before_prompt after_prompt content options shortcuts w
                Hne Hlen) as [_ H].
  destruct (input _ _ _ _ _ w) as [[opt|e|] w1]; simpl in *; [|done|done].
  intros [= <- <-]. done.
Qed.

Lemma loop_body_inl (response : string) (w w' : world) (r' : string) :
  loop_body response w = (Ok (inl r'), w') ->
  S (waiting w') = waiting w /\
  (truthy no_save = false -> response <> "errors" -> r' ∈ unsuppressed_states).
Proof.
  unfold ReconcileToolConsole.loop_body.
  destruct (String.eqb response "observations") eqn:E1.
  { intros H. destruct (truthy no_save) eqn:Hns;
      apply prompt_turn in H as [Hin Hw]; try done.
    split; [done|]. intros _ _. unfold unsuppressed_states.
    repeat (apply elem_of_cons in Hin as [->|Hin]; [repeat constructor|]).
    by apply elem_of_nil in Hin. }
  destruct (String.eqb response "diff") eqn:E2.
  { intros H. destruct (truthy no_save) eqn:Hns;
      apply prompt_turn in H as [Hin Hw]; try done.
    split; [done|]. intros _ _. unfold unsuppressed_states.
    repeat (apply elem_of_cons in Hin as [->|Hin]; [repeat constructor|]).
    by apply elem_of_nil in Hin. }
  destruct (String.eqb response "errors") eqn:E3.
  { intros H. apply prompt_turn in H as [Hin Hw]; try done.
    split; [done|]. intros _ Hne. apply String.eqb_eq in E3. done. }
  destruct (String.eqb response "kdiff3").
  { unfold bind. destruct (ReconcileToolKdiff3.invoke_tool _ _ _ _ _ w) as [[?|?|] ?];
      done. }
  destruct (String.eqb response "yes"); [done|].
  destruct (String.eqb response "no"); [done|].
  destruct (String.eqb response "continue"); done.
Qed.

(** More turns than the user has answers are never all used. *)
Lemma while_true_enough (n m : nat) (response : string) (w : world) :
  waiting w < n -> waiting w < m ->
  while_true n response w = while_true m response w.
Proof.
  revert m response w. induction n as [|n IH]; intros m response w Hn Hm; [lia|].
  destruct m as [|m]; [lia|]. simpl. unfold bind.
  destruct (loop_body response w) as [[[r'|v]|e|] w'] eqn:E; try done.
  apply loop_body_inl in E as [Hw _]. apply IH; lia.
Qed.

(** [response] is [r] on entry of a turn in world [w]; some turns later it is
    [r'] on entry of a turn in world [w']. *)
Inductive visits : string -> world -> string -> world -> Prop :=
| visits_here (r : string) (w : world) : visits r w r w
| visits_turn (r r1 r' : string) (w w1 w' : world) :
    loop_body r w = (Ok (inl r1), w1) -> visits r1 w1 r' w' -> visits r w r' w'.

Lemma visits_unsuppressed (r r' : string) (w w' : world) :
  truthy no_save = false ->
  visits r w r' w' -> r ∈ unsuppressed_states -> r' ∈ unsuppressed_states.
Proof.
  intros Hns Hv. induction Hv as [|r r1 r' w w1 w' Hturn Hv IH]; [done|].
  intros Hr. apply IH. apply loop_body_inl in Hturn as [_ Hin].
  apply Hin; [done|]. intros ->. unfold unsuppressed_states in Hr.
  repeat (apply elem_of_cons in Hr as [Hr|Hr]; [discriminate|]).
  by apply elem_of_nil in Hr.
Qed.

End Loop_facts.

(** C3 (as amended): the loop of the console and dialog strategies is entered
    with [response] equal to [observations] when a non-empty reason not to
    save is given, and to [diff] otherwise; so its first turn shows the
    current observations in the first case and the diff in the second. *)
Theorem initial_state (input : ReconcileToolConsole.input_method) test_name
    reference_lines current_lines unified_diff no_save :
  ReconcileToolConsole.initial_response no_save
    = (if truthy no_save then "observations" else "diff") /\
  (forall w,
     ReconcileToolConsole.invoke_tool_with input test_name reference_lines
         current_lines unified_diff no_save w
     = ReconcileToolConsole.while_true input test_name reference_lines
         current_lines unified_diff no_save (ReconcileToolConsole.turns w)
         (ReconcileToolConsole.initial_response no_save) w) /\
  ReconcileToolConsole.loop_body input test_name reference_lines current_lines
      unified_diff no_save (ReconcileToolConsole.initial_response no_save)
    = (if truthy no_save then
         response <- input ("Observations are shown for " +:+ test_name +:+ ":")
                       "Saving not available due to errors in the test"
                       (join "" current_lines)
                       ["kdiff3"; "diff"; "errors"; "continue"]
                       ["k"; "d"; "e"; "c"] ;;
         ret (inl response)
       else
         response <- input ("Differences in observations are shown for " +:+
                            test_name +:+ ":")
                       ("Save new set of observations with these differences for "
                        +:+ test_name +:+ "?")
                       (ReconcileTool.get_diff unified_diff)
                       ["kdiff3"; "observations"; "yes"; "no"]
                       ["k"; "o"; "y"; "n"] ;;
         ret (inl response)).
Proof.
  split; [reflexivity|]. split; [reflexivity|].
  unfold ReconcileToolConsole.initial_response, ReconcileToolConsole.loop_body.
  destruct (truthy no_save); reflexivity.
Qed.

(** C3 (as stated) fails: with the reason [crashed] the loop is entered with
    [observations], not [errors], and the one dialog the user sees before
    answering [continue] is the one of the observations. *)
Lemma initial_state_counterexample :
  truthy (Some "crashed") = true /\
  ReconcileToolConsole.initial_response (Some "crashed") = "observations" /\
  ReconcileToolConsole.initial_response (Some "crashed") <> "errors" /\
  out (snd (ReconcileToolDialog.invoke_tool "t" [] ["x" +:+ NL] ["-y"; "+x"]
              (Some "crashed") (sample_world ∅ false [] ["continue"])))
  = [DialogShown "Observations are shown for t:"
       "Saving not available due to errors in the test" ("x" +:+ NL)
       ["kdiff3"; "diff"; "errors"; "continue"]].
Proof.
  split; [reflexivity|]. split; [reflexivity|]. split; [discriminate|].
  vm_compute. reflexivity.
Qed.

(** C10: while saving is not suppressed, whatever the user answers and however
    long the loop of the console or dialog strategy goes on, [response] is
    never [errors] on entry of a turn (it is one of [unsuppressed_states]),
    so the branch that shows the errors is never taken. *)
Theorem errors_unreachable (input : ReconcileToolConsole.input_method) test_name
    reference_lines current_lines unified_diff no_save
    (w w' : world) (response : string) :
  input = ReconcileToolConsole._input \/ input = ReconcileToolDialog._input ->
  truthy no_save = false ->
  visits input test_name reference_lines current_lines unified_diff no_save
         (ReconcileToolConsole.initial_response no_save) w response w' ->
  response <> "errors" /\ response ∈ unsuppressed_states.
Proof.
  intros Hinput Hns Hv.
  assert (well_behaved input) as Hok.
  { destruct Hinput as [-> | ->];
      [apply console_input_well_behaved|apply dialog_input_well_behaved]. }
  assert (response ∈ unsuppressed_states) as Hin.
  { eapply visits_unsuppressed; [exact Hok|exact Hns|exact Hv|].
    unfold ReconcileToolConsole.initial_response. rewrite Hns. left. }
  split; [|exact Hin]. intros ->. unfold unsuppressed_states in Hin.
  repeat (apply elem_of_cons in Hin as [Hin|Hin]; [discriminate|]).
  by apply elem_of_nil in Hin.
Qed.

(** A user who looks at the observations and then declines. *)
Definition browsing_world : world :=
  sample_world ∅ false [] ["observations"; "no"].

(** The world after the first turn of the dialog strategy in [browsing_world]. *)
Definition browsing_world_1 : world :=
  snd (ReconcileToolConsole.loop_body ReconcileToolDialog._input "t"
         [] ["x" +:+ NL] ["-y"; "+x"] None "diff" browsing_world).

Lemma errors_unreachable_witness :
  (ReconcileToolDialog._input = ReconcileToolConsole._input \/
   ReconcileToolDialog._input = ReconcileToolDialog._input) /\
  truthy None = false /\
  visits ReconcileToolDialog._input "t" [] ["x" +:+ NL] ["-y"; "+x"] None
         (ReconcileToolConsole.initial_response None) browsing_world
         "observations" browsing_world_1 /\
  "observations" <> "errors" /\ "observations" ∈ unsuppressed_states.
Proof.
  assert (visits ReconcileToolDialog._input "t" [] ["x" +:+ NL] ["-y"; "+x"] None
            (ReconcileToolConsole.initial_response None) browsing_world
            "observations" browsing_world_1) as Hv.
  { eapply visits_turn; [|apply visits_here]. reflexivity. }
  split; [by right|]. split; [reflexivity|]. split; [exact Hv|].
  exact (errors_unreachable ReconcileToolDialog._input "t" [] ["x" +:+ NL]
           ["-y"; "+x"] None browsing_world browsing_world_1 "observations"
           (or_intror eq_refl) eq_refl Hv).
Defined.

(** For the real input methods the loop is total: any number of turns above
    the number of answers the user has left gives the result of
    [invoke_tool]. *)
Lemma console_invoke_tool_fuel test_name reference_lines current_lines
    unified_diff no_save (w : world) (n : nat) :
  waiting w < n ->
  ReconcileToolConsole.while_true ReconcileToolConsole._input test_name
      reference_lines current_lines unified_diff no_save n
      (ReconcileToolConsole.initial_response no_save) w
  = ReconcileToolConsole.invoke_tool test_name reference_lines current_lines
      unified_diff no_save w.
Proof.
  intros Hn. apply while_true_enough;
    [apply console_input_well_behaved|done|unfold ReconcileToolConsole.turns, waiting; lia].
Qed.

Lemma dialog_invoke_tool_fuel test_name reference_lines current_lines
    unified_diff no_save (w : world) (n : nat) :
  waiting w < n ->
  ReconcileToolConsole.while_true ReconcileToolDialog._input test_name
      reference_lines current_lines unified_diff no_save n
      (ReconcileToolConsole.initial_response no_save) w
  = ReconcileToolDialog.invoke_tool test_name reference_lines current_lines
      unified_diff no_save w.
Proof.
  intros Hn. apply while_true_enough;
    [apply dialog_input_well_behaved|done|unfold ReconcileToolConsole.turns, waiting; lia].
Qed.

(** ** Reading back what was written *)

Lemma append_assoc (a b c : string) : (a +:+ b) +:+ c = a +:+ (b +:+ c).
Proof.
  induction a as [|x a IH]; [done|].
  change (String x ((a +:+ b) +:+ c) = String x (a +:+ (b +:+ c))). by f_equal.
Qed.

Lemma append_nil_r (a : string) : a +:+ "" = a.
Proof.
  induction a as [|x a IH]; [done|].
  change (String x (a +:+ "") = String x a). by f_equal.
Qed.

Lemma join_cons (l : string) (ls : list string) : join "" (l :: ls) = l +:+ join "" ls.
Proof. destruct ls; simpl; [by rewrite append_nil_r|done]. Qed.

Fixpoint no_newline (s : string) : bool :=
  match s with
  | EmptyString => true
  | String c rest => negb (Ascii.eqb c "010"%char) && no_newline rest
  end.

(** A line as [readlines] yields it: text without newline, then a newline. *)
Definition full_line (l : string) : Prop :=
  exists body, no_newline body = true /\ l = body +:+ NL.

(** Lines as [readlines] yields them: full lines, the last of which may lack
    its newline if it is not empty. *)
Inductive file_lines : list string -> Prop :=
| file_lines_nil : file_lines []
| file_lines_last (l : string) :
    no_newline l = true -> l <> "" -> file_lines [l]
| file_lines_cons (l : string) (ls : list string) :
    full_line l -> file_lines ls -> file_lines (l :: ls).

Lemma readlines_from_full (cur body rest : string) :
  no_newline body = true ->
  readlines_from cur (body +:+ NL +:+ rest)
  = (cur +:+ body +:+ NL) :: readlines_from "" rest.
Proof.
  revert cur. induction body as [|c body IH]; intros cur Hb.
  - reflexivity.
  - simpl in Hb. apply andb_true_iff in Hb as [Hc Hb].
    apply negb_true_iff in Hc. simpl. rewrite Hc, IH by done.
    by rewrite append_assoc.
Qed.

Lemma readlines_from_tail (cur l : string) :
  no_newline l = true -> l <> "" -> readlines_from cur l = [cur +:+ l].
Proof.
  revert cur. induction l as [|c l IH]; intros cur Hl Hne; [done|].
  simpl in Hl. apply andb_true_iff in Hl as [Hc Hl].
  apply negb_true_iff in Hc. simpl. rewrite Hc.
  destruct l as [|d l].
  - simpl. destruct cur; done.
  - rewrite IH by done. by rewrite append_assoc.
Qed.

(** [readlines] gives back the lines that [writelines] wrote. *)
Lemma readlines_join (ls : list string) :
  file_lines ls -> readlines (join "" ls) = ls.
Proof.
  unfold readlines. induction 1 as [|l Hl Hne|l ls (body & Hb & ->) Hls IH].
  - reflexivity.
  - simpl. by rewrite readlines_from_tail.
  - rewrite join_cons, append_assoc, readlines_from_full by done.
    by rewrite IH.
Qed.

(** After an accepted difference the reference file reads as the current
    lines, when these are lines of a file. *)
Corollary accept_reference_reads_back (unified_diff : differ) test_name
    reference_file current_lines no_save (w : world) :
  ReconcileTool._compute_diff unified_diff
    (reference_lines_of w reference_file) current_lines <> [] ->
  truthy no_save = false ->
  file_lines current_lines ->
  reference_lines_of
    (snd (ReconcileTool.reconcile unified_diff ReconcileToolAccept.invoke_tool
            test_name reference_file current_lines no_save w))
    reference_file = current_lines.
Proof.
  intros Hdiff Hns Hlines.
  destruct (accept_run unified_diff test_name reference_file current_lines
              no_save w Hdiff) as (w' & -> & Hfs).
  unfold reference_lines_of. simpl. rewrite Hfs, Hns, lookup_insert_eq.
  by apply readlines_join.
Qed.

(** ** The exit paths of the merge tool strategy, run *)

(** The merge succeeds and is acknowledged. *)
Example kdiff3_path_merged :
  fst merged_run = Ok (Some ["b" +:+ NL]) /\ fs (snd merged_run) = ∅.
Proof. split; vm_compute; reflexivity. Qed.

(** The tool exits with 1. *)
Example kdiff3_path_failed :
  ReconcileToolKdiff3.invoke_tool "t" ["a" +:+ NL] ["b" +:+ NL] [] None
    (sample_world ∅ true ["c"] [])
  = (Ok None,
     World ∅ true [] [] (rng (sample_world ∅ true [] [])) 3
           (shell (sample_world ∅ true [] [])) None
           [Invoked (ReconcileToolKdiff3.merge_cmd "t" "/tmp/bond_tmp_E5F6G7H8.ref"
                       "/tmp/bond_tmp_A1B2C3D4.curr"
                       "/tmp/bond_tmp_I9J0K1L2.merged");
            Prompted (BOLD_CHAR +:+ MERGE_FAILED +:+ RESET_CHAR +:+ " (" +:+
                      BOLD_CHAR +:+ "[c]ontinue" +:+ RESET_CHAR +:+ "): ")]).
Proof. vm_compute. reflexivity. Qed.

(** The user declines to look at a failed run. *)
Example kdiff3_path_declined :
  fst (ReconcileToolKdiff3.invoke_tool "t" ["a" +:+ NL] ["b" +:+ NL] []
         (Some "crashed") (sample_world ∅ true ["n"] [])) = Ok None /\
  fs (snd (ReconcileToolKdiff3.invoke_tool "t" ["a" +:+ NL] ["b" +:+ NL] []
             (Some "crashed") (sample_world ∅ true ["n"] []))) = ∅.
Proof. split; vm_compute; reflexivity. Qed.

(** The terminal is at end of file when the acknowledgment is asked for: the
    exception goes through, the temporary files are gone all the same. *)
Example kdiff3_path_exception :
  fst (ReconcileToolKdiff3.invoke_tool "t" ["a" +:+ NL] ["b" +:+ NL] [] None
         (merging_world ∅ true [] [] ("b" +:+ NL))) = Raise EOFError /\
  fs (snd (ReconcileToolKdiff3.invoke_tool "t" ["a" +:+ NL] ["b" +:+ NL] [] None
             (merging_world ∅ true [] [] ("b" +:+ NL)))) = ∅.
Proof. split; vm_compute; reflexivity. Qed.

(** The tool exits with 0 and leaves no merged file: reading it fails. *)
Lemma kdiff3_merge_missing_file test_name reference_lines current_lines
    unified_diff no_save (w : world) :
  truthy no_save = false ->
  fst (merge_exit test_name reference_lines current_lines w) = 0%Z ->
  snd (merge_exit test_name reference_lines current_lines w) !! merged_name w = None ->
  fst (ReconcileToolKdiff3.invoke_tool test_name reference_lines current_lines
         unified_diff no_save w) = Raise IOError.
Proof.
  intros Hns Hcode Hfile.
  rewrite kdiff3_invoke_tool_unfold. unfold ReconcileToolKdiff3.with_local.
  assert (ReconcileToolKdiff3.try_block test_name reference_lines
            current_lines no_save (curr_name w) (ref_name w)
            (ReconcileToolKdiff3.Unbound, with_rng_pos (S (S (rng_pos w))) w)
          = (Raise IOError,
             (ReconcileToolKdiff3.Bound (Some (merged_name w)),
              after_merge test_name reference_lines current_lines w))) as Hb.
  { rewrite try_block_merge by done. rewrite Hcode. cbn [Z.eqb].
    unfold bind, lift, open_readlines. simpl. by rewrite Hfile. }
  by rewrite (try_finally_run _ _ _ _ _ _ Hb ltac:(discriminate)
                (finally_block_run _ _ _ _)).
Qed.

(** ** The console strategy, run *)

(** The user looks at the observations, goes back to the diff and accepts:
    the reference file is rewritten. *)
Example console_browse_and_accept :
  fst (ReconcileTool.reconcile whole_file_diff ReconcileToolConsole.invoke_tool
         "test" "test.ref" scenario_current None
         (sample_world {[ "test.ref" := "a" +:+ NL +:+ "b" +:+ NL ]} true
                       ["o"; "diff"; "y"] [])) = Ok true /\
  fs (snd (ReconcileTool.reconcile whole_file_diff ReconcileToolConsole.invoke_tool
             "test" "test.ref" scenario_current None
             (sample_world {[ "test.ref" := "a" +:+ NL +:+ "b" +:+ NL ]} true
                           ["o"; "diff"; "y"] [])))
  = {[ "test.ref" := "a" +:+ NL +:+ "c" +:+ NL ]}.
Proof. split; vm_compute; reflexivity. Qed.

(** An answer that is no option is the default, [no]: the difference is
    rejected and the reference file stays. *)
Example console_garbage_rejects :
  fst (ReconcileTool.reconcile whole_file_diff ReconcileToolConsole.invoke_tool
         "test" "test.ref" scenario_current None
         (sample_world {[ "test.ref" := "a" +:+ NL +:+ "b" +:+ NL ]} true
                       ["what?"] [])) = Ok false /\
  fs (snd (ReconcileTool.reconcile whole_file_diff ReconcileToolConsole.invoke_tool
             "test" "test.ref" scenario_current None
             (sample_world {[ "test.ref" := "a" +:+ NL +:+ "b" +:+ NL ]} true
                           ["what?"] [])))
  = {[ "test.ref" := "a" +:+ NL +:+ "b" +:+ NL ]}.
Proof. split; vm_compute; reflexivity. Qed.

(** After a failed run the user can reach the errors and then continue;
    nothing is saved. *)
Example console_failed_run :
  ReconcileToolConsole.invoke_tool "test" ["a" +:+ NL] ["b" +:+ NL] ["-a"; "+b"]
    (Some "crashed") (sample_world ∅ false [] ["errors"; "continue"])
  = (Ok None,
     World ∅ false [] [] (rng (sample_world ∅ true [] [])) 0
           (shell (sample_world ∅ true [] [])) None
           [Printed "System console not found; using a dialog box to retrieve input instead.";
            DialogShown "Observations are shown for test:"
              "Saving not available due to errors in the test" ("b" +:+ NL)
              ["kdiff3"; "diff"; "errors"; "continue"];
            Printed "System console not found; using a dialog box to retrieve input instead.";
            DialogShown "Errors are shown for test:"
              "Saving not available due to errors in the test" "crashed"
              ["kdiff3"; "observations"; "diff"; "continue"]]).
Proof. vm_compute. reflexivity. Qed.

(** * Further properties of the module *)

(** ** ReconcileTool.select *)

(** The name under which a tool class is selected. *)
Definition tool_name (c : tool_class) : string :=
  match c with
  | Accept => "accept"
  | Abort => "abort"
  | Console => "console"
  | Dialog => "dialog"
  | Kdiff3 => "kdiff3"
  end.

Lemma select_named_tool_name (c : tool_class) : select_named (tool_name c) = Some c.
Proof. by destruct c. Qed.

Lemma select_named_Some (name : string) (c : tool_class) :
  select_named name = Some c -> name = tool_name c.
Proof.
  unfold select_named.
  repeat match goal with
         | |- context [String.eqb name ?s] =>
             let E := fresh "E" in
             destruct (String.eqb name s) eqn:E;
             [apply String.eqb_eq in E; intros [= <-]; exact E|]
         end.
  discriminate.
Qed.

(** X1: [reconcile_observations] runs [reconcile] with the strategy that the
    setting names: for each of the names accept, abort, console, dialog and
    kdiff3 the call is the [reconcile] of the class of that name, with the
    [invoke_tool] of that class.  A given name decides alone (the environment
    is not looked at); without a setting the name is the value of
    BOND_RECONCILE, and [console] when that is unset.  Any other name is an
    assertion failure that quotes it, raised before the reference file is
    looked for: the world is as before. *)
Theorem select_by_name (unified_diff : differ) test_name reference_file
    current_lines no_save (w : world) :
  let run settings_reconcile :=
    reconcile_observations unified_diff settings_reconcile test_name
      reference_file current_lines no_save w in
  let reconcile_with self_invoke_tool :=
    ReconcileTool.reconcile unified_diff self_invoke_tool test_name
      reference_file current_lines no_save w in
  run (Some "accept") = reconcile_with ReconcileToolAccept.invoke_tool /\
  run (Some "abort") = reconcile_with ReconcileToolAbort.invoke_tool /\
  run (Some "console") = reconcile_with ReconcileToolConsole.invoke_tool /\
  run (Some "dialog") = reconcile_with ReconcileToolDialog.invoke_tool /\
  run (Some "kdiff3") = reconcile_with ReconcileToolKdiff3.invoke_tool /\
  run None = run (Some (match environ w with
                        | Some name => name
                        | None => "console"
                        end)) /\
  (forall name,
     name ∉ ["accept"; "abort"; "console"; "dialog"; "kdiff3"] ->
     run (Some name)
     = (Raise (AssertionError ("Unrecognized bond_reconcile tool name: " +:+ name)),
        w)).
Proof.
  intros run reconcile_with.
  repeat (split; [reflexivity|]).
  intros name Hname. subst run. cbv beta.
  unfold reconcile_observations, bind at 1, select.
  destruct (select_named name) as [c|] eqn:E; [|reflexivity].
  apply select_named_Some in E. exfalso. apply Hname. subst name.
  destruct c; simpl; set_solver.
Qed.

(** ** The console input routine at its edges *)

(** X2: without options or without shortcuts the console routine fails with
    IndexError at once: nothing is shown and nothing is read. *)
Theorem console_input_no_options
    (before_prompt after_prompt content : string)
    (options shortcuts : list string) (w : world) :
  options = [] \/ shortcuts = [] ->
  ReconcileTool._get_user_input_console before_prompt after_prompt content
      options shortcuts w = (Raise IndexError, w).
Proof.
  intros H. unfold ReconcileTool._get_user_input_console.
  assert (zip options shortcuts = []) as ->.
  { destruct H as [-> | ->]; [done|by destruct options]. }
  reflexivity.
Qed.

Lemma console_input_no_options_witness :
  (["yes"; "no"] = [] \/ @nil string = []) /\
  ReconcileTool._get_user_input_console "" "Save?" "" ["yes"; "no"] []
      (sample_world ∅ true ["y"] []) = (Raise IndexError, sample_world ∅ true ["y"] []).
Proof.
  split; [by right|].
  apply (console_input_no_options "" "Save?" "" ["yes"; "no"] []
           (sample_world ∅ true ["y"] [])).
  by right.
Defined.

(** The console routine with any two non-empty lists; the lengths may differ. *)
Lemma _get_user_input_console_any_lengths
    (before_prompt after_prompt content : string)
    (options shortcuts : list string) (w : world) (response : string)
    (rest : list string) :
  options <> [] -> shortcuts <> [] ->
  stdin w = response :: rest ->
  exists default w',
    last options = Some default /\
    ReconcileTool._get_user_input_console before_prompt after_prompt content
        options shortcuts w
      = (Ok (console_choice options shortcuts response default), w') /\
    stdin w' = rest /\ fs w' = fs w.
Proof.
  intros Hne Hsc Hin.
  destruct (last_nonempty options Hne) as [default Hd].
  exists default.
  unfold ReconcileTool._get_user_input_console.
  set (f := fun o => BOLD_CHAR +:+ o +:+ RESET_CHAR).
  set (l := map _ (zip options shortcuts)).
  assert (l <> []) as Hl.
  { subst l. destruct options, shortcuts; simpl in *; try done. }
  destruct (update_last_ok (S:=world) f l w Hl) as [l' Hl'].
  unfold bind at 1. rewrite Hl'.
  unfold bind at 1. rewrite when_print.
  unfold bind at 1. rewrite when_print.
  set (w1 := if negb (content =? "")%string then _ else _).
  assert (stdin w1 = stdin w /\ fs w1 = fs w) as (Hs & Hfs).
  { subst w1.
    repeat match goal with |- context [if ?c then _ else _] => destruct c end;
      split; reflexivity. }
  unfold bind at 1. unfold raw_input at 1. simpl stdin. rewrite Hs, Hin.
  eexists. split; [done|]. split.
  { unfold console_choice.
    destruct (String.length response =? 0) eqn:E0.
    - by rewrite (getitem_last_ok _ _ _ Hd).
    - destruct (String.length response =? 1) eqn:E1;
        unfold bind; by rewrite (getitem_last_ok _ _ _ Hd). }
  split; [reflexivity|simpl; exact Hfs].
Qed.

(** X3: the console routine does not need the two lists to be equally long:
    with any non-empty options and shortcuts and a typed line it returns one
    of the options, and a line of two or more characters that spells an
    option returns it even when that option has no shortcut. *)
Theorem console_input_any_lengths
    (before_prompt after_prompt content : string)
    (options shortcuts : list string) (w : world) (response : string)
    (rest : list string) :
  options <> [] -> shortcuts <> [] ->
  stdin w = response :: rest ->
  exists opt w',
    ReconcileTool._get_user_input_console before_prompt after_prompt content
        options shortcuts w = (Ok opt, w') /\
    opt ∈ options /\
    (2 <= String.length response -> response ∈ options -> opt = response) /\
    stdin w' = rest /\ fs w' = fs w.
Proof.
  intros Hne Hsc Hin.
  destruct (_get_user_input_console_any_lengths before_prompt after_prompt content
              options shortcuts w response rest Hne Hsc Hin)
    as (default & w' & Hd & Hrun & Hs & Hfs).
  exists (console_choice options shortcuts response default), w'.
  split; [exact Hrun|]. split; [|split; [|done]].
  - apply console_choice_elem_of. by apply last_elem_of.
  - intros H2 Hin'. unfold console_choice.
    destruct (String.length response) as [|[|n]] eqn:E; [lia|lia|]. simpl.
    by apply next_filter_eqb_hit.
Qed.

Lemma console_input_any_lengths_witness :
  ["kdiff3"; "yes"; "no"] <> [] /\ ["k"] <> [] /\
  stdin (sample_world ∅ true ["yes"] []) = ["yes"] /\
  exists opt w',
    ReconcileTool._get_user_input_console "" "Save?" "" ["kdiff3"; "yes"; "no"] ["k"]
        (sample_world ∅ true ["yes"] []) = (Ok opt, w') /\
    opt ∈ ["kdiff3"; "yes"; "no"] /\
    (2 <= String.length "yes" -> "yes" ∈ ["kdiff3"; "yes"; "no"] -> opt = "yes") /\
    stdin w' = [] /\ fs w' = fs (sample_world ∅ true ["yes"] []).
Proof.
  split; [discriminate|]. split; [discriminate|]. split; [reflexivity|].
  apply (console_input_any_lengths "" "Save?" "" ["kdiff3"; "yes"; "no"] ["k"]
           (sample_world ∅ true ["yes"] []) "yes" []);
    [discriminate|discriminate|reflexivity].
Defined.

(** X4: a lone [before_prompt] is used as the prompt of the input line: the
    call with only [before_prompt] given is the call with the same text as
    [after_prompt]. *)
Theorem console_input_single_prompt (prompt content : string)
    (options shortcuts : list string) (w : world) :
  ReconcileTool._get_user_input_console prompt "" content options shortcuts w
  = ReconcileTool._get_user_input_console "" prompt content options shortcuts w.
Proof.
  unfold ReconcileTool._get_user_input_console.
  destruct (String.eqb prompt "") eqn:E.
  - apply String.eqb_eq in E. by subst.
  - rewrite (String.eqb_refl ""). simpl negb. simpl andb. cbv iota. reflexivity.
Qed.

(** ** Temporary file names *)

Fixpoint last_char (s : string) : option ascii :=
  match s with
  | EmptyString => None
  | String c rest =>
      match rest with
      | EmptyString => Some c
      | String _ _ => last_char rest
      end
  end.

Lemma append_nonempty (a b : string) : b <> "" -> a +:+ b <> "".
Proof. intros Hb. destruct a; [done|]. discriminate. Qed.

Lemma last_char_append (a b : string) :
  b <> "" -> last_char (a +:+ b) = last_char b.
Proof.
  intros Hb. induction a as [|c a IH]; [done|].
  change (last_char (String c (a +:+ b)) = last_char b).
  pose proof (append_nonempty a b Hb) as Hne.
  simpl. destruct (a +:+ b); [done|exact IH].
Qed.

(** A temporary name ends as its flavor does. *)
Lemma tmp_name_last_char (r flavor : string) :
  flavor <> "" ->
  last_char (ReconcileTool.TMP_FILE_BASE_NAME +:+ r +:+ "." +:+ flavor)
  = last_char flavor.
Proof.
  intros Hf.
  rewrite last_char_append by (apply append_nonempty; discriminate).
  rewrite last_char_append by discriminate.
  change ("." +:+ flavor) with (String "."%char flavor).
  simpl. by destruct flavor.
Qed.

Lemma temp_names_distinct (w : world) :
  curr_name w <> ref_name w /\ curr_name w <> merged_name w /\
  ref_name w <> merged_name w.
Proof.
  unfold curr_name, ref_name, merged_name.
  repeat split; intros H; apply (f_equal last_char) in H;
    rewrite !tmp_name_last_char in H by discriminate; discriminate.
Qed.

Lemma _tmp_file_name_value (flavor : string) (w : world) :
  fst (ReconcileTool._tmp_file_name flavor w)
  = Ok (ReconcileTool.TMP_FILE_BASE_NAME +:+ rng w (rng_pos w) +:+ "." +:+ flavor).
Proof. reflexivity. Qed.

(** X5: the names [_tmp_file_name] makes for two different flavors among
    [curr], [ref] and [merged] are different, whatever random strings are
    drawn (also in different worlds). *)
Theorem tmp_file_names_distinct (flavor1 flavor2 : string) (w1 w2 : world) :
  flavor1 ∈ ["curr"; "ref"; "merged"] ->
  flavor2 ∈ ["curr"; "ref"; "merged"] ->
  flavor1 <> flavor2 ->
  fst (ReconcileTool._tmp_file_name flavor1 w1)
  <> fst (ReconcileTool._tmp_file_name flavor2 w2).
Proof.
  intros H1 H2 Hne.
  rewrite !_tmp_file_name_value. intros H.
  apply (f_equal (fun r => match r with Ok name => last_char name | _ => None end))
    in H.
  repeat (apply elem_of_cons in H1 as [->|H1]);
    repeat (apply elem_of_cons in H2 as [->|H2]);
    try (by apply elem_of_nil in H1); try (by apply elem_of_nil in H2);
    try done;
    rewrite !tmp_name_last_char in H by discriminate; discriminate.
Qed.

Lemma tmp_file_names_distinct_witness :
  "curr" ∈ ["curr"; "ref"; "merged"] /\ "ref" ∈ ["curr"; "ref"; "merged"] /\
  "curr" <> "ref" /\
  fst (ReconcileTool._tmp_file_name "curr" (sample_world ∅ true [] []))
  <> fst (ReconcileTool._tmp_file_name "ref" (sample_world ∅ true [] [])).
Proof.
  assert ("curr" ∈ ["curr"; "ref"; "merged"]) as H1 by repeat constructor.
  assert ("ref" ∈ ["curr"; "ref"; "merged"]) as H2 by repeat constructor.
  assert ("curr" <> "ref") as H3 by discriminate.
  split; [exact H1|]. split; [exact H2|]. split; [exact H3|].
  exact (tmp_file_names_distinct "curr" "ref" (sample_world ∅ true [] [])
           (sample_world ∅ true [] []) H1 H2 H3).
Defined.

(** ** The merge tool strategy as a whole *)

(** The world [w1] after the [finally] block of a call that began in [w0]. *)
Definition sweep (w0 : world)
    (merged_file : ReconcileToolKdiff3.binding (option string)) (w1 : world)
  : world :=
  with_fs (swept (curr_name w0) (ref_name w0) merged_file (fs w1)) w1.

(** The whole run of merge mode in terms of what the tool and the user do. *)
Lemma kdiff3_merge_run test_name reference_lines current_lines unified_diff
    no_save (w : world) :
  truthy no_save = false ->
  ReconcileToolKdiff3.invoke_tool test_name reference_lines current_lines
      unified_diff no_save w
  = (let w6 := after_merge test_name reference_lines current_lines w in
     let merged := ReconcileToolKdiff3.Bound (Some (merged_name w)) in
     let finish (message : string) (v : option (list string)) :=
       let asked := ReconcileTool._get_user_input message "" ""
                      ["continue"] ["c"] w6 in
       match fst asked with
       | Ok _ => (Ok v, sweep w merged (snd asked))
       | Raise e => (Raise e, sweep w merged (snd asked))
       | Blocked => (Blocked, snd asked)
       end in
     if (fst (merge_exit test_name reference_lines current_lines w) =? 0)%Z then
       match fs w6 !! merged_name w with
       | Some content => finish MERGE_OK (Some (readlines content))
       | None => (Raise IOError, sweep w merged w6)
       end
     else finish MERGE_FAILED None).
Proof.
  intros Hns. rewrite kdiff3_invoke_tool_unfold.
  unfold ReconcileToolKdiff3.with_local, try_finally.
  rewrite try_block_merge by done. cbv zeta.
  destruct (fst (merge_exit test_name reference_lines current_lines w) =? 0)%Z.
  - unfold bind at 1. unfold bind at 1. unfold lift at 1, open_readlines. simpl snd.
    destruct (fs (after_merge test_name reference_lines current_lines w)
                !! merged_name w) as [content|].
    + unfold ret at 1. unfold bind at 1, lift at 1. simpl fst. simpl snd.
      destruct (ReconcileTool._get_user_input MERGE_OK "" "" ["continue"] ["c"]
                  (after_merge test_name reference_lines current_lines w))
        as [[a|e|] w7]; simpl; [|by rewrite finally_block_run|done].
      unfold ret. by rewrite finally_block_run.
    + simpl. by rewrite finally_block_run.
  - unfold bind at 1. unfold ret at 1. unfold bind at 1, lift at 1.
    simpl fst. simpl snd.
    destruct (ReconcileTool._get_user_input MERGE_FAILED "" "" ["continue"] ["c"]
                (after_merge test_name reference_lines current_lines w))
      as [[a|e|] w7]; simpl; [|by rewrite finally_block_run|done].
    unfold ret. by rewrite finally_block_run.
Qed.

(** On a terminal the user-input routine never waits for a dialog. *)
Lemma _get_user_input_tty
    (before_prompt after_prompt content : string)
    (options shortcuts : list string) (w : world) :
  options <> [] -> length shortcuts = length options -> isatty w = true ->
  fst (ReconcileTool._get_user_input before_prompt after_prompt content
         options shortcuts w) <> Blocked.
Proof.
  intros Hne Hlen Htty.
  unfold ReconcileTool._get_user_input, bind, sys_stdin_isatty. rewrite Htty.
  destruct (_get_user_input_console_cases before_prompt after_prompt content
              options shortcuts w Hne Hlen)
    as (default & prompt & w1 & _ & _ & _ & _ & ->).
  by destruct (stdin w).
Qed.

(** What the merge tool strategy can end with: an exception is the end of
    file of the terminal or the missing merged file; on a terminal the call
    never waits; in view mode no lines are returned. *)
Lemma kdiff3_outcome test_name reference_lines current_lines unified_diff
    no_save (w : world) :
  let run := ReconcileToolKdiff3.invoke_tool test_name reference_lines
               current_lines unified_diff no_save w in
  (forall e, fst run = Raise e -> e = EOFError \/ e = IOError) /\
  (isatty w = true -> fst run <> Blocked) /\
  (truthy no_save = true -> forall lines, fst run <> Ok (Some lines)).
Proof.
  intros run. subst run.
  destruct (truthy no_save) eqn:Hns.
  - rewrite kdiff3_view_run by done. cbv zeta.
    pose proof (_get_user_input_asks
                  ("Encountered failures while running test " +:+ test_name +:+ ":")
                  "Still want to start kdiff3?" (str no_save) ["yes"; "no"] ["y"; "n"]
                  (temp_written reference_lines current_lines w)
                  ltac:(discriminate) eq_refl) as [_ Ha].
    pose proof (_get_user_input_tty
                  ("Encountered failures while running test " +:+ test_name +:+ ":")
                  "Still want to start kdiff3?" (str no_save) ["yes"; "no"] ["y"; "n"]
                  (temp_written reference_lines current_lines w)
                  ltac:(discriminate) eq_refl) as Hb.
    fold (still_start_kdiff3 test_name no_save) in Ha, Hb.
    destruct (still_start_kdiff3 test_name no_save
                (temp_written reference_lines current_lines w))
      as [[response|e|] w1]; simpl in *.
    + split; [discriminate|]. split; [discriminate|]. intros _ lines. discriminate.
    + split; [intros ? [= <-]; by left|]. split; [discriminate|].
      intros _ lines. discriminate.
    + split; [discriminate|]. split; [intros Htty; by destruct (Hb Htty)|].
      intros _ lines. discriminate.
  - rewrite kdiff3_merge_run by done. cbv zeta.
    assert (forall (message : string) (v : option (list string)),
              let asked := ReconcileTool._get_user_input message "" ""
                             ["continue"] ["c"]
                             (after_merge test_name reference_lines current_lines w) in
              let r := match fst asked with
                       | Ok _ => (Ok v,
                                  sweep w (ReconcileToolKdiff3.Bound
                                             (Some (merged_name w))) (snd asked))
                       | Raise e => (Raise e,
                                     sweep w (ReconcileToolKdiff3.Bound
                                                (Some (merged_name w))) (snd asked))
                       | Blocked => (Blocked, snd asked)
                       end in
              (forall e, fst r = Raise e -> e = EOFError \/ e = IOError) /\
              (isatty w = true -> fst r <> Blocked)) as Hfinish.
    { intros message v asked r. subst asked r.
      pose proof (_get_user_input_asks message "" "" ["continue"] ["c"]
                    (after_merge test_name reference_lines current_lines w)
                    ltac:(discriminate) eq_refl) as [_ Ha].
      pose proof (_get_user_input_tty message "" "" ["continue"] ["c"]
                    (after_merge test_name reference_lines current_lines w)
                    ltac:(discriminate) eq_refl) as Hb.
      destruct (ReconcileTool._get_user_input message "" "" ["continue"] ["c"]
                  (after_merge test_name reference_lines current_lines w))
        as [[a|e|] w7]; simpl in *.
      - split; [discriminate|discriminate].
      - split; [intros ? [= <-]; by left|discriminate].
      - split; [discriminate|intros Htty; by destruct (Hb Htty)]. }
    destruct (fst (merge_exit test_name reference_lines current_lines w) =? 0)%Z.
    + destruct (fs (after_merge test_name reference_lines current_lines w)
                  !! merged_name w) as [content|].
      * destruct (Hfinish MERGE_OK (Some (readlines content))) as [H1 H2].
        split; [exact H1|]. split; [exact H2|discriminate].
      * simpl. split; [intros ? [= <-]; by right|].
        split; [discriminate|discriminate].
    + destruct (Hfinish MERGE_FAILED None) as [H1 H2].
      split; [exact H1|]. split; [exact H2|discriminate].
Qed.

Lemma swept_other (cf rf : string)
    (l : ReconcileToolKdiff3.binding (option string)) (m : gmap string string)
    (p : string) :
  p <> cf -> p <> rf ->
  (forall mf, l = ReconcileToolKdiff3.Bound (Some mf) -> p <> mf) ->
  swept cf rf l m !! p = m !! p.
Proof.
  intros Hc Hr Hm. unfold swept.
  destruct l as [|[mf|]]; rewrite ?lookup_delete_ne; auto.
  intros ->. by apply (Hm p).
Qed.

Lemma temp_files_other reference_lines current_lines (w : world) (p : string) :
  p <> curr_name w -> p <> ref_name w ->
  temp_files reference_lines current_lines w !! p = fs w !! p.
Proof. intros Hc Hr. unfold temp_files. by rewrite !lookup_insert_ne. Qed.

(** X6: the merge tool strategy itself touches no file but its temporary
    ones: if the external tool writes at most its output file, then after a
    call that returned (with a value or an exception) every path other than
    the three temporary names holds what it held before. *)
Theorem kdiff3_other_files_untouched test_name reference_lines current_lines
    unified_diff no_save (w : world) (p : string) :
  (forall cmd m q, q <> merged_name w -> snd (shell w cmd m) !! q = m !! q) ->
  fst (ReconcileToolKdiff3.invoke_tool test_name reference_lines current_lines
         unified_diff no_save w) <> Blocked ->
  p <> curr_name w -> p <> ref_name w -> p <> merged_name w ->
  fs (snd (ReconcileToolKdiff3.invoke_tool test_name reference_lines current_lines
             unified_diff no_save w)) !! p = fs w !! p.
Proof.
  intros Hshell Hret Hc Hr Hm.
  assert (forall b a c o sc w0,
            o <> [] -> length sc = length o ->
            fs w0 !! p = fs w !! p -> shell w0 = shell w ->
            fs (snd (ReconcileTool._get_user_input b a c o sc w0)) !! p = fs w !! p /\
            shell (snd (ReconcileTool._get_user_input b a c o sc w0)) = shell w)
    as Hask.
  { intros b a c o sc w0 Hne Hlen Hfs Hsh.
    destruct (_get_user_input_asks b a c o sc w0 Hne Hlen)
      as [(Hfs' & _ & _ & _ & Hsh' & _) _].
    rewrite Hfs', Hsh'. done. }
  destruct (truthy no_save) eqn:Hns.
  - rewrite kdiff3_view_run in * by done. cbv zeta in *.
    destruct (Hask ("Encountered failures while running test " +:+ test_name +:+ ":")
                "Still want to start kdiff3?" (str no_save) ["yes"; "no"] ["y"; "n"]
                (temp_written reference_lines current_lines w))
      as [Hfs Hsh]; [done|done|by apply temp_files_other|done|].
    fold (still_start_kdiff3 test_name no_save) in Hfs, Hsh.
    destruct (still_start_kdiff3 test_name no_save
                (temp_written reference_lines current_lines w))
      as [[response|e|] w1]; simpl in *; [| |done].
    + rewrite !lookup_delete_ne by done.
      destruct (String.eqb response "yes"); [|exact Hfs].
      simpl. rewrite Hsh, Hshell by done. exact Hfs.
    + rewrite !lookup_delete_ne by done. exact Hfs.
  - rewrite kdiff3_merge_run in * by done. cbv zeta in *.
    assert (fs (after_merge test_name reference_lines current_lines w) !! p
            = fs w !! p) as Hfs6.
    { simpl. unfold merge_exit. rewrite Hshell by done. by apply temp_files_other. }
    assert (forall message,
              fs (snd (ReconcileTool._get_user_input message "" ""
                         ["continue"] ["c"]
                         (after_merge test_name reference_lines current_lines w)))
                !! p = fs w !! p) as Hfs7.
    { intros message.
      by destruct (Hask message "" "" ["continue"] ["c"]
                     (after_merge test_name reference_lines current_lines w)). }
    assert (forall w1, fs w1 !! p = fs w !! p ->
              fs (sweep w (ReconcileToolKdiff3.Bound (Some (merged_name w))) w1) !! p
              = fs w !! p) as Hsweep.
    { intros w1 H1. unfold sweep. simpl. by rewrite !lookup_delete_ne. }
    destruct (fst (merge_exit test_name reference_lines current_lines w) =? 0)%Z.
    + destruct (fs (after_merge test_name reference_lines current_lines w)
                  !! merged_name w) as [content|].
      * specialize (Hfs7 MERGE_OK).
        destruct (ReconcileTool._get_user_input MERGE_OK "" "" ["continue"] ["c"]
                    (after_merge test_name reference_lines current_lines w))
          as [[a|e|] w7]; simpl in Hret |- *; [| |done]; by apply Hsweep.
      * by apply Hsweep.
    + specialize (Hfs7 MERGE_FAILED).
      destruct (ReconcileTool._get_user_input MERGE_FAILED "" "" ["continue"] ["c"]
                  (after_merge test_name reference_lines current_lines w))
        as [[a|e|] w7]; simpl in Hret |- *; [| |done]; by apply Hsweep.
Qed.

(** A world with one file besides, a terminal and a tool that fails. *)
Definition bystander_world : world :=
  sample_world {[ "keep.txt" := "kept" ]} true ["c"] [].

Lemma kdiff3_other_files_untouched_witness :
  (forall cmd m q, q <> merged_name bystander_world ->
                   snd (shell bystander_world cmd m) !! q = m !! q) /\
  fst (ReconcileToolKdiff3.invoke_tool "t" ["a" +:+ NL] ["b" +:+ NL] [] None
         bystander_world) <> Blocked /\
  "keep.txt" <> curr_name bystander_world /\
  "keep.txt" <> ref_name bystander_world /\
  "keep.txt" <> merged_name bystander_world /\
  fs (snd (ReconcileToolKdiff3.invoke_tool "t" ["a" +:+ NL] ["b" +:+ NL] [] None
             bystander_world)) !! "keep.txt" = fs bystander_world !! "keep.txt".
Proof.
  assert (forall cmd m q, q <> merged_name bystander_world ->
            snd (shell bystander_world cmd m) !! q = m !! q) as Hshell
      by (intros; reflexivity).
  assert (fst (ReconcileToolKdiff3.invoke_tool "t" ["a" +:+ NL] ["b" +:+ NL] [] None
                 bystander_world) <> Blocked) as Hret
      by (vm_compute; discriminate).
  assert ("keep.txt" <> curr_name bystander_world) as Hc by (vm_compute; discriminate).
  assert ("keep.txt" <> ref_name bystander_world) as Hr by (vm_compute; discriminate).
  assert ("keep.txt" <> merged_name bystander_world) as Hm
      by (vm_compute; discriminate).
  split; [exact Hshell|]. split; [exact Hret|]. split; [exact Hc|].
  split; [exact Hr|]. split; [exact Hm|].
  exact (kdiff3_other_files_untouched "t" ["a" +:+ NL] ["b" +:+ NL] [] None
           bystander_world "keep.txt" Hshell Hret Hc Hr Hm).
Defined.

(** ** The interactive loop as a whole *)

(** All values of [response] the loop has a branch for. *)
Definition known_states : list string :=
  ["observations"; "diff"; "errors"; "kdiff3"; "yes"; "no"; "continue"].

(** The values [response] can take while saving is suppressed. *)
Definition suppressed_states : list string :=
  ["observations"; "diff"; "errors"; "kdiff3"; "continue"].

Lemma elem_of_sublist (l1 l2 : list string) (x : string) :
  x ∈ l1 -> forallb (fun y => bool_decide (y ∈ l2)) l1 = true -> x ∈ l2.
Proof.
  intros Hx Hall. rewrite forallb_forall in Hall.
  apply list_elem_of_In in Hx. apply Hall in Hx. by apply bool_decide_eq_true in Hx.
Qed.

(** Decides the comparisons of two string literals in the goal. *)
Ltac eval_eqb :=
  repeat match goal with
         | |- context [String.eqb ?a ?b] =>
             let v := eval vm_compute in (String.eqb a b) in
             match v with
             | true => change (String.eqb a b) with true
             | false => change (String.eqb a b) with false
             end
         end;
  cbv iota.

Section Loop_outcomes.

Variable input : ReconcileToolConsole.input_method.
Hypothesis input_ok : well_behaved input.
Variable test_name : string.
Variables reference_lines current_lines unified_diff : list string.
Variable no_save : option string.

Local Abbreviation loop_body :=
  (ReconcileToolConsole.loop_body input test_name reference_lines current_lines
     unified_diff no_save).
Local Abbreviation while_true :=
  (ReconcileToolConsole.while_true input test_name reference_lines current_lines
     unified_diff no_save).

(** What a prompting turn can end with. *)
Lemma prompt_turn_outcome before_prompt after_prompt content options shortcuts
    (w : world) :
  options <> [] -> length shortcuts = length options ->
  match (response <- input before_prompt after_prompt content options shortcuts ;;
         ret (inl (B := option (list string)) response)) w with
  | (Ok (inl r'), w') => r' ∈ options /\ S (waiting w') = waiting w
  | (Ok (inr _), _) => False
  | (Raise e, _) => e = EOFError
  | (Blocked, _) => True
  end.
Proof.
  intros Hne Hlen. unfold bind.
  pose proof (input_ok before_prompt after_prompt content options shortcuts w
                Hne Hlen) as [_ H].
  by destruct (input _ _ _ _ _ w) as [[opt|e|] w1].
Qed.

(** What a turn of the loop can end with, from a value the loop knows. *)
Lemma loop_body_outcome (response : string) (w : world) :
  response ∈ known_states ->
  match loop_body response w with
  | (Ok (inl r'), w') =>
      r' ∈ known_states /\ S (waiting w') = waiting w /\
      (truthy no_save = true -> r' ∈ suppressed_states)
  | (Ok (inr v), _) =>
      truthy no_save = true -> response ∈ suppressed_states -> v = None
  | (Raise e, _) => e = EOFError \/ e = IOError
  | (Blocked, _) => True
  end.
Proof.
  intros Hr. unfold known_states in Hr.
  repeat (apply elem_of_cons in Hr as [->|Hr]); [..|by apply elem_of_nil in Hr].
  - (* observations *)
    unfold ReconcileToolConsole.loop_body. eval_eqb.
    destruct (truthy no_save) eqn:Hns.
    + match goal with |- context [bind (input ?b ?a ?c ?o ?s) _ w] =>
        pose proof (prompt_turn_outcome b a c o s w ltac:(discriminate) eq_refl) as H
      end.
      destruct (bind _ _ w) as [[[r'|v]|e|] w']; [|done|by left|done].
      destruct H as [Hin Hw]. split; [|split; [done|intros _]];
        (eapply elem_of_sublist; [exact Hin|reflexivity]).
    + match goal with |- context [bind (input ?b ?a ?c ?o ?s) _ w] =>
        pose proof (prompt_turn_outcome b a c o s w ltac:(discriminate) eq_refl) as H
      end.
      destruct (bind _ _ w) as [[[r'|v]|e|] w']; [|done|by left|done].
      destruct H as [Hin Hw]. split; [|split; [done|discriminate]].
      eapply elem_of_sublist; [exact Hin|reflexivity].
  - (* diff *)
    unfold ReconcileToolConsole.loop_body. eval_eqb.
    destruct (truthy no_save) eqn:Hns.
    + match goal with |- context [bind (input ?b ?a ?c ?o ?s) _ w] =>
        pose proof (prompt_turn_outcome b a c o s w ltac:(discriminate) eq_refl) as H
      end.
      destruct (bind _ _ w) as [[[r'|v]|e|] w']; [|done|by left|done].
      destruct H as [Hin Hw]. split; [|split; [done|intros _]];
        (eapply elem_of_sublist; [exact Hin|reflexivity]).
    + match goal with |- context [bind (input ?b ?a ?c ?o ?s) _ w] =>
        pose proof (prompt_turn_outcome b a c o s w ltac:(discriminate) eq_refl) as H
      end.
      destruct (bind _ _ w) as [[[r'|v]|e|] w']; [|done|by left|done].
      destruct H as [Hin Hw]. split; [|split; [done|discriminate]].
      eapply elem_of_sublist; [exact Hin|reflexivity].
  - (* errors *)
    unfold ReconcileToolConsole.loop_body. eval_eqb.
    match goal with |- context [bind (input ?b ?a ?c ?o ?s) _ w] =>
      pose proof (prompt_turn_outcome b a c o s w ltac:(discriminate) eq_refl) as H
    end.
    destruct (bind _ _ w) as [[[r'|v]|e|] w']; [|done|by left|done].
    destruct H as [Hin Hw]. split; [|split; [done|intros _]];
      (eapply elem_of_sublist; [exact Hin|reflexivity]).
  - (* kdiff3 *)
    unfold ReconcileToolConsole.loop_body. eval_eqb.
    unfold bind.
    destruct (kdiff3_outcome test_name reference_lines current_lines unified_diff
                no_save w) as (Hraise & _ & Hview).
    destruct (ReconcileToolKdiff3.invoke_tool _ _ _ _ _ w) as [[v|e|] w'];
      simpl in *; [|by apply Hraise|done].
    intros Hns _. destruct v as [lines|]; [|done].
    by destruct (Hview Hns lines).
  - (* yes *)
    unfold ReconcileToolConsole.loop_body. eval_eqb. simpl.
    intros _ Hin. unfold suppressed_states in Hin.
    repeat (apply elem_of_cons in Hin as [Hin|Hin]; [discriminate|]).
    by apply elem_of_nil in Hin.
  - (* no *)
    unfold ReconcileToolConsole.loop_body. eval_eqb. simpl. done.
  - (* continue *)
    unfold ReconcileToolConsole.loop_body. eval_eqb. simpl. done.
Qed.

End Loop_outcomes.

Lemma suppressed_states_known (r : string) :
  r ∈ suppressed_states -> r ∈ known_states.
Proof. intros H. eapply elem_of_sublist; [exact H|reflexivity]. Qed.

(** The loop from a known state: it never returns lines while saving is
    suppressed, and the only exceptions are those of the terminal and of the
    merged file. *)
Lemma while_true_outcome (input : ReconcileToolConsole.input_method)
    test_name reference_lines current_lines unified_diff no_save
    (n : nat) (response : string) (w : world) :
  well_behaved input ->
  response ∈ known_states ->
  let run := ReconcileToolConsole.while_true input test_name reference_lines
               current_lines unified_diff no_save n response w in
  (forall e, fst run = Raise e -> e = EOFError \/ e = IOError) /\
  (truthy no_save = true -> response ∈ suppressed_states ->
   forall lines, fst run <> Ok (Some lines)).
Proof.
  intros Hok. revert response w.
  induction n as [|n IH]; intros response w Hr run; subst run.
  - split; [discriminate|]. intros _ _ lines. discriminate.
  - simpl. unfold bind.
    pose proof (loop_body_outcome input Hok test_name reference_lines current_lines
                  unified_diff no_save response w Hr) as H.
    destruct (ReconcileToolConsole.loop_body input test_name reference_lines
                current_lines unified_diff no_save response w)
      as [[[r'|v]|e|] w'].
    + destruct H as (Hr' & _ & Hs). destruct (IH r' w' Hr') as [H1 H2].
      split; [exact H1|]. intros Hns _. apply H2; [done|by apply Hs].
    + simpl. split; [discriminate|]. intros Hns Hin lines [= Hv].
      rewrite (H Hns Hin) in Hv. discriminate.
    + simpl. split; [by intros ? [= <-]|]. intros _ _ lines. discriminate.
    + simpl. split; [discriminate|]. intros _ _ lines. discriminate.
Qed.

Lemma initial_response_known (no_save : option string) :
  ReconcileToolConsole.initial_response no_save ∈ known_states /\
  (truthy no_save = true ->
   ReconcileToolConsole.initial_response no_save ∈ suppressed_states).
Proof.
  unfold ReconcileToolConsole.initial_response.
  destruct (truthy no_save); split; try discriminate; intros;
    unfold known_states, suppressed_states; repeat constructor.
Qed.

(** X7: after a failed run (a non-empty reason not to save) the console and
    dialog strategies never return lines to save, whatever the user answers
    and whatever the merge tool does; so [reconcile] with them never reports
    success on a non-empty diff. *)
Theorem suppressed_never_accepts (input : ReconcileToolConsole.input_method)
    test_name reference_lines current_lines unified_diff no_save (w : world) :
  input = ReconcileToolConsole._input \/ input = ReconcileToolDialog._input ->
  truthy no_save = true ->
  (forall lines,
     fst (ReconcileToolConsole.invoke_tool_with input test_name reference_lines
            current_lines unified_diff no_save w) <> Ok (Some lines)) /\
  (forall (differ_fn : differ) reference_file,
     ReconcileTool._compute_diff differ_fn
       (reference_lines_of w reference_file) current_lines <> [] ->
     fst (ReconcileTool.reconcile differ_fn
            (ReconcileToolConsole.invoke_tool_with input)
            test_name reference_file current_lines no_save w) <> Ok true).
Proof.
  intros Hinput Hns.
  assert (well_behaved input) as Hok.
  { destruct Hinput as [-> | ->];
      [apply console_input_well_behaved|apply dialog_input_well_behaved]. }
  destruct (initial_response_known no_save) as [Hk Hs].
  assert (forall rl w0 lines,
            fst (ReconcileToolConsole.invoke_tool_with input test_name rl
                   current_lines unified_diff no_save w0) <> Ok (Some lines))
    as Hnever.
  { intros rl w0 lines. unfold ReconcileToolConsole.invoke_tool_with.
    apply (while_true_outcome input test_name rl current_lines unified_diff
             no_save (ReconcileToolConsole.turns w0)
             (ReconcileToolConsole.initial_response no_save) w0 Hok Hk);
      [exact Hns|by apply Hs]. }
  split; [apply Hnever|].
  intros differ_fn reference_file Hdiff.
  rewrite reconcile_unfold. cbv zeta. rewrite (length_eqb_0 _ Hdiff).
  unfold bind at 1.
  assert (forall ud w0 lines,
            fst (ReconcileToolConsole.invoke_tool_with input test_name
                   (reference_lines_of w reference_file) current_lines ud
                   no_save w0) <> Ok (Some lines)) as Hnever'.
  { intros ud w0 lines. unfold ReconcileToolConsole.invoke_tool_with.
    apply (while_true_outcome input test_name (reference_lines_of w reference_file)
             current_lines ud no_save (ReconcileToolConsole.turns w0)
             (ReconcileToolConsole.initial_response no_save) w0 Hok Hk);
      [exact Hns|by apply Hs]. }
  specialize (Hnever' (ReconcileTool._compute_diff differ_fn
                         (reference_lines_of w reference_file) current_lines)
                (after_read test_name reference_file w)).
  destruct (ReconcileToolConsole.invoke_tool_with input test_name
              (reference_lines_of w reference_file) current_lines _ no_save
              (after_read test_name reference_file w)) as [[[lines|]|e|] w1];
    simpl in *; try discriminate.
  by destruct (Hnever' lines).
Qed.

Lemma suppressed_never_accepts_witness :
  (ReconcileToolConsole._input = ReconcileToolConsole._input \/
   ReconcileToolConsole._input = ReconcileToolDialog._input) /\
  truthy (Some "crashed") = true /\
  (forall lines,
     fst (ReconcileToolConsole.invoke_tool "test" ["a" +:+ NL] ["b" +:+ NL]
            ["-a"; "+b"] (Some "crashed")
            (sample_world ∅ true ["d"; "yes"] [])) <> Ok (Some lines)).
Proof.
  split; [by left|]. split; [reflexivity|].
  exact (proj1 (suppressed_never_accepts ReconcileToolConsole._input "test"
                  ["a" +:+ NL] ["b" +:+ NL] ["-a"; "+b"] (Some "crashed")
                  (sample_world ∅ true ["d"; "yes"] [])
                  (or_introl eq_refl) eq_refl)).
Defined.

(** X8: the branch for an unknown [response] is never taken: the console and
    dialog strategies raise no AssertionError, whatever the user answers; an
    exception that leaves them is the end of file of the terminal or the
    missing merged file. *)
Theorem unknown_input_unreachable (input : ReconcileToolConsole.input_method)
    test_name reference_lines current_lines unified_diff no_save (w : world) :
  input = ReconcileToolConsole._input \/ input = ReconcileToolDialog._input ->
  (forall msg,
     fst (ReconcileToolConsole.invoke_tool_with input test_name reference_lines
            current_lines unified_diff no_save w) <> Raise (AssertionError msg)) /\
  (forall e,
     fst (ReconcileToolConsole.invoke_tool_with input test_name reference_lines
            current_lines unified_diff no_save w) = Raise e ->
     e = EOFError \/ e = IOError).
Proof.
  intros Hinput.
  assert (well_behaved input) as Hok.
  { destruct Hinput as [-> | ->];
      [apply console_input_well_behaved|apply dialog_input_well_behaved]. }
  destruct (initial_response_known no_save) as [Hk _].
  destruct (while_true_outcome input test_name reference_lines current_lines
              unified_diff no_save (ReconcileToolConsole.turns w)
              (ReconcileToolConsole.initial_response no_save) w Hok Hk)
    as [Hraise _].
  split; [|exact Hraise].
  intros msg Hmsg. destruct (Hraise _ Hmsg); discriminate.
Qed.

Lemma unknown_input_unreachable_witness :
  (ReconcileToolDialog._input = ReconcileToolConsole._input \/
   ReconcileToolDialog._input = ReconcileToolDialog._input) /\
  (forall msg,
     fst (ReconcileToolDialog.invoke_tool "test" ["a" +:+ NL] ["b" +:+ NL]
            ["-a"; "+b"] None (sample_world ∅ false [] ["nonsense"]))
     <> Raise (AssertionError msg)).
Proof.
  split; [by right|].
  exact (proj1 (unknown_input_unreachable ReconcileToolDialog._input "test"
                  ["a" +:+ NL] ["b" +:+ NL] ["-a"; "+b"] None
                  (sample_world ∅ false [] ["nonsense"]) (or_intror eq_refl))).
Defined.

(** ** The console strategy on a terminal *)

Lemma console_prompt_turn_tty before_prompt after_prompt content options shortcuts
    (w : world) :
  options <> [] -> length shortcuts = length options -> isatty w = true ->
  match (response <- ReconcileToolConsole._input before_prompt after_prompt
                       content options shortcuts ;;
         ret (inl (B := option (list string)) response)) w with
  | (Ok (inl r'), w') => isatty w' = true /\ S (waiting w') = waiting w
  | (Ok (inr _), _) => True
  | (Raise _, _) => True
  | (Blocked, _) => False
  end.
Proof.
  intros Hne Hlen Htty. unfold bind, ReconcileToolConsole._input.
  pose proof (_get_user_input_asks before_prompt after_prompt content options
                shortcuts w Hne Hlen) as [(_ & Htty' & _) Ha].
  pose proof (_get_user_input_tty before_prompt after_prompt content options
                shortcuts w Hne Hlen Htty) as Hb.
  destruct (ReconcileTool._get_user_input _ _ _ _ _ w) as [[opt|e|] w1];
    simpl in *; [|done|by apply Hb].
  split; [congruence|by destruct Ha].
Qed.

Lemma console_loop_body_tty test_name reference_lines current_lines unified_diff
    no_save (response : string) (w : world) :
  isatty w = true ->
  match ReconcileToolConsole.loop_body ReconcileToolConsole._input test_name
          reference_lines current_lines unified_diff no_save response w with
  | (Ok (inl r'), w') => isatty w' = true /\ S (waiting w') = waiting w
  | (Ok (inr _), _) => True
  | (Raise _, _) => True
  | (Blocked, _) => False
  end.
Proof.
  intros Htty. unfold ReconcileToolConsole.loop_body.
  destruct (String.eqb response "observations").
  { destruct (truthy no_save); by apply console_prompt_turn_tty. }
  destruct (String.eqb response "diff").
  { destruct (truthy no_save); by apply console_prompt_turn_tty. }
  destruct (String.eqb response "errors").
  { by apply console_prompt_turn_tty. }
  destruct (String.eqb response "kdiff3").
  { unfold bind.
    destruct (kdiff3_outcome test_name reference_lines current_lines unified_diff
                no_save w) as (_ & Hb & _).
    specialize (Hb Htty).
    by destruct (ReconcileToolKdiff3.invoke_tool _ _ _ _ _ w) as [[?|?|] ?]. }
  destruct (String.eqb response "yes"); [done|].
  destruct (String.eqb response "no"); [done|].
  destruct (String.eqb response "continue"); done.
Qed.

Lemma console_while_true_tty test_name reference_lines current_lines unified_diff
    no_save (n : nat) (response : string) (w : world) :
  isatty w = true -> waiting w < n ->
  fst (ReconcileToolConsole.while_true ReconcileToolConsole._input test_name
         reference_lines current_lines unified_diff no_save n response w)
  <> Blocked.
Proof.
  revert response w. induction n as [|n IH]; intros response w Htty Hn; [lia|].
  simpl. unfold bind.
  pose proof (console_loop_body_tty test_name reference_lines current_lines
                unified_diff no_save response w Htty) as H.
  destruct (ReconcileToolConsole.loop_body _ _ _ _ _ _ response w)
    as [[[r'|v]|e|] w']; try done.
  destruct H as [Htty' Hw]. apply IH; [done|lia].
Qed.

(** X9: on a terminal the console strategy always comes to an end: whatever
    the user types, and also when the input ends, the call returns a value or
    raises; it never hangs in its loop. *)
Theorem console_ends_on_terminal test_name reference_lines current_lines
    unified_diff no_save (w : world) :
  isatty w = true ->
  fst (ReconcileToolConsole.invoke_tool test_name reference_lines current_lines
         unified_diff no_save w) <> Blocked.
Proof.
  intros Htty. apply console_while_true_tty; [done|].
  unfold ReconcileToolConsole.turns, waiting. lia.
Qed.

Lemma console_ends_on_terminal_witness :
  isatty (sample_world ∅ true ["o"; "d"; "o"] []) = true /\
  fst (ReconcileToolConsole.invoke_tool "test" ["a" +:+ NL] ["b" +:+ NL]
         ["-a"; "+b"] None (sample_world ∅ true ["o"; "d"; "o"] [])) <> Blocked.
Proof.
  split; [reflexivity|].
  apply (console_ends_on_terminal "test" ["a" +:+ NL] ["b" +:+ NL] ["-a"; "+b"]
           None (sample_world ∅ true ["o"; "d"; "o"] [])).
  reflexivity.
Defined.

(** ** reconcile and its strategy *)

Lemma bind_unfold {S A B : Type} (c : M S A) (k : A -> M S B) (s : S) :
  bind c k s
  = match c s with
    | (Ok a, s') => k a s'
    | (Raise e, s') => (Raise e, s')
    | (Blocked, s') => (Blocked, s')
    end.
Proof. reflexivity. Qed.

(** X10: on a non-empty diff [reconcile] is ruled by what its strategy
    returns, for every strategy: [None] gives false and an exception goes
    through, in both cases with the world as the strategy left it; lines give
    true, and the reference file is then replaced by exactly these lines
    unless a non-empty reason forbids saving, in which case no file changes. *)
Theorem reconcile_follows_strategy (unified_diff : differ)
    (self_invoke_tool : tool) test_name reference_file current_lines no_save
    (w : world) :
  ReconcileTool._compute_diff unified_diff
    (reference_lines_of w reference_file) current_lines <> [] ->
  let started :=
    self_invoke_tool test_name (reference_lines_of w reference_file) current_lines
      (ReconcileTool._compute_diff unified_diff
         (reference_lines_of w reference_file) current_lines)
      no_save (after_read test_name reference_file w) in
  let run := ReconcileTool.reconcile unified_diff self_invoke_tool test_name
               reference_file current_lines no_save w in
  match fst started with
  | Ok None => run = (Ok false, snd started)
  | Ok (Some merged_lines) =>
      fst run = Ok true /\
      fs (snd run) = if truthy no_save then fs (snd started)
                     else <[reference_file := join "" merged_lines]>
                            (fs (snd started))
  | Raise e => run = (Raise e, snd started)
  | Blocked => run = (Blocked, snd started)
  end.
Proof.
  intros Hdiff started run. subst run.
  rewrite reconcile_unfold. cbv zeta. rewrite (length_eqb_0 _ Hdiff).
  rewrite bind_unfold. fold started.
  destruct started as [[[merged_lines|]|e|] w1]; simpl fst; simpl snd; try done.
  unfold ReconcileTool._print.
  destruct (truthy no_save).
  - split; reflexivity.
  - rewrite bind_unfold. rewrite (bind_unfold (print _)). simpl.
    rewrite unlink_if_file. simpl. split; [reflexivity|].
    by rewrite insert_delete_eq.
Qed.

Lemma reconcile_follows_strategy_witness :
  ReconcileTool._compute_diff whole_file_diff
    (reference_lines_of scenario_world "test.ref") scenario_current <> [] /\
  ReconcileTool.reconcile whole_file_diff ReconcileToolAbort.invoke_tool "test"
      "test.ref" scenario_current None scenario_world
  = (Ok false,
     snd (ReconcileToolAbort.invoke_tool "test"
            (reference_lines_of scenario_world "test.ref") scenario_current
            (ReconcileTool._compute_diff whole_file_diff
               (reference_lines_of scenario_world "test.ref") scenario_current)
            None (after_read "test" "test.ref" scenario_world))).
Proof.
  assert (ReconcileTool._compute_diff whole_file_diff
            (reference_lines_of scenario_world "test.ref") scenario_current <> [])
    as Hdiff by (vm_compute; discriminate).
  split; [exact Hdiff|].
  exact (reconcile_follows_strategy whole_file_diff ReconcileToolAbort.invoke_tool
           "test" "test.ref" scenario_current None scenario_world Hdiff).
Defined.

(** X11: accepting is a fixed point: after [reconcile] has accepted current
    lines that are lines of a file, reconciling the same lines again finds no
    difference, returns true and changes nothing, whatever the strategy. *)
Theorem accept_then_no_difference (unified_diff : differ) test_name
    reference_file current_lines no_save (w : world) :
  (forall lines, unified_diff lines lines "reference" "current" = []) ->
  ReconcileTool._compute_diff unified_diff
    (reference_lines_of w reference_file) current_lines <> [] ->
  truthy no_save = false ->
  file_lines current_lines ->
  forall (self_invoke_tool : tool) (again_no_save : option string),
    ReconcileTool.reconcile unified_diff self_invoke_tool test_name reference_file
        current_lines again_no_save
        (snd (ReconcileTool.reconcile unified_diff ReconcileToolAccept.invoke_tool
                test_name reference_file current_lines no_save w))
    = (Ok true,
       snd (ReconcileTool.reconcile unified_diff ReconcileToolAccept.invoke_tool
              test_name reference_file current_lines no_save w)).
Proof.
  intros Hsame Hdiff Hns Hlines self_invoke_tool again_no_save.
  destruct (accept_run unified_diff test_name reference_file current_lines
              no_save w Hdiff) as (w' & -> & Hfs).
  rewrite Hns in Hfs. simpl snd.
  rewrite reconcile_unfold. cbv zeta.
  unfold reference_lines_of, after_read, ReconcileTool._compute_diff.
  rewrite Hfs, lookup_insert_eq, (readlines_join _ Hlines), Hsame. reflexivity.
Qed.

Lemma scenario_current_file_lines : file_lines scenario_current.
Proof.
  apply file_lines_cons; [by exists "a"|].
  apply file_lines_cons; [by exists "c"|]. apply file_lines_nil.
Qed.

Lemma accept_then_no_difference_witness :
  (forall lines, whole_file_diff lines lines "reference" "current" = []) /\
  ReconcileTool._compute_diff whole_file_diff
    (reference_lines_of scenario_world "test.ref") scenario_current <> [] /\
  truthy None = false /\
  file_lines scenario_current /\
  ReconcileTool.reconcile whole_file_diff ReconcileToolAbort.invoke_tool "test"
      "test.ref" scenario_current None
      (snd (ReconcileTool.reconcile whole_file_diff ReconcileToolAccept.invoke_tool
              "test" "test.ref" scenario_current None scenario_world))
  = (Ok true,
     snd (ReconcileTool.reconcile whole_file_diff ReconcileToolAccept.invoke_tool
            "test" "test.ref" scenario_current None scenario_world)).
Proof.
  assert (ReconcileTool._compute_diff whole_file_diff
            (reference_lines_of scenario_world "test.ref") scenario_current <> [])
    as Hdiff by (vm_compute; discriminate).
  split; [exact whole_file_diff_same|]. split; [exact Hdiff|].
  split; [reflexivity|]. split; [exact scenario_current_file_lines|].
  exact (accept_then_no_difference whole_file_diff "test" "test.ref"
           scenario_current None scenario_world whole_file_diff_same Hdiff
           eq_refl scenario_current_file_lines ReconcileToolAbort.invoke_tool None).
Defined.

(** Writing back what was read restores the bytes. *)
Lemma join_readlines_from (cur s : string) :
  join "" (readlines_from cur s) = cur +:+ s.
Proof.
  revert cur. induction s as [|c s IH]; intros cur.
  - simpl. rewrite append_nil_r.
    destruct (String.eqb cur "") eqn:E; [|done].
    apply String.eqb_eq in E. by subst.
  - simpl. destruct (Ascii.eqb c "010"%char).
    + rewrite join_cons, IH. by rewrite append_assoc.
    + rewrite IH. by rewrite append_assoc.
Qed.

Lemma join_readlines (content : string) : join "" (readlines content) = content.
Proof. unfold readlines. by rewrite join_readlines_from. Qed.

(** X12: a successful merge ends up in the reference file byte for byte: when
    the merge tool exits with 0 and leaves a merged file, and the user
    acknowledges, [reconcile] with the merge tool strategy returns true and
    the reference file holds exactly the bytes of the merged file. *)
Theorem merged_file_becomes_reference (unified_diff : differ) test_name
    reference_file current_lines no_save (w : world) (content : string) :
  truthy no_save = false ->
  ReconcileTool._compute_diff unified_diff
    (reference_lines_of w reference_file) current_lines <> [] ->
  fst (merge_exit test_name (reference_lines_of w reference_file) current_lines
         (after_read test_name reference_file w)) = 0%Z ->
  snd (merge_exit test_name (reference_lines_of w reference_file) current_lines
         (after_read test_name reference_file w))
    !! merged_name (after_read test_name reference_file w) = Some content ->
  answer_ready (after_read test_name reference_file w) ->
  fst (ReconcileTool.reconcile unified_diff ReconcileToolKdiff3.invoke_tool
         test_name reference_file current_lines no_save w) = Ok true /\
  fs (snd (ReconcileTool.reconcile unified_diff ReconcileToolKdiff3.invoke_tool
             test_name reference_file current_lines no_save w))
    !! reference_file = Some content.
Proof.
  intros Hns Hdiff Hcode Hfile Hready.
  rewrite reconcile_unfold. cbv zeta. rewrite (length_eqb_0 _ Hdiff).
  rewrite bind_unfold. rewrite kdiff3_merge_run by done. cbv zeta.
  rewrite Hcode. cbn [Z.eqb].
  change (fs (after_merge test_name (reference_lines_of w reference_file)
                current_lines (after_read test_name reference_file w)))
    with (snd (merge_exit test_name (reference_lines_of w reference_file)
                 current_lines (after_read test_name reference_file w))).
  rewrite Hfile.
  destruct (ack_run MERGE_OK
              (after_merge test_name (reference_lines_of w reference_file)
                 current_lines (after_read test_name reference_file w)))
    as (w7 & -> & _); [done|exact Hready|].
  simpl fst. simpl snd. rewrite Hns.
  unfold ReconcileTool._print.
  rewrite bind_unfold. rewrite (bind_unfold (print _)). simpl.
  rewrite unlink_if_file. simpl. split; [reflexivity|].
  by rewrite lookup_insert_eq, join_readlines.
Qed.

Lemma merged_file_becomes_reference_witness :
  fst (ReconcileTool.reconcile whole_file_diff ReconcileToolKdiff3.invoke_tool
         "t" "test.ref" ["b" +:+ NL] None
         (merging_world {[ "test.ref" := "a" +:+ NL ]} true ["c"] []
            ("ab" +:+ NL))) = Ok true /\
  fs (snd (ReconcileTool.reconcile whole_file_diff ReconcileToolKdiff3.invoke_tool
             "t" "test.ref" ["b" +:+ NL] None
             (merging_world {[ "test.ref" := "a" +:+ NL ]} true ["c"] []
                ("ab" +:+ NL))))
    !! "test.ref" = Some ("ab" +:+ NL).
Proof.
  apply (merged_file_becomes_reference whole_file_diff "t" "test.ref"
           ["b" +:+ NL] None
           (merging_world {[ "test.ref" := "a" +:+ NL ]} true ["c"] []
              ("ab" +:+ NL)) ("ab" +:+ NL));
    [reflexivity | vm_compute; discriminate | reflexivity
    | vm_compute; reflexivity | vm_compute; discriminate].
Defined.

(** ** The command line *)

(** The options as [optparse] hands them over; each one is [None] when it is
    not given. *)
Record opts : Type := Opts {
  opt_reconcile : option string;
  opt_reference : option string;
  opt_current : option string;
  opt_test : option string;
  opt_no_save : option string
}.

(** [print(what, file=sys.stderr)]; the lines of the error stream are kept
    next to the world. *)
Definition print_stderr (what : string) : M (list string * world) unit :=
  fun s => (Ok tt, (fst s ++ [what], snd s)).

(** [os.environ.get('BOND_RECONCILE', default)] *)
Definition os_environ_get (default : string) : M world string :=
  fun w => (Ok (match environ w with Some v => v | None => default end), w).

Section Main.

Variable unified_diff : differ.

(** [os.path.splitext(os.path.basename(path))[0]], a parameter. *)
Variable splitext_basename : string -> string.

(** The script of the module; its value is the exit status that [sys.exit]
    is called with. *)
Definition main (o : opts) : M (list string * world) Z :=
  match opt_reference o with
  | None => ret 1%Z
  | Some reference_file =>
      match opt_current o with
      | None =>
          print_stderr ("The current file does not exist: " +:+ str None) ;;
          ret 1%Z
      | Some current_file =>
          found <- lift (os_path_isfile current_file) ;;
          if negb found then
            print_stderr ("The current file does not exist: " +:+ current_file) ;;
            ret 1%Z
          else
            current_lines <- lift (open_readlines current_file) ;;
            lift (os_unlink current_file) ;;
            let main_test_name :=
              if truthy (opt_test o) then str (opt_test o)
              else splitext_basename current_file in
            main_reconcile <-
              (if truthy (opt_reconcile o) then ret (str (opt_reconcile o))
               else lift (os_environ_get "console")) ;;
            reconciled <-
              lift (reconcile_observations unified_diff (Some main_reconcile)
                      main_test_name reference_file current_lines
                      (opt_no_save o)) ;;
            if (reconciled : bool) then ret 0%Z else ret 1%Z
      end
  end.

End Main.

(** X13: without a reference option, or without a current file that exists,
    the script exits with 1 and touches nothing: no file is read, removed or
    written and nothing goes to standard output; in the second case the
    error stream gets one line that names the current file. *)
Theorem main_missing_input (unified_diff : differ)
    (splitext_basename : string -> string) (o : opts)
    (err : list string) (w : world) :
  opt_reference o = None \/ opt_current o = None \/
  (exists current_file, opt_current o = Some current_file /\
                        fs w !! current_file = None) ->
  main unified_diff splitext_basename o (err, w)
  = (Ok 1%Z,
     (match opt_reference o with
      | None => err
      | Some _ => err ++ ["The current file does not exist: " +:+
                          str (opt_current o)]
      end, w)).
Proof.
  intros H. unfold main.
  destruct (opt_reference o) as [reference_file|]; [|reflexivity].
  destruct H as [H|[H|(current_file & H & Hfile)]]; [discriminate| |];
    rewrite H; [reflexivity|].
  rewrite bind_unfold. unfold lift, os_path_isfile. simpl.
  rewrite Hfile.
  rewrite bool_decide_eq_false_2 by (intros [? ?]; discriminate).
  reflexivity.
Qed.

Lemma main_missing_input_witness :
  (opt_reference (Opts None (Some "test.ref") (Some "test.cur") None None) = None \/
   opt_current (Opts None (Some "test.ref") (Some "test.cur") None None) = None \/
   (exists current_file,
      opt_current (Opts None (Some "test.ref") (Some "test.cur") None None)
      = Some current_file /\
      fs scenario_world !! current_file = None)) /\
  main whole_file_diff (fun path => path)
       (Opts None (Some "test.ref") (Some "test.cur") None None)
       ([], scenario_world)
  = (Ok 1%Z, (["The current file does not exist: test.cur"], scenario_world)).
Proof.
  assert (opt_reference (Opts None (Some "test.ref") (Some "test.cur") None None)
          = None \/
          opt_current (Opts None (Some "test.ref") (Some "test.cur") None None)
          = None \/
          (exists current_file,
             opt_current (Opts None (Some "test.ref") (Some "test.cur") None None)
             = Some current_file /\
             fs scenario_world !! current_file = None)) as H.
  { right. right. exists "test.cur". split; reflexivity. }
  split; [exact H|].
  exact (main_missing_input whole_file_diff (fun path => path)
           (Opts None (Some "test.ref") (Some "test.cur") None None)
           [] scenario_world H).
Defined.

Lemma lift_run {L A : Type} (c : M world A) (l : L) (w : world) :
  lift c (l, w) = (fst (c w), (l, snd (c w))).
Proof. unfold lift. simpl. by destruct (c w). Qed.

Lemma readlines_inj (a b : string) : readlines a = readlines b -> a = b.
Proof. intros H. by rewrite <- (join_readlines a), <- (join_readlines b), H. Qed.

(** X14: with the accept strategy and nothing against saving, the script
    moves the current observations into the reference: it exits with 0, the
    current file is gone, the reference afterwards reads line for line as
    the current file did (and holds its very bytes, unless the current file
    was empty), and no other file has changed. *)
Theorem main_accept (unified_diff : differ)
    (splitext_basename : string -> string) (o : opts)
    (err : list string) (w : world)
    (reference_file current_file content : string) :
  (forall a b, unified_diff a b "reference" "current" = [] -> a = b) ->
  opt_reference o = Some reference_file ->
  opt_current o = Some current_file ->
  opt_reconcile o = Some "accept" ->
  truthy (opt_no_save o) = false ->
  fs w !! current_file = Some content ->
  reference_file <> current_file ->
  exists w',
    main unified_diff splitext_basename o (err, w) = (Ok 0%Z, (err, w')) /\
    fs w' !! current_file = None /\
    reference_lines_of w' reference_file = readlines content /\
    (content <> "" -> fs w' !! reference_file = Some content) /\
    (forall p, p <> reference_file -> p <> current_file -> fs w' !! p = fs w !! p).
Proof.
  intros Hdiffer Href Hcur Htool Hns Hfile Hne.
  unfold main. rewrite Href, Hcur, Htool.
  rewrite bind_unfold, lift_run. unfold os_path_isfile at 1 2. cbn [fst snd].
  rewrite Hfile. rewrite bool_decide_eq_true_2 by eauto. cbn [negb].
  rewrite bind_unfold, lift_run. unfold open_readlines at 1 2. rewrite Hfile.
  cbn [fst snd].
  rewrite bind_unfold, lift_run. unfold os_unlink at 1 2. rewrite Hfile.
  cbn [fst snd].
  set (w1 := with_fs (delete current_file (fs w)) w).
  set (name := if truthy (opt_test o) then _ else _).
  rewrite bind_unfold. change (truthy (Some "accept")) with true. cbv iota.
  unfold ret at 1.
  rewrite bind_unfold, lift_run.
  unfold reconcile_observations. rewrite !bind_unfold.
  change (select (Some (str (Some "accept"))) w1) with (Ok Accept, w1).
  cbn [invoke_tool_of].
  assert (reference_lines_of w1 reference_file = reference_lines_of w reference_file)
    as Hrl.
  { unfold reference_lines_of, w1. simpl. by rewrite lookup_delete_ne. }
  destruct (decide (ReconcileTool._compute_diff unified_diff
                      (reference_lines_of w1 reference_file) (readlines content)
                    = [])) as [Hsame|Hdiff].
  - (* no difference: the reference already reads as the current file *)
    rewrite reconcile_unfold. cbv zeta. rewrite Hsame. simpl.
    apply Hdiffer in Hsame.
    assert (fs w1 !! reference_file = fs w !! reference_file) as Hlook
        by (unfold w1; simpl; by rewrite lookup_delete_ne).
    eexists. split; [reflexivity|]. rewrite fs_after_read.
    split; [unfold w1; simpl; apply lookup_delete_eq|].
    split; [|split].
    + unfold reference_lines_of. rewrite fs_after_read. exact Hsame.
    + intros Hcontent. rewrite Hlook.
      unfold reference_lines_of in Hsame. rewrite Hlook in Hsame.
      destruct (fs w !! reference_file) as [old|].
      * f_equal. by apply readlines_inj.
      * exfalso. apply Hcontent. apply readlines_inj. by rewrite <- Hsame.
    + intros p _ Hp. unfold w1. simpl. by rewrite lookup_delete_ne.
  - (* a difference: accepted and written *)
    destruct (accept_run unified_diff name reference_file (readlines content)
                (opt_no_save o) w1 Hdiff) as (w' & Hrun & Hfs).
    rewrite Hrun. rewrite Hns in Hfs. simpl.
    exists w'. split; [reflexivity|]. rewrite Hfs.
    split; [rewrite lookup_insert_ne by done; unfold w1; simpl;
            apply lookup_delete_eq|].
    split; [|split].
    + unfold reference_lines_of. rewrite Hfs, lookup_insert_eq.
      by rewrite join_readlines.
    + intros _. by rewrite lookup_insert_eq, join_readlines.
    + intros p Hp Hp'. rewrite lookup_insert_ne by done.
      unfold w1. simpl. by rewrite lookup_delete_ne.
Qed.

Lemma whole_file_diff_empty (a b : list string) :
  whole_file_diff a b "reference" "current" = [] -> a = b.
Proof.
  unfold whole_file_diff. destruct (bool_decide (a = b)) eqn:E.
  - intros _. by apply bool_decide_eq_true in E.
  - discriminate.
Qed.

Lemma main_accept_witness :
  (forall a b, whole_file_diff a b "reference" "current" = [] -> a = b) /\
  truthy None = false /\
  fs (sample_world {[ "test.cur" := "x" +:+ NL ]} true [] []) !! "test.cur"
    = Some ("x" +:+ NL) /\
  "test.ref" <> "test.cur" /\
  exists w',
    main whole_file_diff (fun path => path)
         (Opts (Some "accept") (Some "test.ref") (Some "test.cur") None None)
         ([], sample_world {[ "test.cur" := "x" +:+ NL ]} true [] [])
      = (Ok 0%Z, ([], w')) /\
    fs w' !! "test.cur" = None /\
    fs w' !! "test.ref" = Some ("x" +:+ NL).
Proof.
  assert (fs (sample_world {[ "test.cur" := "x" +:+ NL ]} true [] []) !! "test.cur"
          = Some ("x" +:+ NL)) as Hfile by reflexivity.
  assert ("test.ref" <> "test.cur") as Hne by discriminate.
  split; [exact whole_file_diff_empty|]. split; [reflexivity|].
  split; [exact Hfile|]. split; [exact Hne|].
  destruct (main_accept whole_file_diff (fun path => path)
              (Opts (Some "accept") (Some "test.ref") (Some "test.cur") None None)
              [] (sample_world {[ "test.cur" := "x" +:+ NL ]} true [] [])
              "test.ref" "test.cur" ("x" +:+ NL)
              whole_file_diff_empty eq_refl eq_refl eq_refl eq_refl Hfile Hne)
    as (w' & Hrun & Hgone & _ & Hbytes & _).
  exists w'. split; [exact Hrun|]. split; [exact Hgone|].
  apply Hbytes. discriminate.
Defined.

(** The run of [reconcile] with the abort strategy on a non-empty diff. *)
Lemma abort_run (unified_diff : differ) test_name reference_file
    current_lines no_save (w : world) :
  ReconcileTool._compute_diff unified_diff
    (reference_lines_of w reference_file) current_lines <> [] ->
  exists w',
    ReconcileTool.reconcile unified_diff ReconcileToolAbort.invoke_tool
        test_name reference_file current_lines no_save w = (Ok false, w') /\
    fs w' = fs w.
Proof.
  intros Hdiff. rewrite reconcile_unfold. cbv zeta.
  rewrite (length_eqb_0 _ Hdiff).
  unfold ReconcileToolAbort.invoke_tool, ReconcileTool._print.
  destruct (truthy no_save) eqn:Hns;
    (eexists; split; [reflexivity|simpl; apply fs_after_read]).
Qed.

(** The script up to the call of [reconcile_observations]: with both options
    given and the current file there, its lines are read and the file is
    removed before anything else happens. *)
Lemma main_reads_and_unlinks (unified_diff : differ)
    (splitext_basename : string -> string) (o : opts)
    (err : list string) (w : world)
    (reference_file current_file content tool_given : string) :
  opt_reference o = Some reference_file ->
  opt_current o = Some current_file ->
  opt_reconcile o = Some tool_given -> tool_given <> "" ->
  fs w !! current_file = Some content ->
  main unified_diff splitext_basename o (err, w)
  = (reconciled <-
       lift (reconcile_observations unified_diff (Some tool_given)
               (if truthy (opt_test o) then str (opt_test o)
                else splitext_basename current_file)
               reference_file (readlines content) (opt_no_save o)) ;;
     if (reconciled : bool) then ret 0%Z else ret 1%Z)
      (err, with_fs (delete current_file (fs w)) w).
Proof.
  intros Href Hcur Htool Hgiven Hfile.
  unfold main. rewrite Href, Hcur, Htool.
  rewrite bind_unfold, lift_run. unfold os_path_isfile at 1 2. cbn [fst snd].
  rewrite Hfile. rewrite bool_decide_eq_true_2 by eauto. cbn [negb].
  rewrite bind_unfold, lift_run. unfold open_readlines at 1 2. rewrite Hfile.
  cbn [fst snd].
  rewrite bind_unfold, lift_run. unfold os_unlink at 1 2. rewrite Hfile.
  cbn [fst snd].
  rewrite bind_unfold.
  assert (truthy (Some tool_given) = true) as ->.
  { simpl. apply negb_true_iff. by apply String.eqb_neq. }
  reflexivity.
Qed.

(** X15: an aborted reconciliation still consumes the current file.  With
    the abort strategy, and a difference between the current lines and the
    reference as it is once the current file has been removed, the script
    exits with 1 and all it has done to the files is to remove the current
    file.  So a reference file that is another file than the current one is
    as before, like every other file; a reference option that names the
    current file itself names a file that is gone. *)
Theorem main_abort (unified_diff : differ)
    (splitext_basename : string -> string) (o : opts)
    (err : list string) (w : world)
    (reference_file current_file content : string) :
  opt_reference o = Some reference_file ->
  opt_current o = Some current_file ->
  opt_reconcile o = Some "abort" ->
  fs w !! current_file = Some content ->
  ReconcileTool._compute_diff unified_diff
    (if bool_decide (reference_file = current_file) then []
     else reference_lines_of w reference_file)
    (readlines content) <> [] ->
  exists w',
    main unified_diff splitext_basename o (err, w) = (Ok 1%Z, (err, w')) /\
    fs w' = delete current_file (fs w) /\
    fs w' !! current_file = None /\
    (forall p, p <> current_file -> fs w' !! p = fs w !! p).
Proof.
  intros Href Hcur Htool Hfile Hdiff.
  rewrite (main_reads_and_unlinks unified_diff splitext_basename o err w
             reference_file current_file content "abort" Href Hcur Htool
             ltac:(discriminate) Hfile).
  set (w1 := with_fs (delete current_file (fs w)) w).
  set (name := if truthy (opt_test o) then _ else _).
  assert (reference_lines_of w1 reference_file
          = if bool_decide (reference_file = current_file) then []
            else reference_lines_of w reference_file) as Hrl.
  { unfold reference_lines_of, w1. simpl.
    destruct (bool_decide (reference_file = current_file)) eqn:E.
    - apply bool_decide_eq_true in E. subst. by rewrite lookup_delete_eq.
    - apply bool_decide_eq_false in E. by rewrite lookup_delete_ne. }
  rewrite <- Hrl in Hdiff.
  destruct (abort_run unified_diff name reference_file (readlines content)
              (opt_no_save o) w1 Hdiff) as (w' & Hrun & Hfs).
  rewrite bind_unfold, lift_run.
  unfold reconcile_observations. rewrite !bind_unfold.
  change (select (Some "abort") w1) with (Ok Abort, w1). cbn [invoke_tool_of].
  rewrite Hrun. cbn [fst snd].
  exists w'. split; [reflexivity|]. split; [exact Hfs|]. rewrite Hfs.
  split; [apply lookup_delete_eq|].
  intros p Hp. unfold w1. simpl. by rewrite lookup_delete_ne.
Qed.

Lemma main_abort_witness :
  fs (sample_world {[ "test.cur" := "x" +:+ NL ]} true [] []) !! "test.cur"
    = Some ("x" +:+ NL) /\
  ReconcileTool._compute_diff whole_file_diff
    (if bool_decide ("test.ref" = "test.cur") then []
     else reference_lines_of
            (sample_world {[ "test.cur" := "x" +:+ NL ]} true [] []) "test.ref")
    (readlines ("x" +:+ NL)) <> [] /\
  exists w',
    main whole_file_diff (fun path => path)
         (Opts (Some "abort") (Some "test.ref") (Some "test.cur") None None)
         ([], sample_world {[ "test.cur" := "x" +:+ NL ]} true [] [])
      = (Ok 1%Z, ([], w')) /\
    fs w' = delete "test.cur"
              (fs (sample_world {[ "test.cur" := "x" +:+ NL ]} true [] [])).
Proof.
  assert (fs (sample_world {[ "test.cur" := "x" +:+ NL ]} true [] []) !! "test.cur"
          = Some ("x" +:+ NL)) as Hfile by reflexivity.
  assert (ReconcileTool._compute_diff whole_file_diff
            (if bool_decide ("test.ref" = "test.cur") then []
             else reference_lines_of
                    (sample_world {[ "test.cur" := "x" +:+ NL ]} true [] [])
                    "test.ref")
            (readlines ("x" +:+ NL)) <> []) as Hdiff
      by (vm_compute; discriminate).
  split; [exact Hfile|]. split; [exact Hdiff|].
  destruct (main_abort whole_file_diff (fun path => path)
              (Opts (Some "abort") (Some "test.ref") (Some "test.cur") None None)
              [] (sample_world {[ "test.cur" := "x" +:+ NL ]} true [] [])
              "test.ref" "test.cur" ("x" +:+ NL) eq_refl eq_refl eq_refl
              Hfile Hdiff) as (w' & Hrun & Hfs & _).
  exists w'. split; [exact Hrun|exact Hfs].
Defined.

(** The reference option names the current file itself: the abort leaves
    neither. *)
Example main_abort_same_file :
  fst (main whole_file_diff (fun path => path)
         (Opts (Some "abort") (Some "test.cur") (Some "test.cur") None None)
         ([], sample_world {[ "test.cur" := "x" +:+ NL ]} true [] []))
  = Ok 1%Z /\
  fs (snd (snd (main whole_file_diff (fun path => path)
                  (Opts (Some "abort") (Some "test.cur") (Some "test.cur")
                        None None)
                  ([], sample_world {[ "test.cur" := "x" +:+ NL ]} true [] []))))
  = ∅.
Proof. split; vm_compute; reflexivity. Qed.

(** X16: a tool name that [select] does not know is found out only after the
    current file has been read and removed: the script then fails with the
    assertion of [select], and the current file is gone. *)
Theorem main_unknown_tool (unified_diff : differ)
    (splitext_basename : string -> string) (o : opts)
    (err : list string) (w : world)
    (reference_file current_file content tool_given : string) :
  opt_reference o = Some reference_file ->
  opt_current o = Some current_file ->
  opt_reconcile o = Some tool_given -> tool_given <> "" ->
  (forall c, tool_given <> tool_name c) ->
  fs w !! current_file = Some content ->
  main unified_diff splitext_basename o (err, w)
  = (Raise (AssertionError ("Unrecognized bond_reconcile tool name: " +:+
                            tool_given)),
     (err, with_fs (delete current_file (fs w)) w)).
Proof.
  intros Href Hcur Htool Hgiven Hunknown Hfile.
  rewrite (main_reads_and_unlinks unified_diff splitext_basename o err w
             reference_file current_file content tool_given Href Hcur Htool
             Hgiven Hfile).
  rewrite bind_unfold, lift_run.
  unfold reconcile_observations. rewrite !bind_unfold.
  unfold select.
  destruct (select_named tool_given) as [c|] eqn:E; [|reflexivity].
  apply select_named_Some in E. by destruct (Hunknown c).
Qed.

Lemma main_unknown_tool_witness :
  "acept" <> "" /\
  (forall c, "acept" <> tool_name c) /\
  fs (sample_world {[ "test.cur" := "x" +:+ NL ]} true [] []) !! "test.cur"
    = Some ("x" +:+ NL) /\
  main whole_file_diff (fun path => path)
       (Opts (Some "acept") (Some "test.ref") (Some "test.cur") None None)
       ([], sample_world {[ "test.cur" := "x" +:+ NL ]} true [] [])
  = (Raise (AssertionError ("Unrecognized bond_reconcile tool name: " +:+ "acept")),
     ([], with_fs (delete "test.cur"
                     (fs (sample_world {[ "test.cur" := "x" +:+ NL ]} true [] [])))
            (sample_world {[ "test.cur" := "x" +:+ NL ]} true [] []))).
Proof.
  assert ("acept" <> "") as Hgiven by discriminate.
  assert (forall c, "acept" <> tool_name c) as Hunknown by (intros []; discriminate).
  assert (fs (sample_world {[ "test.cur" := "x" +:+ NL ]} true [] []) !! "test.cur"
          = Some ("x" +:+ NL)) as Hfile by reflexivity.
  split; [exact Hgiven|]. split; [exact Hunknown|]. split; [exact Hfile|].
  exact (main_unknown_tool whole_file_diff (fun path => path)
           (Opts (Some "acept") (Some "test.ref") (Some "test.cur") None None)
           [] (sample_world {[ "test.cur" := "x" +:+ NL ]} true [] [])
           "test.ref" "test.cur" ("x" +:+ NL) "acept" eq_refl eq_refl eq_refl
           Hgiven Hunknown Hfile).
Defined.
